(** * ARIEL core: emotional/incentive feedback, self-healing and warp phases

    A shallow embedding of [src/core/ariel_algorithm.py].

    Conventions of the embedding
    - Python [float]s are idealised as exact rationals ([Q]); equalities
      between computed numbers are stated with [==] ([Qeq]).  Where the
      code rounds, a rational names the expression that is computed and
      not the last digits of the double: the numeric statements below are
      comparisons, bounds and clamps, values the code copies or sets, and
      the formula a result is computed by.
    - [time.time()] is an input of every operation that reads the clock.
    - A Python object mutated in place is a state threaded through the
      operation; an operation that can raise returns the exception next to
      the state the object is left in. *)

From Stdlib Require Import List String Ascii Bool Arith ZArith QArith Qabs Lia Lqa.
From Stdlib Require Import Sorted Permutation DecimalString.
Import ListNotations.

Open Scope string_scope.
Open Scope Q_scope.

(** ** Python values and exceptions *)

Module Py.

Inductive exn : Type :=
| ValueError (msg : string)
| TypeError
| AttributeError (msg : string)
| KeyError
| ZeroDivisionError.

Inductive res (A : Type) : Type :=
| Ok (a : A)
| Raise (e : exn).
Arguments Ok {A} a.
Arguments Raise {A} e.

(** A method of an object with state [S]: the result or the exception,
    and the state the object is left in. *)
Definition M (S A : Type) : Type := S -> res A * S.

Definition ret {S A} (a : A) : M S A := fun s => (Ok a, s).
Definition raise {S A} (e : exn) : M S A := fun s => (Raise e, s).
Definition bind {S A B} (m : M S A) (k : A -> M S B) : M S B :=
  fun s => match m s with
           | (Ok a, s') => k a s'
           | (Raise e, s') => (Raise e, s')
           end.
Definition get {S} : M S S := fun s => (Ok s, s).
Definition modify {S} (f : S -> S) : M S unit := fun s => (Ok tt, f s).

(** [for x in xs: body x] *)
Fixpoint for_each {S A} (xs : list A) (body : A -> M S unit) : M S unit :=
  match xs with
  | [] => ret tt
  | x :: xs' => bind (body x) (fun _ => for_each xs' body)
  end.

(** Every run of [m] takes a state to one related to it by [R], whether it
    returns or raises. *)
Definition keeps {S A} (R : S -> S -> Prop) (m : M S A) : Prop :=
  forall s, R s (snd (m s)).

(** Python's [max(a, b)] and [min(a, b)]: the first argument wins ties. *)
Definition Qlt_bool (a b : Q) : bool := negb (Qle_bool b a).
Definition max (a b : Q) : Q := if Qlt_bool a b then b else a.
Definition min (a b : Q) : Q := if Qlt_bool b a then b else a.

(** [sum(l)] *)
Definition Qsum (l : list Q) : Q := fold_right Qplus 0 l.

(** [needle in haystack] on strings. *)
Fixpoint contains (needle haystack : string) : bool :=
  String.prefix needle haystack
  || match haystack with
     | EmptyString => false
     | String _ rest => contains needle rest
     end.

(** [s.startswith(p)] *)
Definition startswith (s p : string) : bool := String.prefix p s.

(** [s[n:]] *)
Fixpoint drop (n : nat) (s : string) : string :=
  match n, s with
  | O, _ => s
  | S _, EmptyString => EmptyString
  | S n', String _ rest => drop n' rest
  end.

(** [s.replace('_', ' ')] *)
Fixpoint replace_underscore (s : string) : string :=
  match s with
  | EmptyString => EmptyString
  | String c rest =>
      String (if Ascii.eqb c "_"%char then " "%char else c)
             (replace_underscore rest)
  end.

(** [max(x, *l, key=key)]: the first of the largest. *)
Fixpoint max_from {A} (key : A -> Q) (best : A) (l : list A) : A :=
  match l with
  | [] => best
  | x :: l' => max_from key (if Qlt_bool (key best) (key x) then x else best) l'
  end.

(** [m] returns normally from every state. *)
Definition returns {S A} (m : M S A) : Prop :=
  forall s, exists a s', m s = (Ok a, s').

End Py.

Notation "x <- m ;; k" := (Py.bind m (fun x => k))
  (at level 61, m at next level, right associativity).
Notation "m ;;; k" := (Py.bind m (fun _ => k))
  (at level 61, right associativity).

(** ** EmotionalState *)

Module Emotion.

Record EmotionalState : Type := mkEmotionalState {
  joy : Q;
  sadness : Q;
  fear : Q;
  anger : Q;
  trust : Q;
  disgust : Q;
  anticipation : Q;
  surprise : Q;
  stability : Q;
  adaptability : Q;
  social_alignment : Q
}.

Definition update_derived_metrics (self : EmotionalState) : EmotionalState :=
  mkEmotionalState
    (joy self) (sadness self) (fear self) (anger self)
    (trust self) (disgust self) (anticipation self) (surprise self)
    ((joy self + trust self - fear self - anger self) / 2)
    ((anticipation self + surprise self - sadness self) / 2)
    (trust self - disgust self).

(** The dataclass defaults followed by [__post_init__]. *)
Definition default : EmotionalState :=
  update_derived_metrics
    (mkEmotionalState 50 50 50 50 50 50 50 50 0 0 0).

(** The list the decay loop of [update_emotion] walks. *)
Definition emotion_names : list string :=
  ["joy"; "sadness"; "fear"; "anger"; "trust"; "disgust";
   "anticipation"; "surprise"].

(** What [getattr] finds on an instance: a float field, or something that
    is not a number (a bound method and the like). *)
Inductive attr : Type :=
| AFloat (q : Q)
| AOther.

(** The other names [hasattr] finds on an instance: what the class body and
    [@dataclass] define, and what [object] provides. *)
Definition other_attrs : list string :=
  ["update_derived_metrics"; "update_emotion"; "get_dominant_emotion";
   "get_emotional_vector"; "emotional_distance"; "__post_init__";
   "__init__"; "__repr__"; "__eq__"; "__hash__"; "__match_args__";
   "__dataclass_fields__"; "__dataclass_params__"; "__annotations__";
   "__class__"; "__delattr__"; "__dict__"; "__dir__"; "__doc__";
   "__format__"; "__ge__"; "__getattribute__"; "__getstate__"; "__gt__";
   "__init_subclass__"; "__le__"; "__lt__"; "__module__"; "__ne__";
   "__new__"; "__reduce__"; "__reduce_ex__"; "__setattr__"; "__sizeof__";
   "__str__"; "__subclasshook__"; "__weakref__"].

Definition getattr (self : EmotionalState) (name : string) : option attr :=
  if name =? "joy" then Some (AFloat (joy self))
  else if name =? "sadness" then Some (AFloat (sadness self))
  else if name =? "fear" then Some (AFloat (fear self))
  else if name =? "anger" then Some (AFloat (anger self))
  else if name =? "trust" then Some (AFloat (trust self))
  else if name =? "disgust" then Some (AFloat (disgust self))
  else if name =? "anticipation" then Some (AFloat (anticipation self))
  else if name =? "surprise" then Some (AFloat (surprise self))
  else if name =? "stability" then Some (AFloat (stability self))
  else if name =? "adaptability" then Some (AFloat (adaptability self))
  else if name =? "social_alignment" then Some (AFloat (social_alignment self))
  else if existsb (String.eqb name) other_attrs then Some AOther
  else None.

Definition hasattr (self : EmotionalState) (name : string) : bool :=
  match getattr self name with Some _ => true | None => false end.

Definition setattr (self : EmotionalState) (name : string) (v : Q)
  : EmotionalState :=
  let '(mkEmotionalState j sa f a t d an su st ad so) := self in
  if name =? "joy" then mkEmotionalState v sa f a t d an su st ad so
  else if name =? "sadness" then mkEmotionalState j v f a t d an su st ad so
  else if name =? "fear" then mkEmotionalState j sa v a t d an su st ad so
  else if name =? "anger" then mkEmotionalState j sa f v t d an su st ad so
  else if name =? "trust" then mkEmotionalState j sa f a v d an su st ad so
  else if name =? "disgust" then mkEmotionalState j sa f a t v an su st ad so
  else if name =? "anticipation" then mkEmotionalState j sa f a t d v su st ad so
  else if name =? "surprise" then mkEmotionalState j sa f a t d an v st ad so
  else if name =? "stability" then mkEmotionalState j sa f a t d an su v ad so
  else if name =? "adaptability" then mkEmotionalState j sa f a t d an su st v so
  else if name =? "social_alignment" then mkEmotionalState j sa f a t d an su st ad v
  else self.

(** [getattr] on one of the eight names of the decay loop. *)
Definition get_float (self : EmotionalState) (name : string) : Q :=
  match getattr self name with
  | Some (AFloat q) => q
  | _ => 0
  end.

Definition update_emotion (emotion : string) (value : Q) (decay_factor : Q)
  : Py.M EmotionalState unit :=
  self <- Py.get ;;
  match getattr self emotion with
  | None => Py.raise (Py.ValueError ("Unknown emotion: " ++ emotion))
  | Some AOther => Py.raise Py.TypeError
  | Some (AFloat current) =>
      Py.modify (fun s =>
        setattr s emotion (Py.max 0 (Py.min 100 (current + value)))) ;;;
      Py.for_each emotion_names (fun e =>
        if negb (e =? emotion)
        then Py.modify (fun s => setattr s e (get_float s e * decay_factor))
        else Py.ret tt) ;;;
      Py.modify update_derived_metrics
  end.

(** [decay_factor] defaults to 0.9. *)
Definition default_decay : Q := 9 # 10.

(** The eight intensities, in declaration order. *)
Definition intensities (self : EmotionalState) : list Q :=
  [joy self; sadness self; fear self; anger self;
   trust self; disgust self; anticipation self; surprise self].

(** The dict [get_dominant_emotion] builds. *)
Definition emotions (self : EmotionalState) : list (string * Q) :=
  [("joy", joy self); ("sadness", sadness self); ("fear", fear self);
   ("anger", anger self); ("trust", trust self); ("disgust", disgust self);
   ("anticipation", anticipation self); ("surprise", surprise self)].

Definition get_dominant_emotion (self : EmotionalState) : string * Q :=
  Py.max_from snd ("joy", joy self) (tl (emotions self)).

(** The eight intensities lie within the 0-100 scale. *)
Definition in_range (self : EmotionalState) : Prop :=
  Forall (fun v => 0 <= v /\ v <= 100) (intensities self).

(** The derived metrics are the ones the intensities give. *)
Definition derived_ok (self : EmotionalState) : Prop :=
  self = update_derived_metrics self.

End Emotion.

(** ** IncentiveSystem *)

Module Incentive.

Import Emotion.

(** An entry of [reward_history]: [(reward_type, value, timestamp)]. *)
Definition RewardRecord : Type := (string * Q * Q)%type.

Record IncentiveSystem : Type := mkIncentiveSystem {
  curiosity_reward : Q;
  efficiency_reward : Q;
  cooperation_reward : Q;
  innovation_reward : Q;
  error_penalty : Q;
  resource_waste_penalty : Q;
  conflict_penalty : Q;
  stagnation_penalty : Q;
  reward_scaling : Q;
  penalty_scaling : Q;
  reward_history : list RewardRecord
}.

Definition default : IncentiveSystem :=
  mkIncentiveSystem 5 3 4 6 (-3) (-4) (-5) (-2) 1 1 [].

Definition other_attrs : list string :=
  ["apply_reward"; "apply_penalty"; "get_recent_rewards";
   "get_total_reward"; "adapt_incentives"; "reward_history"].

Definition getattr (self : IncentiveSystem) (name : string) : option attr :=
  if name =? "curiosity_reward" then Some (AFloat (curiosity_reward self))
  else if name =? "efficiency_reward" then Some (AFloat (efficiency_reward self))
  else if name =? "cooperation_reward" then Some (AFloat (cooperation_reward self))
  else if name =? "innovation_reward" then Some (AFloat (innovation_reward self))
  else if name =? "error_penalty" then Some (AFloat (error_penalty self))
  else if name =? "resource_waste_penalty" then Some (AFloat (resource_waste_penalty self))
  else if name =? "conflict_penalty" then Some (AFloat (conflict_penalty self))
  else if name =? "stagnation_penalty" then Some (AFloat (stagnation_penalty self))
  else if name =? "reward_scaling" then Some (AFloat (reward_scaling self))
  else if name =? "penalty_scaling" then Some (AFloat (penalty_scaling self))
  else if existsb (String.eqb name) other_attrs then Some AOther
  else None.

(** [self.reward_history.append(r)] *)
Definition append_history (r : RewardRecord) (self : IncentiveSystem)
  : IncentiveSystem :=
  mkIncentiveSystem
    (curiosity_reward self) (efficiency_reward self)
    (cooperation_reward self) (innovation_reward self)
    (error_penalty self) (resource_waste_penalty self)
    (conflict_penalty self) (stagnation_penalty self)
    (reward_scaling self) (penalty_scaling self)
    (reward_history self ++ [r])%list.

(** The state [apply_reward] works on: the incentive system itself and the
    [emotional_state] argument, both mutated in place. *)
Definition St : Type := (IncentiveSystem * EmotionalState)%type.

Definition on_self {A} (m : Py.M IncentiveSystem A) : Py.M St A :=
  fun '(i, e) => let '(r, i') := m i in (r, (i', e)).
Definition on_emotions {A} (m : Py.M EmotionalState A) : Py.M St A :=
  fun '(i, e) => let '(r, e') := m e in (r, (i, e')).

(** [now] is the reading of [time.time()] when the record is appended. *)
Definition apply_reward (reward_type : string) (magnitude : Q) (now : Q)
  : Py.M St Q :=
  self <- on_self Py.get ;;
  match getattr self (reward_type ++ "_reward") with
  | None => Py.raise (Py.ValueError ("Unknown reward type: " ++ reward_type))
  | Some AOther => Py.raise Py.TypeError
  | Some (AFloat base_reward) =>
      let scaled_reward := base_reward * magnitude * reward_scaling self in
      on_self (Py.modify (append_history (reward_type, scaled_reward, now))) ;;;
      (if reward_type =? "curiosity" then
         on_emotions (update_emotion "surprise" (scaled_reward * (5 # 10)) default_decay) ;;;
         on_emotions (update_emotion "joy" (scaled_reward * (3 # 10)) default_decay)
       else if reward_type =? "efficiency" then
         on_emotions (update_emotion "joy" (scaled_reward * (4 # 10)) default_decay) ;;;
         on_emotions (update_emotion "trust" (scaled_reward * (2 # 10)) default_decay)
       else if reward_type =? "cooperation" then
         on_emotions (update_emotion "trust" (scaled_reward * (5 # 10)) default_decay) ;;;
         on_emotions (update_emotion "joy" (scaled_reward * (2 # 10)) default_decay)
       else if reward_type =? "innovation" then
         on_emotions (update_emotion "surprise" (scaled_reward * (3 # 10)) default_decay) ;;;
         on_emotions (update_emotion "joy" (scaled_reward * (4 # 10)) default_decay)
       else Py.ret tt) ;;;
      Py.ret scaled_reward
  end.

(** The comprehension of [get_recent_rewards], over the history. *)
Fixpoint recent (current_time time_window : Q) (history : list RewardRecord)
  : list (string * Q) :=
  match history with
  | [] => []
  | (reward_type, value, timestamp) :: rest =>
      if Qle_bool (current_time - timestamp) time_window
      then (reward_type, value) :: recent current_time time_window rest
      else recent current_time time_window rest
  end.

(** [current_time] is the reading of [time.time()] inside the call. *)
Definition get_recent_rewards (time_window : Q) (current_time : Q)
  : Py.M IncentiveSystem (list (string * Q)) :=
  self <- Py.get ;;
  Py.ret (recent current_time time_window (reward_history self)).

(** The four reward categories. *)
Definition reward_types : list string :=
  ["curiosity"; "efficiency"; "cooperation"; "innovation"].

(** The four penalty categories. *)
Definition penalty_types : list string :=
  ["error"; "resource_waste"; "conflict"; "stagnation"].

Definition apply_penalty (penalty_type : string) (magnitude : Q) (now : Q)
  : Py.M St Q :=
  self <- on_self Py.get ;;
  match getattr self (penalty_type ++ "_penalty") with
  | None => Py.raise (Py.ValueError ("Unknown penalty type: " ++ penalty_type))
  | Some AOther => Py.raise Py.TypeError
  | Some (AFloat base_penalty) =>
      let scaled_penalty := base_penalty * magnitude * penalty_scaling self in
      on_self (Py.modify (append_history (penalty_type, scaled_penalty, now))) ;;;
      (if penalty_type =? "error" then
         on_emotions (update_emotion "sadness" (- scaled_penalty * (4 # 10)) default_decay) ;;;
         on_emotions (update_emotion "surprise" (- scaled_penalty * (2 # 10)) default_decay)
       else if penalty_type =? "resource_waste" then
         on_emotions (update_emotion "disgust" (- scaled_penalty * (3 # 10)) default_decay) ;;;
         on_emotions (update_emotion "anger" (- scaled_penalty * (3 # 10)) default_decay)
       else if penalty_type =? "conflict" then
         on_emotions (update_emotion "anger" (- scaled_penalty * (5 # 10)) default_decay) ;;;
         on_emotions (update_emotion "fear" (- scaled_penalty * (2 # 10)) default_decay)
       else if penalty_type =? "stagnation" then
         on_emotions (update_emotion "sadness" (- scaled_penalty * (4 # 10)) default_decay) ;;;
         on_emotions (update_emotion "disgust" (- scaled_penalty * (2 # 10)) default_decay)
       else Py.ret tt) ;;;
      Py.ret scaled_penalty
  end.

Definition get_total_reward (self : IncentiveSystem) : Q :=
  Py.Qsum (map (fun '(_, value, _) => value) (reward_history self)).

Definition set_scalings (r p : Q) (self : IncentiveSystem) : IncentiveSystem :=
  mkIncentiveSystem
    (curiosity_reward self) (efficiency_reward self)
    (cooperation_reward self) (innovation_reward self)
    (error_penalty self) (resource_waste_penalty self)
    (conflict_penalty self) (stagnation_penalty self)
    r p (reward_history self).

Definition adapt_incentives (performance_trend : Q) (self : IncentiveSystem)
  : IncentiveSystem :=
  if Py.Qlt_bool (2 # 10) performance_trend then
    set_scalings (Py.max (5 # 10) (reward_scaling self * (95 # 100)))
                 (Py.min (15 # 10) (penalty_scaling self * (105 # 100)))
                 self
  else if Py.Qlt_bool performance_trend (- (2 # 10)) then
    set_scalings (Py.min (15 # 10) (reward_scaling self * (105 # 100)))
                 (Py.max (5 # 10) (penalty_scaling self * (95 # 100)))
                 self
  else self.

(** Both scaling factors lie within [0.5, 1.5]. *)
Definition scalings_bounded (self : IncentiveSystem) : Prop :=
  (5 # 10) <= reward_scaling self /\ reward_scaling self <= (15 # 10)
  /\ (5 # 10) <= penalty_scaling self /\ penalty_scaling self <= (15 # 10).

(** The emotions stay on the scale. *)
Definition keeps_scale (st st' : St) : Prop :=
  Emotion.in_range (snd st) -> Emotion.in_range (snd st').

(** How a reward or penalty call ends: it raises with nothing changed, or
    it returns the value it appended to the history. *)
Definition recorded (ty : string) (t : Q) (st : St) (out : Py.res Q * St)
  : Prop :=
  (exists e, out = (Py.Raise e, st))
  \/ (exists v st', out = (Py.Ok v, st')
                   /\ fst st' = append_history (ty, v, t) (fst st)).

End Incentive.

(** ** Sorting as [sorted(..., key=..., reverse=True)] does it *)

Module PySort.

Section Sorted.
Context {A : Type} (key : A -> Q).

(** [x] comes from the left of everything in [l]: it goes in front of the
    first element whose key is not greater, so equal keys keep their
    order. *)
Fixpoint insert_desc (x : A) (l : list A) : list A :=
  match l with
  | [] => [x]
  | y :: l' =>
      if Py.Qlt_bool (key x) (key y) then y :: insert_desc x l'
      else x :: l
  end.

(** [sorted(l, key=key, reverse=True)]: descending, stable. *)
Definition sorted_desc (l : list A) : list A :=
  fold_right insert_desc [] l.
End Sorted.

(** [ge key a b]: [a] may stand before [b] in a descending list. *)
Definition ge {A} (key : A -> Q) (a b : A) : Prop := key b <= key a.

(** The elements whose key equals [q]. *)
Definition with_key {A} (key : A -> Q) (q : Q) (x : A) : bool :=
  Qeq_bool (key x) q.

(** [sorted(l, key=key)]: ascending, stable. *)
Definition sorted_asc {A} (key : A -> Q) (l : list A) : list A :=
  sorted_desc (fun x => - key x) l.

(** [np.median] of a list of numbers. *)
Definition np_median (l : list Q) : Q :=
  let s := sorted_asc (fun x => x) l in
  let n := List.length s in
  if Nat.even n
  then (nth (n / 2 - 1) s 0 + nth (n / 2) s 0) / 2
  else nth (n / 2) s 0.

End PySort.

(** ** SelfHealingSystem *)

Module Healing.

Import Emotion.

Definition Details : Type := list (string * string).

(** An entry of [error_log]. *)
Record ErrorRecord : Type := mkErrorRecord {
  e_type : string;
  e_severity : Q;
  e_timestamp : Q;
  e_details : Details;
  e_healed : bool
}.

Record HealthMetrics : Type := mkHealthMetrics {
  memory_integrity : Q;
  emotional_balance : Q;
  resource_efficiency : Q;
  decision_quality : Q;
  communication_reliability : Q
}.

(** [health_metrics.items()], in insertion order. *)
Definition items (hm : HealthMetrics) : list (string * Q) :=
  [("memory_integrity", memory_integrity hm);
   ("emotional_balance", emotional_balance hm);
   ("resource_efficiency", resource_efficiency hm);
   ("decision_quality", decision_quality hm);
   ("communication_reliability", communication_reliability hm)].

Definition metric_names : list string :=
  ["memory_integrity"; "emotional_balance"; "resource_efficiency";
   "decision_quality"; "communication_reliability"].

Definition set_memory_integrity (v : Q) (hm : HealthMetrics) :=
  mkHealthMetrics v (emotional_balance hm) (resource_efficiency hm)
                  (decision_quality hm) (communication_reliability hm).
Definition set_emotional_balance (v : Q) (hm : HealthMetrics) :=
  mkHealthMetrics (memory_integrity hm) v (resource_efficiency hm)
                  (decision_quality hm) (communication_reliability hm).
Definition set_resource_efficiency (v : Q) (hm : HealthMetrics) :=
  mkHealthMetrics (memory_integrity hm) (emotional_balance hm) v
                  (decision_quality hm) (communication_reliability hm).
Definition set_decision_quality (v : Q) (hm : HealthMetrics) :=
  mkHealthMetrics (memory_integrity hm) (emotional_balance hm)
                  (resource_efficiency hm) v (communication_reliability hm).
Definition set_communication_reliability (v : Q) (hm : HealthMetrics) :=
  mkHealthMetrics (memory_integrity hm) (emotional_balance hm)
                  (resource_efficiency hm) (decision_quality hm) v.

(** Calls made on the agent's memory bank, an external collaborator.
    [DeepScrub] stands for the backup / random reset / restore sequence of
    [_heal_memory_corruption]. *)
Inductive MemoryCall : Type :=
| OptimizeLayout
| DeepScrub (severity : Q).

(** The part of the agent the healing system reaches into. *)
Record Agent : Type := mkAgent {
  emotional_state : EmotionalState;
  decision_threshold : Q;
  exploration_rate : Q;
  memory_calls : list MemoryCall
}.

Record SelfHealingSystem : Type := mkSelfHealingSystem {
  agent : Agent;
  error_log : list ErrorRecord;
  health_metrics : HealthMetrics
}.

Definition fresh_agent : Agent :=
  mkAgent Emotion.default (6 # 10) (1 # 10) [].

(** [SelfHealingSystem.__init__] *)
Definition init (a : Agent) : SelfHealingSystem :=
  mkSelfHealingSystem a [] (mkHealthMetrics 100 100 100 100 100).

Definition set_agent (a : Agent) (self : SelfHealingSystem) :=
  mkSelfHealingSystem a (error_log self) (health_metrics self).
Definition set_error_log (l : list ErrorRecord) (self : SelfHealingSystem) :=
  mkSelfHealingSystem (agent self) l (health_metrics self).
Definition set_health_metrics (hm : HealthMetrics) (self : SelfHealingSystem) :=
  mkSelfHealingSystem (agent self) (error_log self) hm.

(** [deque(maxlen=100).append]: the oldest entry leaves when full. *)
Definition maxlen : nat := 100.
Definition deque_append {A} (l : list A) (x : A) : list A :=
  let l' := (l ++ [x])%list in
  if (maxlen <? List.length l')%nat then tl l' else l'.

(** [error_type in [a, b]] *)
Definition one_of (s : string) (l : list string) : bool :=
  existsb (String.eqb s) l.

Definition log_error (error_type : string) (severity : Q)
           (details : Details) (now : Q) (self : SelfHealingSystem)
  : SelfHealingSystem :=
  let self := set_error_log
                (deque_append (error_log self)
                   (mkErrorRecord error_type severity now details false))
                self in
  let hm := health_metrics self in
  if one_of error_type ["memory_corruption"; "memory_leak"] then
    set_health_metrics
      (set_memory_integrity (Py.max 0 (memory_integrity hm - severity)) hm) self
  else if one_of error_type ["emotional_instability"; "emotional_deadlock"] then
    set_health_metrics
      (set_emotional_balance (Py.max 0 (emotional_balance hm - severity)) hm) self
  else if one_of error_type ["resource_depletion"; "resource_contention"] then
    set_health_metrics
      (set_resource_efficiency (Py.max 0 (resource_efficiency hm - severity)) hm) self
  else if one_of error_type ["decision_paralysis"; "decision_oscillation"] then
    set_health_metrics
      (set_decision_quality (Py.max 0 (decision_quality hm - severity)) hm) self
  else if one_of error_type ["communication_failure"; "protocol_violation"] then
    set_health_metrics
      (set_communication_reliability
         (Py.max 0 (communication_reliability hm - severity)) hm) self
  else self.

(** An element of the list [diagnose] returns. *)
Record Issue : Type := mkIssue {
  i_type : string;
  i_severity : Q;
  i_count : option nat;
  i_description : string
}.

Definition critical_issue (metric : string) (value : Q) : Issue :=
  mkIssue ("critical_" ++ metric)
          ((50 - value) / 50 * 10)
          None
          ("Critical " ++ Py.replace_underscore metric ++ " issue detected").

Definition critical_issues (hm : HealthMetrics) : list Issue :=
  flat_map (fun '(metric, value) =>
              if Py.Qlt_bool value 50 then [critical_issue metric value]
              else [])
           (items hm).

(** [error_counts]: a dict in insertion order, each value holding
    [count] and [total_severity]. *)
Definition Counts : Type := list (string * (nat * Q)).

Fixpoint bump (error_type : string) (severity : Q) (counts : Counts)
  : Counts :=
  match counts with
  | [] => [(error_type, (1%nat, 0 + severity))]
  | (k, (c, t)) :: rest =>
      if k =? error_type then (k, (S c, t + severity)) :: rest
      else (k, (c, t)) :: bump error_type severity rest
  end.

Definition count_errors (log : list ErrorRecord) : Counts :=
  fold_left (fun counts error =>
               if negb (e_healed error)
               then bump (e_type error) (e_severity error) counts
               else counts)
            log [].

Definition Q_of_nat (n : nat) : Q := inject_Z (Z.of_nat n).

Definition recurring_issue (error_type : string) (count : nat)
           (total_severity : Q) : Issue :=
  mkIssue ("recurring_" ++ error_type)
          (total_severity / Q_of_nat count)
          (Some count)
          ("Recurring " ++ Py.replace_underscore error_type ++ " detected").

Definition recurring_issues (counts : Counts) : list Issue :=
  flat_map (fun '(error_type, (count, total)) =>
              if (3 <=? count)%nat
              then [recurring_issue error_type count total]
              else [])
           counts.

(** The issues in the order [diagnose] finds them, before sorting. *)
Definition discovered (self : SelfHealingSystem) : list Issue :=
  (critical_issues (health_metrics self)
   ++ recurring_issues (count_errors (error_log self)))%list.

Definition diagnose (self : SelfHealingSystem) : list Issue :=
  PySort.sorted_desc i_severity (discovered self).

(** *** Recovery strategies *)

Inductive Strategy : Type :=
| HealMemoryCorruption
| HealEmotionalInstability
| HealResourceDepletion
| HealDecisionParalysis
| HealCommunicationFailure.

(** [recovery_strategies.items()], in insertion order. *)
Definition recovery_strategies : list (string * Strategy) :=
  [("memory_corruption", HealMemoryCorruption);
   ("emotional_instability", HealEmotionalInstability);
   ("resource_depletion", HealResourceDepletion);
   ("decision_paralysis", HealDecisionParalysis);
   ("communication_failure", HealCommunicationFailure)].

Definition strategy_keys : list string := map fst recovery_strategies.

Definition modify_metrics (f : HealthMetrics -> HealthMetrics)
  : Py.M SelfHealingSystem unit :=
  Py.modify (fun self => set_health_metrics (f (health_metrics self)) self).

Definition modify_agent (f : Agent -> Agent) : Py.M SelfHealingSystem unit :=
  Py.modify (fun self => set_agent (f (agent self)) self).

Definition call_memory (c : MemoryCall) : Py.M SelfHealingSystem unit :=
  modify_agent (fun a =>
    mkAgent (emotional_state a) (decision_threshold a) (exploration_rate a)
            (memory_calls a ++ [c])%list).

(** A method of [agent.emotional_state] run from the healing system. *)
Definition on_emotions {A} (m : Py.M EmotionalState A)
  : Py.M SelfHealingSystem A :=
  fun self =>
    let a := agent self in
    let '(r, e') := m (emotional_state a) in
    (r, set_agent (mkAgent e' (decision_threshold a) (exploration_rate a)
                           (memory_calls a)) self).

Definition _heal_memory_corruption (severity : Q)
  : Py.M SelfHealingSystem string :=
  call_memory OptimizeLayout ;;;
  if Py.Qlt_bool 7 severity then
    call_memory (DeepScrub severity) ;;;
    modify_metrics (fun hm =>
      set_memory_integrity (memory_integrity hm + Py.min 30 (severity * 3)) hm) ;;;
    Py.ret "Deep memory healing performed"
  else
    modify_metrics (fun hm =>
      set_memory_integrity (memory_integrity hm + Py.min 15 (severity * 2)) hm) ;;;
    Py.ret "Memory layout optimization performed".

(** [str] of a list of strings: ['a', 'b']. *)
Fixpoint join (sep : string) (l : list string) : string :=
  match l with
  | [] => ""
  | [x] => x
  | x :: rest => x ++ sep ++ join sep rest
  end.
Definition repr_list (l : list string) : string :=
  "[" ++ join ", " (map (fun e => "'" ++ e ++ "'") l) ++ "]".

Definition _heal_emotional_instability (severity : Q)
  : Py.M SelfHealingSystem string :=
  self <- Py.get ;;
  let es := emotional_state (agent self) in
  let emotions := combine emotion_names (intensities es) in
  let median_value := PySort.np_median (map snd emotions) in
  let deviations :=
    map (fun '(e, v) => (e, Qabs (v - median_value))) emotions in
  let extreme_emotions := firstn 3 (PySort.sorted_desc snd deviations) in
  Py.for_each extreme_emotions (fun '(emotion, _) =>
    current <- on_emotions (s <- Py.get ;; Py.ret (get_float s emotion)) ;;
    let adjustment :=
      (median_value - current) * Py.min (5 # 10) (severity / 10) in
    on_emotions (update_emotion emotion adjustment default_decay)) ;;;
  modify_metrics (fun hm =>
    set_emotional_balance
      (emotional_balance hm + Py.min 25 (severity * (25 # 10))) hm) ;;;
  Py.ret ("Emotional rebalancing performed on "
          ++ repr_list (map fst extreme_emotions)).

(** [asyncio.sleep] only delays the coroutine; nothing is recorded. *)
Definition _heal_resource_depletion (severity : Q)
  : Py.M SelfHealingSystem string :=
  if Py.Qlt_bool 5 severity then
    modify_metrics (fun hm =>
      set_resource_efficiency
        (resource_efficiency hm + Py.min 20 (severity * 2)) hm) ;;;
    Py.ret "Major resource reallocation performed"
  else
    modify_metrics (fun hm =>
      set_resource_efficiency
        (resource_efficiency hm + Py.min 10 severity) hm) ;;;
    Py.ret "Resource usage optimization performed".

Definition _heal_decision_paralysis (severity : Q)
  : Py.M SelfHealingSystem string :=
  modify_agent (fun a =>
    mkAgent (emotional_state a) (6 # 10) (exploration_rate a)
            (memory_calls a)) ;;;
  if Py.Qlt_bool 6 severity then
    modify_agent (fun a =>
      mkAgent (emotional_state a) (decision_threshold a)
              (Py.min (3 # 10) (exploration_rate a + severity / 20))
              (memory_calls a)) ;;;
    modify_metrics (fun hm =>
      set_decision_quality
        (decision_quality hm + Py.min 30 (severity * 3)) hm) ;;;
    Py.ret "Decision system reset with increased exploration"
  else
    modify_metrics (fun hm =>
      set_decision_quality
        (decision_quality hm + Py.min 15 (severity * (15 # 10))) hm) ;;;
    Py.ret "Decision thresholds reset".

Definition _heal_communication_failure (severity : Q)
  : Py.M SelfHealingSystem string :=
  modify_metrics (fun hm =>
    set_communication_reliability
      (communication_reliability hm + Py.min 25 (severity * (25 # 10))) hm) ;;;
  Py.ret "Communication protocols reset and reinitialized".

Definition run_strategy (f : Strategy) (severity : Q)
  : Py.M SelfHealingSystem string :=
  match f with
  | HealMemoryCorruption => _heal_memory_corruption severity
  | HealEmotionalInstability => _heal_emotional_instability severity
  | HealResourceDepletion => _heal_resource_depletion severity
  | HealDecisionParalysis => _heal_decision_paralysis severity
  | HealCommunicationFailure => _heal_communication_failure severity
  end.

(** *** heal *)

(** An element of [actions_taken]. *)
Record Action : Type := mkAction {
  a_issue : string;
  a_strategy : string;
  a_result : string
}.

Record HealReport : Type := mkHealReport {
  status : string;
  actions_taken : list Action
}.

(** The base error type of an issue label: the prefix is cut off. *)
Definition base_error_type (issue_type : string) : string :=
  if Py.startswith issue_type "critical_" then Py.drop 9 issue_type
  else if Py.startswith issue_type "recurring_" then Py.drop 10 issue_type
  else issue_type.

(** The inner [for ... break] of [heal]: the first strategy whose key occurs
    in the base error type. *)
Definition select_strategy (error_type : string)
  : option (string * Strategy) :=
  find (fun '(strategy_key, _) => Py.contains strategy_key error_type)
       recovery_strategies.

(** The loop over [issues[:3]]. *)
Fixpoint heal_issues (issues : list Issue) (actions_taken : list Action)
  : Py.M SelfHealingSystem (list Action) :=
  match issues with
  | [] => Py.ret actions_taken
  | issue :: rest =>
      let issue_type := i_type issue in
      match select_strategy (base_error_type issue_type) with
      | Some (strategy_key, strategy_func) =>
          result <- run_strategy strategy_func (i_severity issue) ;;
          heal_issues rest
            (actions_taken ++ [mkAction issue_type strategy_key result])%list
      | None => heal_issues rest actions_taken
      end
  end.

Definition mark_healed (actions : list Action) (log : list ErrorRecord)
  : list ErrorRecord :=
  map (fun error =>
         if negb (e_healed error)
            && existsb (fun action =>
                          Py.contains (e_type error) (a_issue action))
                       actions
         then mkErrorRecord (e_type error) (e_severity error)
                            (e_timestamp error) (e_details error) true
         else error)
      log.

Definition heal : Py.M SelfHealingSystem HealReport :=
  self <- Py.get ;;
  let issues := diagnose self in
  match issues with
  | [] => Py.ret (mkHealReport "healthy" [])
  | _ :: _ =>
      actions <- heal_issues (firstn 3 issues) [] ;;
      Py.modify (fun self =>
        set_error_log (mark_healed actions (error_log self)) self) ;;;
      Py.ret (mkHealReport
                (match actions with
                 | _ :: _ => "healing_performed"
                 | [] => "no_suitable_healing_strategy"
                 end)
                actions)
  end.

(** *** Runs of the health engine *)

Inductive Op : Type :=
| OpLogError (error_type : string) (severity : Q) (details : Details) (now : Q)
| OpStrategy (f : Strategy) (severity : Q)
| OpHeal.

Definition step (op : Op) (self : SelfHealingSystem) : SelfHealingSystem :=
  match op with
  | OpLogError ty sev d now => log_error ty sev d now self
  | OpStrategy f sev => snd (run_strategy f sev self)
  | OpHeal => snd (heal self)
  end.

Definition run (ops : list Op) (self : SelfHealingSystem)
  : SelfHealingSystem :=
  fold_left (fun s op => step op s) ops self.

End Healing.

(** ** The vocabulary of the specification *)

Module HealthSpec.

Import Healing.

(** The unhealed log entries of one error type. *)
Definition unhealed_of (error_type : string) (log : list ErrorRecord)
  : list ErrorRecord :=
  filter (fun e => negb (e_healed e) && (e_type e =? error_type)) log.

(** The mean severity of a list of entries. *)
Definition mean_severity (es : list ErrorRecord) : Q :=
  Py.Qsum (map e_severity es) / Q_of_nat (List.length es).

(** An issue of kind critical, told by its label. *)
Definition is_critical (i : Issue) : bool :=
  Py.startswith (i_type i) "critical_".

(** Every gauge within [0, 100]. *)
Definition in_range (hm : HealthMetrics) : Prop :=
  Forall (fun '(_, v) => 0 <= v /\ v <= 100) (items hm).

(** Every gauge at least 0. *)
Definition floored (hm : HealthMetrics) : Prop :=
  Forall (fun '(_, v) => 0 <= v) (items hm).

(** Gauge by gauge, [R] relates [hm] to [hm']. *)
Definition pointwise (R : Q -> Q -> Prop) (hm hm' : HealthMetrics) : Prop :=
  R (memory_integrity hm) (memory_integrity hm')
  /\ R (emotional_balance hm) (emotional_balance hm')
  /\ R (resource_efficiency hm) (resource_efficiency hm')
  /\ R (decision_quality hm) (decision_quality hm')
  /\ R (communication_reliability hm) (communication_reliability hm').

(** Gauge by gauge, [hm'] is at least [hm]. *)
Definition pointwise_le : HealthMetrics -> HealthMetrics -> Prop :=
  pointwise Qle.

(** Gauge by gauge, [hm'] is at most [hm + cap]. *)
Definition gain_at_most (cap : Q) : HealthMetrics -> HealthMetrics -> Prop :=
  pointwise (fun a b => b <= a + cap).

(** The health metrics and the error log are the same in both states. *)
Definition same_health (s s' : SelfHealingSystem) : Prop :=
  health_metrics s' = health_metrics s /\ error_log s' = error_log s.

(** No gauge went down and the logged severities are the same. *)
Definition grows (s s' : SelfHealingSystem) : Prop :=
  pointwise_le (health_metrics s) (health_metrics s')
  /\ map e_severity (error_log s') = map e_severity (error_log s).

(** What one operation does to the gauges: an error lowers, a strategy
    raises by at most 30, a [heal()] raises. *)
Definition effect (op : Op) (hm hm' : HealthMetrics) : Prop :=
  match op with
  | OpLogError _ _ _ _ => pointwise_le hm' hm
  | OpStrategy _ _ => pointwise_le hm hm' /\ gain_at_most 30 hm hm'
  | OpHeal => pointwise_le hm hm'
  end.

(** The five gauges of [health_metrics]. *)
Inductive Gauge : Type :=
| MemoryIntegrity
| EmotionalBalance
| ResourceEfficiency
| DecisionQuality
| CommunicationReliability.

Definition gauge (g : Gauge) (hm : HealthMetrics) : Q :=
  match g with
  | MemoryIntegrity => memory_integrity hm
  | EmotionalBalance => emotional_balance hm
  | ResourceEfficiency => resource_efficiency hm
  | DecisionQuality => decision_quality hm
  | CommunicationReliability => communication_reliability hm
  end.

Definition set_gauge (g : Gauge) (v : Q) (hm : HealthMetrics)
  : HealthMetrics :=
  match g with
  | MemoryIntegrity => set_memory_integrity v hm
  | EmotionalBalance => set_emotional_balance v hm
  | ResourceEfficiency => set_resource_efficiency v hm
  | DecisionQuality => set_decision_quality v hm
  | CommunicationReliability => set_communication_reliability v hm
  end.

(** The gauge an error type answers to: two types for each gauge, and no
    gauge for any other type. *)
Definition addressed (error_type : string) : option Gauge :=
  if one_of error_type ["memory_corruption"; "memory_leak"]
  then Some MemoryIntegrity
  else if one_of error_type ["emotional_instability"; "emotional_deadlock"]
  then Some EmotionalBalance
  else if one_of error_type ["resource_depletion"; "resource_contention"]
  then Some ResourceEfficiency
  else if one_of error_type ["decision_paralysis"; "decision_oscillation"]
  then Some DecisionQuality
  else if one_of error_type ["communication_failure"; "protocol_violation"]
  then Some CommunicationReliability
  else None.

(** The gauge a recovery strategy restores. *)
Definition restored (f : Strategy) : Gauge :=
  match f with
  | HealMemoryCorruption => MemoryIntegrity
  | HealEmotionalInstability => EmotionalBalance
  | HealResourceDepletion => ResourceEfficiency
  | HealDecisionParalysis => DecisionQuality
  | HealCommunicationFailure => CommunicationReliability
  end.

(** By how much it restores it: a multiple of the severity under a cap, both
    larger above the strategy's severity threshold where it has one. *)
Definition gain (f : Strategy) (severity : Q) : Q :=
  match f with
  | HealMemoryCorruption =>
      if Py.Qlt_bool 7 severity then Py.min 30 (severity * 3)
      else Py.min 15 (severity * 2)
  | HealEmotionalInstability => Py.min 25 (severity * (25 # 10))
  | HealResourceDepletion =>
      if Py.Qlt_bool 5 severity then Py.min 20 (severity * 2)
      else Py.min 10 severity
  | HealDecisionParalysis =>
      if Py.Qlt_bool 6 severity then Py.min 30 (severity * 3)
      else Py.min 15 (severity * (15 # 10))
  | HealCommunicationFailure => Py.min 25 (severity * (25 # 10))
  end.

(** What one operation makes of the gauges: an error takes its severity off
    the gauge its type answers to, stopping at 0, and touches no other; a
    strategy adds its gain to the gauge it restores and touches no other; a
    [heal()] lowers none. *)
Definition change (op : Op) (hm hm' : HealthMetrics) : Prop :=
  match op with
  | OpLogError error_type severity _ _ =>
      match addressed error_type with
      | Some g => hm' = set_gauge g (Py.max 0 (gauge g hm - severity)) hm
      | None => hm' = hm
      end
  | OpStrategy f severity =>
      hm' = set_gauge (restored f)
              (gauge (restored f) hm + gain f severity) hm
  | OpHeal => pointwise_le hm hm'
  end.

(** An operation whose severity is not negative. *)
Definition valid_op (op : Op) : Prop :=
  match op with
  | OpLogError _ severity _ _ => 0 <= severity
  | OpStrategy _ severity => 0 <= severity
  | OpHeal => True
  end.

(** Every logged severity is not negative. *)
Definition log_nonneg (log : list ErrorRecord) : Prop :=
  Forall (fun q => 0 <= q) (map e_severity log).

(** [error_counts[k]], if present. *)
Fixpoint get_count (k : string) (counts : Counts) : option (nat * Q) :=
  match counts with
  | [] => None
  | (k0, v) :: rest => if k0 =? k then Some v else get_count k rest
  end.

(** What [error_counts] holds for a key: the number of unhealed entries of
    that type and the sum of their severities; no entry when there is none. *)
Definition counted (k : string) (log : list ErrorRecord) (counts : Counts)
  : Prop :=
  match get_count k counts with
  | Some (c, t) =>
      c = List.length (unhealed_of k log)
      /\ t == Py.Qsum (map e_severity (unhealed_of k log))
      /\ (1 <= c)%nat
  | None => unhealed_of k log = []
  end.

(** [e'] is [e] with, at most, its healed flag turned on. *)
Definition only_flagged (e e' : ErrorRecord) : Prop :=
  e_type e' = e_type e
  /\ e_severity e' = e_severity e
  /\ e_timestamp e' = e_timestamp e
  /\ e_details e' = e_details e
  /\ (e_healed e = true -> e_healed e' = true).

(** The issue label and strategy key of the action [heal] takes on an
    issue, if its base type contains a strategy key. *)
Definition planned (i : Issue) : list (string * string) :=
  match select_strategy (base_error_type (i_type i)) with
  | Some (key, _) => [(i_type i, key)]
  | None => []
  end.

(** The label and key of an action taken. *)
Definition taken (a : Action) : string * string := (a_issue a, a_strategy a).

(** The agent's emotions stay on the 0-100 scale. *)
Definition emotions_kept (s s' : SelfHealingSystem) : Prop :=
  Emotion.in_range (emotional_state (agent s))
  -> Emotion.in_range (emotional_state (agent s')).

(** The error log is the same. *)
Definition same_log (s s' : SelfHealingSystem) : Prop :=
  error_log s' = error_log s.

End HealthSpec.

(** ** The numpy calls of the warp system

    [np.mean] and [np.average] are library functions; they are modelled from
    numpy's documentation: [np.average(a, axis=0, weights=w)] is
    [sum(a * w) / sum(w)], raises [ZeroDivisionError] when the weights sum to
    zero and [ValueError] when the number of weights differs from the length
    of [a] along the axis.  The sums, products and quotients are those of
    rational numbers: the value numpy returns is the same expression with
    each operation rounded to a double, so the properties below speak of
    which expression is computed and of which calls raise, never of the
    last digits of a result. *)

Module Np.

(** What teams pass around: a number or a one-dimensional array.  [NaN] is
    what numpy returns for the mean of no values. *)
Inductive Data : Type :=
| Scalar (x : Q)
| Array (xs : list Q)
| NaN.

Definition Qsum : list Q -> Q := Py.Qsum.

Fixpoint zip_mul (xs ws : list Q) : list Q :=
  match xs, ws with
  | x :: xs', w :: ws' => (x * w) :: zip_mul xs' ws'
  | _, _ => []
  end.

Fixpoint scalars (l : list Data) : option (list Q) :=
  match l with
  | [] => Some []
  | Scalar x :: rest => option_map (cons x) (scalars rest)
  | _ :: _ => None
  end.

(** Rows of the same length [m]. *)
Fixpoint rows (m : nat) (l : list Data) : option (list (list Q)) :=
  match l with
  | [] => Some []
  | Array xs :: rest =>
      if (List.length xs =? m)%nat then option_map (cons xs) (rows m rest)
      else None
  | _ :: _ => None
  end.

Definition column (j : nat) (rs : list (list Q)) : list Q :=
  map (fun r => nth j r 0) rs.

Definition is_number (d : Data) : bool :=
  match d with Array _ => false | _ => true end.

(** [f] applied along axis 0.  Numbers of which one is nan give nan; a mix
    of numbers and arrays, or arrays of different lengths, cannot be made an
    array. *)
Definition along_axis0 (f : list Q -> Q) (results : list Data)
  : Py.res Data :=
  match scalars results with
  | Some xs => Py.Ok (Scalar (f xs))
  | None =>
      if forallb is_number results then Py.Ok NaN else
      match results with
      | Array first :: _ =>
          let m := List.length first in
          match rows m results with
          | Some rs =>
              Py.Ok (Array (map (fun j => f (column j rs)) (seq 0 m)))
          | None => Py.Raise (Py.ValueError "inhomogeneous shape")
          end
      | _ => Py.Raise (Py.ValueError "inhomogeneous shape")
      end
  end.

(** [np.average(results, axis=0, weights=weights)] *)
Definition average (results : list Data) (weights : list Q)
  : Py.res Data :=
  if negb (List.length weights =? List.length results)%nat then
    Py.Raise (Py.ValueError
                "Length of weights not compatible with specified axis.")
  else
    let scl := Qsum weights in
    if Qeq_bool scl 0 then Py.Raise Py.ZeroDivisionError
    else along_axis0 (fun xs => Qsum (zip_mul xs weights) / scl) results.

(** [np.mean(results, axis=0)] *)
Definition mean (results : list Data) : Py.res Data :=
  match results with
  | [] => Py.Ok NaN
  | _ :: _ =>
      along_axis0
        (fun xs => Qsum xs / inject_Z (Z.of_nat (List.length xs))) results
  end.

(** Equality of two values as a [set] sees it; arrays are not hashable. *)
Definition hashable (d : Data) : bool :=
  match d with Array _ => false | _ => true end.

Definition data_eqb (a b : Data) : bool :=
  match a, b with
  | Scalar x, Scalar y => Qeq_bool x y
  | _, _ => false
  end.

End Np.

(** ** WarpSystem *)

Module Warp.

Import Np.

Record Team : Type := mkTeam {
  name : string;
  is_active : bool;
  efficiency : Q
}.

(** [Team.__init__] *)
Definition new_team (n : string) : Team := mkTeam n false (5 # 10).

(** [Team.process]: a placeholder that hands its input back. *)
Definition process (t : Team) (input_data : Data) : Data := input_data.

(** What [self.phase] holds: one of the integer class attributes of
    [WarpPhase], or an instance built by [WarpPhase(value)]. *)
Inductive PhaseVal : Type :=
| PInt (n : Z)
| PInstance (value : Z).

Definition INITIALIZATION : Z := 1.
Definition CAPTURING_COHESION : Z := 2.
Definition ADVERSARIAL_CORTEX : Z := 3.
Definition SECONDARY_HYPER_COMPRESSION : Z := 4.
Definition WARP_DRIVE : Z := 5.

(** [WarpPhase.__init__]: the name table is indexed by [value]. *)
Definition phase_name (value : Z) : option string :=
  if (value =? 1)%Z then Some "INITIALIZATION"
  else if (value =? 2)%Z then Some "CAPTURING_COHESION"
  else if (value =? 3)%Z then Some "ADVERSARIAL_CORTEX"
  else if (value =? 4)%Z then Some "SECONDARY_HYPER_COMPRESSION"
  else if (value =? 5)%Z then Some "WARP_DRIVE"
  else None.

Definition WarpPhase {S} (value : Z) : Py.M S PhaseVal :=
  match phase_name value with
  | Some _ => Py.ret (PInstance value)
  | None => Py.raise Py.KeyError
  end.

(** [p.value] *)
Definition value_of {S} (p : PhaseVal) : Py.M S Z :=
  match p with
  | PInstance v => Py.ret v
  | PInt _ =>
      Py.raise (Py.AttributeError "'int' object has no attribute 'value'")
  end.

(** [p == c] for an integer constant [c]: an instance of a class without
    [__eq__] is equal to nothing but itself. *)
Definition phase_eq (p : PhaseVal) (c : Z) : bool :=
  match p with
  | PInt n => (n =? c)%Z
  | PInstance _ => false
  end.

Record WarpSystem : Type := mkWarpSystem {
  phase : PhaseVal;
  all_teams : list (string * Team);
  current_phase_start_time : Q;
  is_light_speed : bool;
  cpu_threshold : Q;
  memory_threshold : Q;
  complexity_score : Z;
  max_complexity : Z;
  task_history : list Data;
  window_size : nat;
  diversity_threshold : Q;
  error_rate : Q;
  max_error_rate : Q;
  stability_check_interval : Q
}.

(** [WarpSystem.__init__] *)
Definition init : WarpSystem :=
  mkWarpSystem
    (PInt INITIALIZATION)
    [("team1", new_team "Initialization");
     ("team2", new_team "Capturing Cohesion");
     ("team3", new_team "Adversarial Cortex");
     ("team4", new_team "Secondary Hyper-Compression");
     ("team5", new_team "Warp Drive")]
    0 false 90 90 0%Z 100%Z [] 100%nat (6 # 10) 0 (1 # 10) 10.

Definition set_phase (p : PhaseVal) (w : WarpSystem) : WarpSystem :=
  mkWarpSystem p (all_teams w) (current_phase_start_time w)
    (is_light_speed w) (cpu_threshold w) (memory_threshold w)
    (complexity_score w) (max_complexity w) (task_history w)
    (window_size w) (diversity_threshold w) (error_rate w)
    (max_error_rate w) (stability_check_interval w).
Definition set_all_teams (ts : list (string * Team)) (w : WarpSystem) :=
  mkWarpSystem (phase w) ts (current_phase_start_time w)
    (is_light_speed w) (cpu_threshold w) (memory_threshold w)
    (complexity_score w) (max_complexity w) (task_history w)
    (window_size w) (diversity_threshold w) (error_rate w)
    (max_error_rate w) (stability_check_interval w).
Definition set_start_time (t : Q) (w : WarpSystem) :=
  mkWarpSystem (phase w) (all_teams w) t
    (is_light_speed w) (cpu_threshold w) (memory_threshold w)
    (complexity_score w) (max_complexity w) (task_history w)
    (window_size w) (diversity_threshold w) (error_rate w)
    (max_error_rate w) (stability_check_interval w).
Definition set_light_speed (b : bool) (w : WarpSystem) :=
  mkWarpSystem (phase w) (all_teams w) (current_phase_start_time w)
    b (cpu_threshold w) (memory_threshold w)
    (complexity_score w) (max_complexity w) (task_history w)
    (window_size w) (diversity_threshold w) (error_rate w)
    (max_error_rate w) (stability_check_interval w).
Definition set_complexity (c : Z) (w : WarpSystem) :=
  mkWarpSystem (phase w) (all_teams w) (current_phase_start_time w)
    (is_light_speed w) (cpu_threshold w) (memory_threshold w)
    c (max_complexity w) (task_history w)
    (window_size w) (diversity_threshold w) (error_rate w)
    (max_error_rate w) (stability_check_interval w).
Definition set_task_history (h : list Data) (w : WarpSystem) :=
  mkWarpSystem (phase w) (all_teams w) (current_phase_start_time w)
    (is_light_speed w) (cpu_threshold w) (memory_threshold w)
    (complexity_score w) (max_complexity w) h
    (window_size w) (diversity_threshold w) (error_rate w)
    (max_error_rate w) (stability_check_interval w).

(** [all_teams[key]] *)
Fixpoint lookup (key : string) (ts : list (string * Team)) : option Team :=
  match ts with
  | [] => None
  | (k, t) :: rest => if k =? key then Some t else lookup key rest
  end.

(** [all_teams[key].is_active = b] *)
Fixpoint activate (key : string) (b : bool) (ts : list (string * Team))
  : list (string * Team) :=
  match ts with
  | [] => []
  | (k, t) :: rest =>
      if k =? key then (k, mkTeam (name t) b (efficiency t)) :: rest
      else (k, t) :: activate key b rest
  end.

Definition set_team_active (key : string) (b : bool) : Py.M WarpSystem unit :=
  self <- Py.get ;;
  match lookup key (all_teams self) with
  | None => Py.raise Py.KeyError
  | Some _ => Py.modify (set_all_teams (activate key b (all_teams self)))
  end.

(** [f"team{n}"] *)
Definition team_key (n : Z) : string :=
  "team" ++ DecimalString.NilZero.string_of_int (Z.to_int n).

(** What one pass of the loop reads from outside: the two [psutil]
    readings and the clock, read for the stability check, inside
    [_check_team_efficiency] and when a transition stamps the phase. *)
Record Tick : Type := mkTick {
  cpu_usage : Q;
  memory_usage : Q;
  clock_stability : Q;
  clock_efficiency : Q;
  clock_transition : Q
}.

(** [ResourceMonitor.is_overloaded] *)
Definition is_overloaded (env : Tick) (self : WarpSystem) : bool :=
  Py.Qlt_bool (cpu_threshold self) (cpu_usage env)
  || Py.Qlt_bool (memory_threshold self) (memory_usage env).

Definition _check_stability (self : WarpSystem) : bool :=
  if Py.Qlt_bool (max_error_rate self) (error_rate self) then false
  else true.

Definition _check_team_efficiency (env : Tick) (team_name : string)
           (threshold duration : Q) : Py.M WarpSystem bool :=
  self <- Py.get ;;
  match lookup team_name (all_teams self) with
  | None => Py.raise Py.KeyError
  | Some team =>
      if Qle_bool threshold (efficiency team) then
        if Qle_bool duration
             (clock_efficiency env - current_phase_start_time self)
        then Py.ret true
        else Py.ret false
      else
        Py.modify (set_start_time (clock_efficiency env)) ;;;
        Py.ret false
  end.

Definition _advance_phase (env : Tick) : Py.M WarpSystem unit :=
  self <- Py.get ;;
  v <- value_of (phase self) ;;
  p <- WarpPhase (v + 1)%Z ;;
  Py.modify (set_phase p) ;;;
  v' <- value_of p ;;
  set_team_active (team_key v') true ;;;
  Py.modify (set_start_time (clock_transition env)) ;;;
  Py.modify (fun w => set_complexity (complexity_score w + 10)%Z w).

Definition _revert_phase (env : Tick) : Py.M WarpSystem unit :=
  self <- Py.get ;;
  v <- value_of (phase self) ;;
  if (1 <? v)%Z then
    p <- WarpPhase (v - 1)%Z ;;
    Py.modify (set_phase p) ;;;
    v' <- value_of p ;;
    set_team_active (team_key (v' + 1)%Z) false ;;;
    Py.modify (set_start_time (clock_transition env)) ;;;
    Py.modify (fun w => set_complexity (complexity_score w - 10)%Z w)
  else Py.ret tt.

Definition _initiate_warp_drive : Py.M WarpSystem unit :=
  Py.modify (set_light_speed true) ;;;
  Py.modify (fun w =>
    set_all_teams
      (map (fun '(k, t) => (k, mkTeam (name t) true (efficiency t)))
           (all_teams w)) w).

(** How one pass of [while True] ends. *)
Inductive Ctl : Type :=
| Next    (* [continue], or the end of the body *)
| Break.

(** [cond and check(team, 0.8, 3)]: the check runs only when [cond] holds. *)
Definition gated (cond : bool) (check : Py.M WarpSystem bool)
  : Py.M WarpSystem bool :=
  if cond then check else Py.ret false.

Definition transitions (env : Tick) : Py.M WarpSystem Ctl :=
  self <- Py.get ;;
  b1 <- gated (phase_eq (phase self) INITIALIZATION)
              (_check_team_efficiency env "team1" (8 # 10) 3) ;;
  if b1 then _advance_phase env ;;; Py.ret Next else
  b2 <- gated (phase_eq (phase self) CAPTURING_COHESION)
              (_check_team_efficiency env "team2" (8 # 10) 3) ;;
  if b2 then _advance_phase env ;;; Py.ret Next else
  b3 <- gated (phase_eq (phase self) ADVERSARIAL_CORTEX)
              (_check_team_efficiency env "team3" (8 # 10) 3) ;;
  if b3 then _advance_phase env ;;; Py.ret Next else
  b4 <- gated (phase_eq (phase self) SECONDARY_HYPER_COMPRESSION)
              (_check_team_efficiency env "team4" (8 # 10) 3) ;;
  if b4 then _advance_phase env ;;; Py.ret Next else
  if phase_eq (phase self) WARP_DRIVE
  then _initiate_warp_drive ;;; Py.ret Break
  else Py.ret Next.

(** The body of the [while True] of [_process_phase]. *)
Definition iteration (env : Tick) : Py.M WarpSystem Ctl :=
  self <- Py.get ;;
  if is_overloaded env self then Py.ret Next
  else if Py.Qlt_bool (stability_check_interval self)
            (clock_stability env - current_phase_start_time self)
          && negb (_check_stability self)
  then _revert_phase env ;;; Py.ret Next
  else transitions env.

(** Where a run stands after the passes it was given. *)
Inductive Status : Type :=
| Halted    (* the loop was left by [break] *)
| Running.  (* the loop is still going *)

(** [_process_phase], run over the readings of its first passes. *)
Fixpoint _process_phase (envs : list Tick) : Py.M WarpSystem Status :=
  match envs with
  | [] => Py.ret Running
  | env :: rest =>
      c <- iteration env ;;
      match c with
      | Break => Py.ret Halted
      | Next => _process_phase rest
      end
  end.

Definition start_warp_sequence (now : Q) (envs : list Tick)
  : Py.M WarpSystem Status :=
  Py.modify (set_phase (PInt INITIALIZATION)) ;;;
  set_team_active "team1" true ;;;
  Py.modify (set_start_time now) ;;;
  _process_phase envs.

(** *** Team fan-out *)

Definition get_active_teams (self : WarpSystem) : list Team :=
  filter is_active (map snd (all_teams self)).

(** [TaskDiversityTracker.update] *)
Definition diversity_update (task : Data) (self : WarpSystem) : WarpSystem :=
  let h := (task_history self ++ [task])%list in
  set_task_history
    (if (window_size self <? List.length h)%nat then tl h else h) self.

(** [len(set(l))] for hashable values. *)
Fixpoint count_unique (l : list Data) : nat :=
  match l with
  | [] => 0
  | x :: rest =>
      if existsb (data_eqb x) rest then count_unique rest
      else S (count_unique rest)
  end.

(** [TaskDiversityTracker.is_low] *)
Definition diversity_is_low : Py.M WarpSystem bool :=
  self <- Py.get ;;
  if (List.length (task_history self) <? window_size self)%nat
  then Py.ret false
  else if negb (forallb hashable (task_history self))
  then Py.raise Py.TypeError
  else
    Py.ret (Py.Qlt_bool
              (inject_Z (Z.of_nat (count_unique (task_history self)))
               / inject_Z (Z.of_nat (window_size self)))
              (diversity_threshold self)).

Definition _combine_light_speed_results (results : list Data)
  : Py.res Data :=
  Np.mean results.

Definition phase_weights : list Q := [1 # 10; 2 # 10; 3 # 10; 4 # 10].

Definition _combine_phase_results (results : list Data) : Py.res Data :=
  let weights := firstn (List.length results) phase_weights in
  Np.average results weights.

Definition lift_res {A} (r : Py.res A) : Py.M WarpSystem A :=
  fun s => (r, s).

Definition process_with_warp (input_data : Data) : Py.M WarpSystem Data :=
  self <- Py.get ;;
  let active_teams := get_active_teams self in
  let results := map (fun team => process team input_data) active_teams in
  Py.modify (diversity_update input_data) ;;;
  final_result <-
    (if is_light_speed self
     then lift_res (_combine_light_speed_results results)
     else lift_res (_combine_phase_results results)) ;;
  diversity_is_low ;;;
  Py.ret final_result.

End Warp.

(** ** The vocabulary of the warp claims *)

Module WarpSpec.

Import Warp.

(** What [is_low] meets once [process_with_warp] has recorded [input]: the
    window is full and holds a value that cannot be put in a set. *)
Definition tracker_raises (input : Np.Data) (w : WarpSystem) : bool :=
  let w' := diversity_update input w in
  negb (List.length (task_history w') <? window_size w')%nat
  && negb (forallb Np.hashable (task_history w')).




(** An outcome [out] reached from [s]: the loop was not left by [break], the
    phase is still the integer 1 and the light-speed flag is as in [s]. *)
Definition stays_initial {A} (stop : A) (s : WarpSystem)
           (out : Py.res A * WarpSystem) : Prop :=
  fst out <> Py.Ok stop
  /\ phase (snd out) = PInt INITIALIZATION
  /\ is_light_speed (snd out) = is_light_speed s.


(** [process_with_warp] called on each input in turn, whatever each call
    returns or raises. *)
Definition feed (inputs : list Np.Data) (w : WarpSystem) : WarpSystem :=
  fold_left (fun s x => snd (process_with_warp x s)) inputs w.


(** The five team keys of [WarpSystem.__init__], in order. *)
Definition team_keys : list string :=
  ["team1"; "team2"; "team3"; "team4"; "team5"].

(** A team is active. *)
Definition active (key : string) (w : WarpSystem) : Prop :=
  option_map is_active (lookup key (all_teams w)) = Some true.

(** The state [_advance_phase] leaves when the phase is an instance of
    value [v] below 5, and the one [_revert_phase] leaves when it is an
    instance of value [v] above 1. *)
Definition advanced (env : Tick) (v : Z) (w : WarpSystem) : WarpSystem :=
  set_complexity (complexity_score w + 10)%Z
    (set_start_time (clock_transition env)
       (set_all_teams (activate (team_key (v + 1)) true (all_teams w))
          (set_phase (PInstance (v + 1)) w))).

Definition reverted (env : Tick) (v : Z) (w : WarpSystem) : WarpSystem :=
  set_complexity (complexity_score w - 10)%Z
    (set_start_time (clock_transition env)
       (set_all_teams (activate (team_key v) false (all_teams w))
          (set_phase (PInstance (v - 1)) w))).

(** A state in which the loop has nothing to do: the phase is the integer
    1, team 1 is below the efficiency threshold and the error rate is within
    its bound. *)
Definition idle (s : WarpSystem) : Prop :=
  phase s = PInt INITIALIZATION
  /\ (exists t, lookup "team1" (all_teams s) = Some t
                /\ efficiency t < 8 # 10)
  /\ error_rate s <= max_error_rate s.

End WarpSpec.

(** ** Quantum-inspired helpers *)

Module Quantum.

(** [quantum_relu(x, alpha)] *)
Definition quantum_relu (x alpha : Q) : Q :=
  Py.max 0 x + alpha * Py.min 0 x.

(** [alpha] defaults to 0.1. *)
Definition default_alpha : Q := 1 # 10.

End Quantum.

(** ** QuantumMemoryBank

    The classical simulation, which the class runs when qiskit is not
    installed ([QISKIT_AVAILABLE] false).  The noise [retrieve] draws with
    [random.gauss] is an input. *)

Module Memory.

Inductive Access : Type :=
| AStore
| ARetrieve.

(** A row of [memory_amplitudes]: zeros as allocated, or the cosine and sine
    of [norm_value * PI / 2] written by [store]. *)
Inductive Amplitude : Type :=
| AmpZero
| AmpOf (norm_value : Q).

Record QuantumMemoryBank : Type := mkBank {
  size : nat;
  memory_values : list Q;
  entanglement_map : list (list Q);
  access_history : list (Access * Z * Q);
  memory_amplitudes : list Amplitude
}.

(** [QuantumMemoryBank.__init__] *)
Definition init (n : nat) : QuantumMemoryBank :=
  mkBank n (repeat 0 n) (repeat (repeat 0 n) n) [] (repeat AmpZero n).

Definition set_memory_values (v : list Q) (b : QuantumMemoryBank) :=
  mkBank (size b) v (entanglement_map b) (access_history b)
         (memory_amplitudes b).
Definition set_entanglement_map (m : list (list Q)) (b : QuantumMemoryBank) :=
  mkBank (size b) (memory_values b) m (access_history b)
         (memory_amplitudes b).
Definition set_access_history (h : list (Access * Z * Q))
           (b : QuantumMemoryBank) :=
  mkBank (size b) (memory_values b) (entanglement_map b) h
         (memory_amplitudes b).
Definition set_memory_amplitudes (a : list Amplitude) (b : QuantumMemoryBank) :=
  mkBank (size b) (memory_values b) (entanglement_map b) (access_history b) a.

(** [l[n] = v] for [n] within the list. *)
Fixpoint set_at {A} (n : nat) (v : A) (l : list A) : list A :=
  match l, n with
  | [], _ => []
  | _ :: l', O => v :: l'
  | x :: l', S n' => x :: set_at n' v l'
  end.

(** [0 <= index < self.size] *)
Definition in_bounds (index : Z) (self : QuantumMemoryBank) : bool :=
  (0 <=? index)%Z && (index <? Z.of_nat (size self))%Z.

Definition str (z : Z) : string :=
  DecimalString.NilZero.string_of_int (Z.to_int z).

Definition out_of_range (index : Z) (self : QuantumMemoryBank) : Py.exn :=
  Py.ValueError ("Index " ++ str index ++ " out of range [0, "
                 ++ str (Z.of_nat (size self) - 1) ++ "]").

(** [self.access_history.append(...)] on a [deque(maxlen=100)]. *)
Definition record_access (a : Access) (index : Z) (now : Q)
  : Py.M QuantumMemoryBank unit :=
  Py.modify (fun b =>
    set_access_history
      (Healing.deque_append (access_history b) (a, index, now)) b).

Definition store (index : Z) (value : Q) (now : Q)
  : Py.M QuantumMemoryBank unit :=
  self <- Py.get ;;
  if negb (in_bounds index self) then Py.raise (out_of_range index self)
  else
    let norm_value := Py.max 0 (Py.min 1 (value / 100)) in
    Py.modify (fun b =>
      set_memory_values
        (set_at (Z.to_nat index) norm_value (memory_values b)) b) ;;;
    record_access AStore index now ;;;
    Py.modify (fun b =>
      set_memory_amplitudes
        (set_at (Z.to_nat index) (AmpOf norm_value) (memory_amplitudes b)) b).

(** [noise] is the draw of [random.gauss(0, 0.05)].  The sum and the product
    are those of rational numbers; the code rounds each to a double, so that
    a stored value need not read back to the last digit. *)
Definition retrieve (index : Z) (now : Q) (noise : Q)
  : Py.M QuantumMemoryBank Q :=
  self <- Py.get ;;
  if negb (in_bounds index self) then Py.raise (out_of_range index self)
  else
    record_access ARetrieve index now ;;;
    b <- Py.get ;;
    let prob := nth (Z.to_nat index) (memory_values b) 0 + noise in
    Py.ret (Py.max 0 (Py.min 1 prob) * 100).

(** [m[i, j]] *)
Definition cell (i j : nat) (m : list (list Q)) : Q := nth j (nth i m []) 0.

(** [m[i, j] = v] *)
Definition set_cell (i j : nat) (v : Q) (m : list (list Q)) : list (list Q) :=
  set_at i (set_at j v (nth i m [])) m.

(** The mixing of the two values is written with the arithmetic of rational
    numbers; the code rounds each operation to a double. *)
Definition entangle_memories (index1 index2 : Z) (strength : Q)
  : Py.M QuantumMemoryBank unit :=
  self <- Py.get ;;
  if negb (in_bounds index1 self && in_bounds index2 self)
  then Py.raise (Py.ValueError "Memory indices out of range")
  else
    let i1 := Z.to_nat index1 in
    let i2 := Z.to_nat index2 in
    Py.modify (fun b =>
      set_entanglement_map
        (set_cell i2 i1 strength
           (set_cell i1 i2 strength (entanglement_map b))) b) ;;;
    b <- Py.get ;;
    let avg := (nth i1 (memory_values b) 0 + nth i2 (memory_values b) 0) / 2 in
    Py.modify (fun b =>
      set_memory_values
        (set_at i1 ((1 - strength) * nth i1 (memory_values b) 0
                    + strength * avg) (memory_values b)) b) ;;;
    Py.modify (fun b =>
      set_memory_values
        (set_at i2 ((1 - strength) * nth i2 (memory_values b) 0
                    + strength * avg) (memory_values b)) b).

(** [access_counts[index] += 1] on a dict with the keys [0 .. size-1]. *)
Definition bump_count (index : Z) (counts : list nat) : Py.res (list nat) :=
  if (0 <=? index)%Z && (index <? Z.of_nat (List.length counts))%Z
  then Py.Ok (set_at (Z.to_nat index)
                     (S (nth (Z.to_nat index) counts 0%nat)) counts)
  else Py.Raise Py.KeyError.

Fixpoint count_accesses (history : list (Access * Z * Q)) (counts : list nat)
  : Py.res (list nat) :=
  match history with
  | [] => Py.Ok counts
  | (_, index, _) :: rest =>
      match bump_count index counts with
      | Py.Ok counts' => count_accesses rest counts'
      | Py.Raise e => Py.Raise e
      end
  end.

(** The dict it returns, as the list of its values by key. *)
Definition get_access_patterns (self : QuantumMemoryBank)
  : Py.res (list nat) :=
  count_accesses (access_history self) (repeat 0%nat (size self)).

(** The key of the sort in [optimize_layout]. *)
Definition frequency (counts : list nat) (i : nat) : Q :=
  inject_Z (Z.of_nat (nth i counts 0%nat)).

Definition optimize_layout : Py.M QuantumMemoryBank unit :=
  self <- Py.get ;;
  match get_access_patterns self with
  | Py.Raise e => Py.raise e
  | Py.Ok access_counts =>
      let sorted_indices :=
        PySort.sorted_desc (frequency access_counts) (seq 0 (size self)) in
      let new_values :=
        map (fun old_idx => nth old_idx (memory_values self) 0)
            sorted_indices in
      let new_entanglement :=
        map (fun old_i =>
               map (fun old_j =>
                      nth old_j (nth old_i (entanglement_map self) []) 0)
                   sorted_indices)
            sorted_indices in
      Py.modify (set_memory_values new_values) ;;;
      Py.modify (set_entanglement_map new_entanglement)
  end.

(** The arrays have the bank's size and every recorded access is of an
    index of the bank. *)
Definition well_formed (b : QuantumMemoryBank) : Prop :=
  List.length (memory_values b) = size b
  /\ Forall (fun '(_, index, _) =>
               (0 <= index < Z.of_nat (size b))%Z) (access_history b).

(** Calls on a bank, each with what it reads from outside. *)
Inductive Op : Type :=
| OpStore (index : Z) (value now : Q)
| OpRetrieve (index : Z) (now noise : Q)
| OpEntangle (index1 index2 : Z) (strength : Q)
| OpOptimize.

Definition step (op : Op) (b : QuantumMemoryBank) : QuantumMemoryBank :=
  match op with
  | OpStore i v t => snd (store i v t b)
  | OpRetrieve i t n => snd (retrieve i t n b)
  | OpEntangle i j s => snd (entangle_memories i j s b)
  | OpOptimize => snd (optimize_layout b)
  end.

Definition run (ops : list Op) (b : QuantumMemoryBank) : QuantumMemoryBank :=
  fold_left (fun s op => step op s) ops b.

(** How often [index] was accessed, by the history. *)
Definition accesses_of (i : nat) (history : list (Access * Z * Q)) : nat :=
  List.length
    (filter (fun '(_, index, _) => (index =? Z.of_nat i)%Z) history).

End Memory.

(** ** Concrete states used as examples *)

Module Scenario.

Import Healing.

(** A fresh engine after three [log_error("memory_corruption", 20, {})]. *)
Definition three_corruptions : SelfHealingSystem :=
  log_error "memory_corruption" 20 [] 3
    (log_error "memory_corruption" 20 [] 2
       (log_error "memory_corruption" 20 [] 1 (init fresh_agent))).

(** A fresh engine after one [log_error("memory_leak", 60, {})]: the memory
    gauge is at 40 and nothing recurs. *)
Definition one_leak : SelfHealingSystem :=
  log_error "memory_leak" 60 [] 1 (init fresh_agent).

(** Three errors of a type that no gauge answers to but that the memory
    strategy matches, then [heal()]. *)
Definition unlisted_then_heal : list Op :=
  [OpLogError "severe_memory_corruption" 5 [] 1;
   OpLogError "severe_memory_corruption" 5 [] 2;
   OpLogError "severe_memory_corruption" 5 [] 3;
   OpHeal].

(** Three memory corruptions of severity 20, then [heal()]. *)
Definition corruptions_then_heal : list Op :=
  [OpLogError "memory_corruption" 20 [] 1;
   OpLogError "memory_corruption" 20 [] 2;
   OpLogError "memory_corruption" 20 [] 3;
   OpHeal].


(** A new warp system whose first two teams were activated. *)
Definition two_teams : Warp.WarpSystem :=
  Warp.set_all_teams
    (Warp.activate "team2" true
       (Warp.activate "team1" true (Warp.all_teams Warp.init)))
    Warp.init.

(** Two active teams and 99 numbers already recorded by the diversity
    tracker, whose window holds 100. *)
Definition nearly_full_window : Warp.WarpSystem :=
  Warp.set_task_history (repeat (Np.Scalar 1) 99) two_teams.

(** A new warp system whose first team was given efficiency 0.9. *)
Definition efficient_team1 : Warp.WarpSystem :=
  Warp.set_all_teams
    (("team1", Warp.mkTeam "Initialization" false (9 # 10))
       :: tl (Warp.all_teams Warp.init))
    Warp.init.

(** One pass of the loop three seconds after the start, resources idle. *)
Definition calm_tick : Warp.Tick := Warp.mkTick 10 10 3 3 3.

(** The warp system with two teams active and, in [self.phase], the
    instance [WarpPhase(2)]. *)
Definition instance_phase2 : Warp.WarpSystem :=
  Warp.set_phase (Warp.PInstance 2) two_teams.

End Scenario.

(** * Properties *)

(** ** Comparisons and sorting *)

Lemma Qlt_bool_true (a b : Q) : Py.Qlt_bool a b = true <-> a < b.
Proof.
  unfold Py.Qlt_bool. rewrite negb_true_iff. split.
  - intros H. apply Qnot_le_lt. intros Hle.
    apply Qle_bool_iff in Hle. congruence.
  - intros H. destruct (Qle_bool b a) eqn:E; [|reflexivity].
    apply Qle_bool_iff in E. exfalso. exact (Qlt_not_le _ _ H E).
Qed.

Lemma Qlt_bool_false (a b : Q) : Py.Qlt_bool a b = false <-> b <= a.
Proof.
  unfold Py.Qlt_bool. rewrite negb_false_iff. apply Qle_bool_iff.
Qed.

Lemma py_max_0_nonneg (x : Q) : 0 <= Py.max 0 x.
Proof.
  unfold Py.max. destruct (Py.Qlt_bool 0 x) eqn:E.
  - apply Qlt_bool_true in E. apply Qlt_le_weak. exact E.
  - apply Qle_refl.
Qed.

Lemma py_max_0_le (m sev : Q) : 0 <= m -> 0 <= sev -> Py.max 0 (m - sev) <= m.
Proof.
  intros Hm Hs. unfold Py.max. destruct (Py.Qlt_bool 0 (m - sev)) eqn:E.
  - apply Qle_minus_iff. setoid_replace (m + - (m - sev)) with sev by ring.
    exact Hs.
  - exact Hm.
Qed.

Lemma py_min_cases (a b : Q) :
  (Py.min a b = a /\ a <= b) \/ (Py.min a b = b /\ b < a).
Proof.
  unfold Py.min. destruct (Py.Qlt_bool b a) eqn:E.
  - right. split; [reflexivity|]. apply Qlt_bool_true. exact E.
  - left. split; [reflexivity|]. apply Qlt_bool_false. exact E.
Qed.

Section SortFacts.

Context {A : Type} (key : A -> Q).

Local Abbreviation ge := (PySort.ge key).
Local Abbreviation with_key := (PySort.with_key key).

Lemma insert_desc_perm (x : A) (l : list A) :
  Permutation (x :: l) (PySort.insert_desc key x l).
Proof.
  induction l as [|y l IH]; simpl.
  - apply Permutation_refl.
  - destruct (Py.Qlt_bool (key x) (key y)).
    + eapply perm_trans; [apply perm_swap|]. apply perm_skip. exact IH.
    + apply Permutation_refl.
Qed.

Lemma sorted_desc_perm (l : list A) :
  Permutation l (PySort.sorted_desc key l).
Proof.
  induction l as [|x l IH]; simpl.
  - constructor.
  - eapply perm_trans; [|apply insert_desc_perm].
    apply perm_skip. exact IH.
Qed.

Lemma insert_desc_hd (x y : A) (l : list A) :
  key x < key y -> HdRel ge y l -> HdRel ge y (PySort.insert_desc key x l).
Proof.
  intros Hxy Hl. destruct l as [|z l]; simpl.
  - constructor. apply Qlt_le_weak. exact Hxy.
  - destruct (Py.Qlt_bool (key x) (key z)).
    + constructor. inversion Hl; assumption.
    + constructor. apply Qlt_le_weak. exact Hxy.
Qed.

Lemma insert_desc_sorted (x : A) (l : list A) :
  Sorted ge l -> Sorted ge (PySort.insert_desc key x l).
Proof.
  induction 1 as [|y l Hs IH Hhd]; simpl.
  - repeat constructor.
  - destruct (Py.Qlt_bool (key x) (key y)) eqn:E.
    + constructor; [exact IH|].
      apply insert_desc_hd; [|exact Hhd]. apply Qlt_bool_true. exact E.
    + constructor; [constructor; assumption|].
      constructor. apply Qlt_bool_false. exact E.
Qed.

Lemma ge_trans (a b c : A) : ge a b -> ge b c -> ge a c.
Proof. unfold PySort.ge. intros H1 H2. eapply Qle_trans; eassumption. Qed.

Lemma sorted_desc_sorted (l : list A) :
  StronglySorted ge (PySort.sorted_desc key l).
Proof.
  apply Sorted_StronglySorted; [exact ge_trans|].
  induction l as [|x l IH]; simpl.
  - constructor.
  - apply insert_desc_sorted. exact IH.
Qed.

Lemma insert_desc_filter (q : Q) (x : A) (l : list A) :
  filter (with_key q) (PySort.insert_desc key x l)
  = filter (with_key q) (x :: l).
Proof.
  induction l as [|y l IH]; [reflexivity|].
  cbn [PySort.insert_desc].
  destruct (Py.Qlt_bool (key x) (key y)) eqn:E; [|reflexivity].
  apply Qlt_bool_true in E.
  cbn [filter] in *. rewrite IH.
  destruct (with_key q x) eqn:Ex; [|reflexivity].
  destruct (with_key q y) eqn:Ey; [|reflexivity].
  unfold PySort.with_key in Ex, Ey.
  apply Qeq_bool_iff in Ex. apply Qeq_bool_iff in Ey.
  rewrite Ex, Ey in E. exfalso. exact (Qlt_irrefl _ E).
Qed.

(** Stability: among the elements of one key the order is the input's. *)
Lemma sorted_desc_stable (q : Q) (l : list A) :
  filter (with_key q) (PySort.sorted_desc key l) = filter (with_key q) l.
Proof.
  induction l as [|x l IH]; [reflexivity|].
  cbn [PySort.sorted_desc fold_right].
  rewrite insert_desc_filter. cbn [filter].
  fold (PySort.sorted_desc key l). rewrite IH. reflexivity.
Qed.

Lemma sorted_desc_nil (l : list A) : PySort.sorted_desc key l = [] <-> l = [].
Proof.
  split; intros H.
  - apply Permutation_nil. apply Permutation_sym.
    rewrite <- H. apply sorted_desc_perm.
  - subst. reflexivity.
Qed.

End SortFacts.

(** ** The error counts of [diagnose] *)

Section CountFacts.

Import Healing HealthSpec.

Lemma get_count_bump (k ty : string) (sev : Q) (counts : Counts) :
  get_count k (bump ty sev counts)
  = if k =? ty
    then Some (match get_count ty counts with
               | Some (c, t) => (S c, t + sev)
               | None => (1%nat, 0 + sev)
               end)
    else get_count k counts.
Proof.
  induction counts as [|[k0 [c0 t0]] rest IH]; cbn [bump get_count].
  - rewrite String.eqb_sym. destruct (k =? ty); reflexivity.
  - destruct (k0 =? ty) eqn:E0; cbn [get_count].
    + apply String.eqb_eq in E0. subst k0.
      rewrite (String.eqb_sym ty k). destruct (k =? ty); reflexivity.
    + destruct (k0 =? k) eqn:E1.
      * apply String.eqb_eq in E1. subst k0. rewrite E0. reflexivity.
      * exact IH.
Qed.

Lemma keys_bump (k ty : string) (sev : Q) (counts : Counts) :
  In k (map fst (bump ty sev counts)) <-> k = ty \/ In k (map fst counts).
Proof.
  induction counts as [|[k0 [c0 t0]] rest IH]; cbn [bump map fst In].
  - intuition congruence.
  - destruct (k0 =? ty) eqn:E0; cbn [map fst In].
    + apply String.eqb_eq in E0. subst k0. intuition congruence.
    + rewrite IH. tauto.
Qed.

Lemma NoDup_bump (ty : string) (sev : Q) (counts : Counts) :
  NoDup (map fst counts) -> NoDup (map fst (bump ty sev counts)).
Proof.
  induction counts as [|[k0 [c0 t0]] rest IH]; cbn [bump map fst]; intros H.
  - repeat constructor. intros [].
  - inversion H as [|? ? Hnotin Hnd]; subst.
    destruct (k0 =? ty) eqn:E0; cbn [map fst].
    + constructor; assumption.
    + constructor; [|apply IH; exact Hnd].
      rewrite keys_bump. intros [->|Hin]; [|exact (Hnotin Hin)].
      rewrite String.eqb_refl in E0. discriminate.
Qed.

Lemma get_count_In (k : string) (v : nat * Q) (counts : Counts) :
  get_count k counts = Some v -> In (k, v) counts.
Proof.
  induction counts as [|[k0 v0] rest IH]; cbn [get_count]; [discriminate|].
  destruct (k0 =? k) eqn:E.
  - apply String.eqb_eq in E. subst k0. intros [= ->]. left. reflexivity.
  - intros H. right. exact (IH H).
Qed.

Lemma In_get_count (k : string) (v : nat * Q) (counts : Counts) :
  NoDup (map fst counts) -> In (k, v) counts -> get_count k counts = Some v.
Proof.
  induction counts as [|[k0 v0] rest IH]; cbn [get_count map fst];
    intros Hnd Hin; [destruct Hin|].
  inversion Hnd as [|? ? Hnotin Hnd']; subst.
  destruct Hin as [[= -> ->]|Hin].
  - rewrite String.eqb_refl. reflexivity.
  - destruct (k0 =? k) eqn:E.
    + apply String.eqb_eq in E. subst k0. exfalso. apply Hnotin.
      change k with (fst (k, v)). apply in_map. exact Hin.
    + apply IH; assumption.
Qed.

Lemma count_errors_snoc (log : list ErrorRecord) (e : ErrorRecord) :
  count_errors (log ++ [e])%list
  = if negb (e_healed e)
    then bump (e_type e) (e_severity e) (count_errors log)
    else count_errors log.
Proof. unfold count_errors. rewrite fold_left_app. reflexivity. Qed.

Lemma NoDup_count_errors (log : list ErrorRecord) :
  NoDup (map fst (count_errors log)).
Proof.
  induction log as [|e log IH] using rev_ind.
  - constructor.
  - rewrite count_errors_snoc. destruct (negb (e_healed e)); [|exact IH].
    apply NoDup_bump. exact IH.
Qed.

Lemma unhealed_of_snoc (k : string) (log : list ErrorRecord) (e : ErrorRecord) :
  unhealed_of k (log ++ [e])%list
  = (unhealed_of k log
     ++ (if negb (e_healed e) && (e_type e =? k) then [e] else []))%list.
Proof. unfold unhealed_of. rewrite filter_app. reflexivity. Qed.

Lemma Qsum_snoc (l : list Q) (x : Q) :
  Py.Qsum (l ++ [x])%list == Py.Qsum l + x.
Proof.
  unfold Py.Qsum. induction l as [|y l IH]; cbn [app fold_right].
  - ring.
  - rewrite IH. ring.
Qed.

Lemma count_errors_counted (log : list ErrorRecord) (k : string) :
  counted k log (count_errors log).
Proof.
  unfold counted. induction log as [|e log IH] using rev_ind.
  - reflexivity.
  - rewrite count_errors_snoc, unhealed_of_snoc.
    destruct (negb (e_healed e)) eqn:Eh; cbn [andb].
    + rewrite get_count_bump. rewrite (String.eqb_sym (e_type e) k).
      destruct (k =? e_type e) eqn:Ek.
      * apply String.eqb_eq in Ek. subst k.
        destruct (get_count (e_type e) (count_errors log)) as [[c t]|].
        -- destruct IH as (Hc & Ht & Hpos).
           rewrite length_app, map_app. cbn [List.length map].
           repeat split; [lia| |lia]. rewrite Qsum_snoc, Ht. reflexivity.
        -- rewrite IH. cbn. repeat split; [ring|lia].
      * rewrite app_nil_r. exact IH.
    + rewrite app_nil_r. exact IH.
Qed.

Lemma flat_map_nil {A B} (f : A -> list B) (l : list A) :
  flat_map f l = [] <-> forall x, In x l -> f x = [].
Proof.
  induction l as [|a l IH]; cbn [flat_map In].
  - split; [intros _ x []|reflexivity].
  - split.
    + intros H. apply app_eq_nil in H. destruct H as [Ha Hl].
      intros x [<-|Hx]; [exact Ha|]. apply IH; assumption.
    + intros H. rewrite (H a (or_introl eq_refl)).
      apply IH. intros x Hx. apply H. right. exact Hx.
Qed.

(** No recurring issue iff no error type has three unhealed entries. *)
Lemma recurring_issues_nil (log : list ErrorRecord) :
  recurring_issues (count_errors log) = []
  <-> forall ty, (List.length (unhealed_of ty log) < 3)%nat.
Proof.
  unfold recurring_issues. rewrite flat_map_nil. split.
  - intros H ty. pose proof (count_errors_counted log ty) as Hc.
    unfold counted in Hc.
    destruct (get_count ty (count_errors log)) as [[c t]|] eqn:G.
    + destruct Hc as (Hc & _ & _). apply get_count_In in G.
      specialize (H _ G). cbv beta iota in H.
      destruct (3 <=? c)%nat eqn:E; [discriminate|].
      apply Nat.leb_gt in E. lia.
    + rewrite Hc. cbn. lia.
  - intros H [k [c t]] Hin.
    apply In_get_count in Hin; [|apply NoDup_count_errors].
    pose proof (count_errors_counted log k) as Hc. unfold counted in Hc.
    rewrite Hin in Hc. destruct Hc as (Hc & _ & _).
    specialize (H k). cbv beta iota.
    destruct (3 <=? c)%nat eqn:E; [|reflexivity].
    apply Nat.leb_le in E. lia.
Qed.

(** No critical issue iff every gauge is at least 50. *)
Lemma critical_issues_nil (hm : HealthMetrics) :
  critical_issues hm = [] <-> Forall (fun '(_, v) => 50 <= v) (items hm).
Proof.
  unfold critical_issues. rewrite flat_map_nil, Forall_forall. split.
  - intros H [m v] Hin. specialize (H _ Hin). cbv beta iota in H.
    destruct (Py.Qlt_bool v 50) eqn:E; [discriminate|].
    apply Qlt_bool_false. exact E.
  - intros H [m v] Hin. specialize (H _ Hin). cbv beta iota in H.
    apply Qlt_bool_false in H. cbv beta iota. rewrite H. reflexivity.
Qed.

End CountFacts.

(** ** diagnose *)

Section DiagnoseFacts.

Import Healing HealthSpec.

Lemma diagnose_perm (self : SelfHealingSystem) :
  Permutation (discovered self) (diagnose self).
Proof. apply sorted_desc_perm. Qed.

Lemma in_diagnose (self : SelfHealingSystem) (i : Issue) :
  In i (diagnose self)
  <-> In i (critical_issues (health_metrics self))
      \/ In i (recurring_issues (count_errors (error_log self))).
Proof.
  rewrite <- in_app_iff. split; apply Permutation_in.
  - apply Permutation_sym. apply diagnose_perm.
  - apply diagnose_perm.
Qed.

Lemma in_critical_issues (hm : HealthMetrics) (i : Issue) :
  In i (critical_issues hm)
  -> exists m v, In m metric_names /\ v < 50 /\ i = critical_issue m v.
Proof.
  unfold critical_issues. rewrite in_flat_map.
  intros [[m v] [Hin Hi]]. exists m, v.
  destruct (Py.Qlt_bool v 50) eqn:E; [|destruct Hi].
  apply Qlt_bool_true in E. destruct Hi as [<-|[]].
  split; [|split; [exact E|reflexivity]].
  cbn in Hin.
  repeat (destruct Hin as [[= <- _]|Hin]; [cbn; tauto|]). destruct Hin.
Qed.

Lemma in_recurring_issues (counts : Counts) (i : Issue) :
  In i (recurring_issues counts)
  <-> exists k c t,
        In (k, (c, t)) counts /\ (3 <= c)%nat /\ i = recurring_issue k c t.
Proof.
  unfold recurring_issues. rewrite in_flat_map. split.
  - intros [[k [c t]] [Hin Hi]]. exists k, c, t.
    destruct (3 <=? c)%nat eqn:E; [|destruct Hi].
    apply Nat.leb_le in E. destruct Hi as [<-|[]]. auto.
  - intros (k & c & t & Hin & Hc & ->). exists (k, (c, t)).
    split; [exact Hin|]. apply Nat.leb_le in Hc. rewrite Hc. left. reflexivity.
Qed.

End DiagnoseFacts.

(** C4. Whenever an error type has at least three unhealed entries in the
    error log, [diagnose()] returns an issue labelled recurring for that
    type; its severity is the mean severity of those entries, and it carries
    the number of those entries as its count. *)
Theorem diagnose_recurring_issue
  (self : Healing.SelfHealingSystem) (ty : string) :
  let es := HealthSpec.unhealed_of ty (Healing.error_log self) in
  (3 <= List.length es)%nat ->
  exists i,
    In i (Healing.diagnose self)
    /\ Healing.i_type i = "recurring_" ++ ty
    /\ Healing.i_severity i == HealthSpec.mean_severity es
    /\ Healing.i_count i = Some (List.length es).
Proof.
  intros es Hlen.
  pose proof (count_errors_counted (Healing.error_log self) ty) as Hc.
  unfold HealthSpec.counted in Hc.
  destruct (HealthSpec.get_count ty
              (Healing.count_errors (Healing.error_log self)))
    as [[c t]|] eqn:G.
  - destruct Hc as (Hc & Ht & _). fold es in Hc, Ht.
    exists (Healing.recurring_issue ty c t). repeat split.
    + apply in_diagnose. right. apply in_recurring_issues.
      exists ty, c, t. repeat split; [|lia].
      apply get_count_In. exact G.
    + cbn [Healing.recurring_issue Healing.i_severity].
      unfold HealthSpec.mean_severity. rewrite Ht, Hc. reflexivity.
    + cbn. rewrite Hc. reflexivity.
  - fold es in Hc. rewrite Hc in Hlen. cbn in Hlen. lia.
Qed.

Lemma diagnose_recurring_issue_witness :
  let es := HealthSpec.unhealed_of "memory_corruption"
              (Healing.error_log Scenario.three_corruptions) in
  (3 <= List.length es)%nat
  /\ exists i,
       In i (Healing.diagnose Scenario.three_corruptions)
       /\ Healing.i_type i = "recurring_" ++ "memory_corruption"
       /\ Healing.i_severity i == HealthSpec.mean_severity es
       /\ Healing.i_count i = Some (List.length es).
Proof.
  split; [cbn; lia|].
  apply (diagnose_recurring_issue Scenario.three_corruptions
           "memory_corruption").
  cbn. lia.
Defined.

(** C6. For every state of the health engine, the list [diagnose()] returns
    is the discovered issues sorted by severity in descending order, issues
    of equal severity staying in discovery order; it is empty if and only if
    every health metric is at least 50 and no error type has three or more
    unhealed log entries. *)
Theorem diagnose_sorted_and_empty_iff (self : Healing.SelfHealingSystem) :
  StronglySorted (PySort.ge Healing.i_severity) (Healing.diagnose self)
  /\ Permutation (Healing.discovered self) (Healing.diagnose self)
  /\ (forall q,
        filter (PySort.with_key Healing.i_severity q) (Healing.diagnose self)
        = filter (PySort.with_key Healing.i_severity q)
                 (Healing.discovered self))
  /\ (Healing.diagnose self = []
      <-> Forall (fun '(_, v) => 50 <= v)
                 (Healing.items (Healing.health_metrics self))
          /\ forall ty,
               (List.length
                  (HealthSpec.unhealed_of ty (Healing.error_log self)) < 3)%nat).
Proof.
  repeat split.
  - apply sorted_desc_sorted.
  - apply diagnose_perm.
  - intros q. apply sorted_desc_stable.
  - apply critical_issues_nil.
    apply sorted_desc_nil in H. apply app_eq_nil in H. tauto.
  - apply recurring_issues_nil.
    apply sorted_desc_nil in H. apply app_eq_nil in H. tauto.
  - intros [Hm Hr]. apply sorted_desc_nil. unfold Healing.discovered.
    apply critical_issues_nil in Hm. apply recurring_issues_nil in Hr.
    rewrite Hm, Hr. reflexivity.
Qed.

(** C7. From a fresh engine, three [log_error("memory_corruption", 20, {})]
    take memory_integrity from 100 to 80 to 60 to 40, and [diagnose()] then
    returns exactly two issues, in this order: recurring_memory_corruption
    with severity 20 and count 3, then critical_memory_integrity with
    severity 2. *)
Theorem recurring_error_scenario
  (a : Healing.Agent) (d1 d2 d3 : Healing.Details) (t1 t2 t3 : Q) :
  let s0 := Healing.init a in
  let s1 := Healing.log_error "memory_corruption" 20 d1 t1 s0 in
  let s2 := Healing.log_error "memory_corruption" 20 d2 t2 s1 in
  let s3 := Healing.log_error "memory_corruption" 20 d3 t3 s2 in
  Healing.memory_integrity (Healing.health_metrics s0) == 100
  /\ Healing.memory_integrity (Healing.health_metrics s1) == 80
  /\ Healing.memory_integrity (Healing.health_metrics s2) == 60
  /\ Healing.memory_integrity (Healing.health_metrics s3) == 40
  /\ exists r c,
       Healing.diagnose s3 = [r; c]
       /\ Healing.i_type r = "recurring_memory_corruption"
       /\ Healing.i_severity r == 20
       /\ Healing.i_count r = Some 3%nat
       /\ Healing.i_type c = "critical_memory_integrity"
       /\ Healing.i_severity c == (50 - 40) / 50 * 10
       /\ Healing.i_severity c == 2
       /\ Healing.i_count c = None.
Proof.
  cbv zeta. repeat (split; [reflexivity|]).
  eexists. eexists. split; [reflexivity|].
  repeat split; reflexivity.
Qed.

(** C8. From the default state (all eight intensities 50),
    [update_emotion("joy", 20, decay_factor=0.9)] returns normally and leaves
    joy at 70, each of the other seven intensities at 45, and the derived
    stability at 12.5. *)
Theorem update_emotion_joy_scenario :
  exists s',
    Emotion.update_emotion "joy" 20 (9 # 10) Emotion.default = (Py.Ok tt, s')
    /\ Forall (fun v => v == 50) (Emotion.intensities Emotion.default)
    /\ Emotion.joy s' == 70
    /\ Forall (fun v => v == 45) (tl (Emotion.intensities s'))
    /\ Emotion.stability s' == 125 # 10.
Proof.
  eexists. split; [reflexivity|].
  repeat split; repeat constructor; reflexivity.
Qed.

(** ** update_emotion and unknown names *)

(** A name that is no attribute of the state is rejected before anything is
    written. *)
Lemma update_emotion_no_attribute
  (name : string) (value decay : Q) (s : Emotion.EmotionalState) :
  Emotion.getattr s name = None ->
  Emotion.update_emotion name value decay s
  = (Py.Raise (Py.ValueError ("Unknown emotion: " ++ name)), s).
Proof.
  intros H. unfold Emotion.update_emotion, Py.bind, Py.get. rewrite H.
  reflexivity.
Qed.

(** C2. The guard of [update_emotion] is [hasattr], so a name that is not one
    of the eight emotions but is an attribute of the state passes it:
    [update_emotion("stability", 10)] on the default state raises nothing and
    decays all eight intensities from 50 to 45. *)
Theorem update_emotion_accepts_stability :
  ~ In "stability" Emotion.emotion_names
  /\ exists s',
       Emotion.update_emotion "stability" 10 Emotion.default_decay
         Emotion.default = (Py.Ok tt, s')
       /\ Forall (fun v => v == 50) (Emotion.intensities Emotion.default)
       /\ Forall (fun v => v == 45) (Emotion.intensities s').
Proof.
  split.
  - cbn. intros H. repeat (destruct H as [H|H]; [discriminate H|]). exact H.
  - eexists. split; [reflexivity|].
    split; repeat constructor; reflexivity.
Qed.

(** ** heal and critical issues *)

Lemma Forall_firstn_keeps {A} (P : A -> Prop) (n : nat) (l : list A) :
  Forall P l -> Forall P (firstn n l).
Proof.
  intros H. revert n. induction H as [|x l Hx _ IH]; intros [|n]; cbn;
    constructor; auto.
Qed.

Section HealFacts.

Import Healing HealthSpec.

Lemma select_strategy_metric (m : string) :
  In m metric_names -> select_strategy m = None.
Proof.
  cbn. intros H.
  repeat (destruct H as [<-|H]; [reflexivity|]). destruct H.
Qed.

Lemma critical_issue_no_strategy (m : string) (v : Q) :
  In m metric_names ->
  select_strategy (base_error_type (i_type (critical_issue m v))) = None.
Proof.
  cbn. intros H.
  repeat (destruct H as [<-|H]; [reflexivity|]). destruct H.
Qed.

Lemma recurring_issue_not_critical (k : string) (c : nat) (t : Q) :
  is_critical (recurring_issue k c t) = false.
Proof. reflexivity. Qed.

Lemma critical_in_diagnose_no_strategy (self : SelfHealingSystem) (i : Issue) :
  In i (diagnose self) -> is_critical i = true ->
  select_strategy (base_error_type (i_type i)) = None.
Proof.
  intros Hin Hc. apply in_diagnose in Hin. destruct Hin as [Hin|Hin].
  - apply in_critical_issues in Hin. destruct Hin as (m & v & Hm & _ & ->).
    apply critical_issue_no_strategy. exact Hm.
  - apply in_recurring_issues in Hin. destruct Hin as (k & c & t & _ & _ & ->).
    rewrite recurring_issue_not_critical in Hc. discriminate.
Qed.

Lemma heal_issues_no_strategy
  (issues : list Issue) (acts : list Action) (self : SelfHealingSystem) :
  Forall (fun i => select_strategy (base_error_type (i_type i)) = None) issues ->
  heal_issues issues acts self = (Py.Ok acts, self).
Proof.
  induction 1 as [|i issues Hi _ IH]; cbn [heal_issues].
  - reflexivity.
  - rewrite Hi. exact IH.
Qed.

Lemma mark_healed_no_action (log : list ErrorRecord) : mark_healed [] log = log.
Proof.
  unfold mark_healed. induction log as [|e log IH]; cbn [map]; [reflexivity|].
  rewrite IH. cbn [existsb]. rewrite andb_false_r. reflexivity.
Qed.

End HealFacts.

(** C10. No strategy key occurs in a metric name, so for an issue of kind
    critical [heal()] selects no strategy; and when [diagnose()] returns at
    least one issue and every issue it returns is critical, [heal()] reports
    "no_suitable_healing_strategy" with no action and leaves the agent, the
    error log and the health metrics as they were: no strategy ran. *)
Theorem heal_only_critical_issues (self : Healing.SelfHealingSystem) :
  Healing.diagnose self <> [] ->
  Forall (fun i => HealthSpec.is_critical i = true) (Healing.diagnose self) ->
  (forall key m,
     In key Healing.strategy_keys -> In m Healing.metric_names ->
     Py.contains key m = false)
  /\ Forall (fun i =>
               Healing.select_strategy
                 (Healing.base_error_type (Healing.i_type i)) = None)
            (Healing.diagnose self)
  /\ Healing.heal self
     = (Py.Ok (Healing.mkHealReport "no_suitable_healing_strategy" []), self).
Proof.
  intros Hne Hall.
  assert (Hsel : Forall (fun i =>
                   Healing.select_strategy
                     (Healing.base_error_type (Healing.i_type i)) = None)
                 (Healing.diagnose self)).
  { rewrite Forall_forall in *. intros i Hin.
    apply (critical_in_diagnose_no_strategy self i Hin). apply Hall, Hin. }
  split; [|split; [exact Hsel|]].
  - cbn. intros key m Hk Hm.
    repeat (destruct Hk as [<-|Hk];
            [repeat (destruct Hm as [<-|Hm]; [reflexivity|]); destruct Hm|]).
    destruct Hk.
  - unfold Healing.heal, Py.bind, Py.get.
    destruct (Healing.diagnose self) as [|i rest] eqn:E; [congruence|].
    rewrite heal_issues_no_strategy.
    + unfold Py.modify, Py.ret. rewrite mark_healed_no_action.
      destruct self. reflexivity.
    + apply Forall_firstn_keeps. exact Hsel.
Qed.

Lemma heal_only_critical_issues_witness :
  Healing.diagnose Scenario.one_leak <> []
  /\ Forall (fun i => HealthSpec.is_critical i = true)
            (Healing.diagnose Scenario.one_leak)
  /\ Healing.heal Scenario.one_leak
     = (Py.Ok (Healing.mkHealReport "no_suitable_healing_strategy" []),
        Scenario.one_leak).
Proof.
  assert (Hne : Healing.diagnose Scenario.one_leak <> []) by (cbn; discriminate).
  assert (Hall : Forall (fun i => HealthSpec.is_critical i = true)
                        (Healing.diagnose Scenario.one_leak))
    by (cbn; repeat constructor).
  split; [exact Hne|]. split; [exact Hall|].
  apply (heal_only_critical_issues Scenario.one_leak Hne Hall).
Defined.

(** ** Rewards *)

(** Runs the embedded code, leaving the arithmetic on rationals alone. *)
Ltac py_eval :=
  lazy -[Qmult Qplus Qminus Qdiv Qopp Qinv Qle Qlt Qeq Qle_bool Qeq_bool
         Py.Qlt_bool Py.max Py.min].

Section RewardFacts.

Import Incentive.

Lemma recent_app (now w : Q) (h1 h2 : list RewardRecord) :
  recent now w (h1 ++ h2) = (recent now w h1 ++ recent now w h2)%list.
Proof.
  induction h1 as [|[[ty v] t] h1 IH]; cbn [recent app]; [reflexivity|].
  rewrite IH. destruct (Qle_bool (now - t) w); reflexivity.
Qed.

(** A record is selected exactly when it lies in the window, wherever it
    stands in the history. *)
Lemma recent_middle (now w : Q) (h1 h2 : list RewardRecord)
      (ty : string) (v t : Q) :
  (now - t <= w ->
   recent now w (h1 ++ (ty, v, t) :: h2)
   = (recent now w h1 ++ (ty, v) :: recent now w h2)%list)
  /\ (~ now - t <= w ->
      recent now w (h1 ++ (ty, v, t) :: h2)
      = (recent now w h1 ++ recent now w h2)%list).
Proof.
  rewrite recent_app. cbn [recent].
  destruct (Qle_bool (now - t) w) eqn:E; split; intros H; try reflexivity.
  - apply Qle_bool_iff in E. contradiction.
  - apply Qle_bool_iff in H. congruence.
Qed.

(** A reward of one of the four categories is recorded at the end of the
    history, with the scaled value and the clock reading. *)
Lemma apply_reward_appends
  (ty : string) (mag t : Q) (st : St) :
  In ty reward_types ->
  exists base st',
    getattr (fst st) (ty ++ "_reward") = Some (Emotion.AFloat base)
    /\ apply_reward ty mag t st
       = (Py.Ok (base * mag * reward_scaling (fst st)), st')
    /\ reward_history (fst st')
       = (reward_history (fst st)
          ++ [(ty, base * mag * reward_scaling (fst st), t)])%list.
Proof.
  cbn [reward_types In]. intros H. destruct st as [i e]. destruct e.
  repeat (destruct H as [<-|H];
          [eexists; eexists; split; [reflexivity|];
           split; py_eval; reflexivity|]).
  destruct H.
Qed.

End RewardFacts.

(** C9. A reward applied at time [t] is appended to the history as
    [(type, scaled value, t)]; whatever is appended after it, a later
    [get_recent_rewards(w)] read at time [now] returns its
    [(type, scaled value)] at its place among the selected records when
    [now - t <= w] and leaves it out otherwise, and the call leaves the
    incentive system, history included, as it was. *)
Theorem recent_rewards_roundtrip
  (ty : string) (mag t : Q) (st : Incentive.St) :
  In ty Incentive.reward_types ->
  exists v st',
    Incentive.apply_reward ty mag t st = (Py.Ok v, st')
    /\ Incentive.reward_history (fst st')
       = (Incentive.reward_history (fst st) ++ [(ty, v, t)])%list
    /\ forall (self : Incentive.IncentiveSystem) later now w,
         Incentive.reward_history self
         = (Incentive.reward_history (fst st') ++ later)%list ->
         let before := Incentive.recent now w
                         (Incentive.reward_history (fst st)) in
         let after := Incentive.recent now w later in
         snd (Incentive.get_recent_rewards w now self) = self
         /\ (now - t <= w ->
             fst (Incentive.get_recent_rewards w now self)
             = Py.Ok (before ++ (ty, v) :: after)%list)
         /\ (~ now - t <= w ->
             fst (Incentive.get_recent_rewards w now self)
             = Py.Ok (before ++ after)%list).
Proof.
  intros Hty.
  destruct (apply_reward_appends ty mag t st Hty)
    as (base & st' & _ & Hrun & Hhist).
  exists (base * mag * Incentive.reward_scaling (fst st)), st'.
  split; [exact Hrun|]. split; [exact Hhist|].
  intros self later now w Hself before after.
  split; [reflexivity|].
  assert (Hget : fst (Incentive.get_recent_rewards w now self)
                 = Py.Ok (Incentive.recent now w
                            (Incentive.reward_history self)))
    by reflexivity.
  rewrite Hget, Hself, Hhist, <- app_assoc. cbn [app]. subst before after.
  destruct (recent_middle now w (Incentive.reward_history (fst st)) later
              ty (base * mag * Incentive.reward_scaling (fst st)) t)
    as [Hin Hout].
  split; intros H; f_equal; [apply Hin|apply Hout]; exact H.
Qed.

Lemma recent_rewards_roundtrip_witness :
  In "curiosity" Incentive.reward_types
  /\ exists v st',
       Incentive.apply_reward "curiosity" 2 100
         (Incentive.default, Emotion.default) = (Py.Ok v, st')
       /\ Incentive.reward_history (fst st') = ([] ++ [("curiosity", v, 100)])%list
       /\ forall (self : Incentive.IncentiveSystem) later now w,
            Incentive.reward_history self
            = (Incentive.reward_history (fst st') ++ later)%list ->
            let before := Incentive.recent now w [] in
            let after := Incentive.recent now w later in
            snd (Incentive.get_recent_rewards w now self) = self
            /\ (now - 100 <= w ->
                fst (Incentive.get_recent_rewards w now self)
                = Py.Ok (before ++ ("curiosity", v) :: after)%list)
            /\ (~ now - 100 <= w ->
                fst (Incentive.get_recent_rewards w now self)
                = Py.Ok (before ++ after)%list).
Proof.
  assert (H : In "curiosity" Incentive.reward_types) by (cbn; tauto).
  split; [exact H|].
  exact (recent_rewards_roundtrip "curiosity" 2 100
           (Incentive.default, Emotion.default) H).
Defined.

(** ** Relations kept by monadic code *)

Section KeepFacts.

Context {S : Type} (R : S -> S -> Prop).
Hypothesis R_refl : forall s, R s s.
Hypothesis R_trans : forall a b c, R a b -> R b c -> R a c.

Lemma keeps_ret {A} (a : A) : Py.keeps R (Py.ret a).
Proof. intros s. apply R_refl. Qed.

Lemma keeps_raise {A} (e : Py.exn) : Py.keeps R (@Py.raise S A e).
Proof. intros s. apply R_refl. Qed.

Lemma keeps_get : Py.keeps R (@Py.get S).
Proof. intros s. apply R_refl. Qed.

Lemma keeps_modify (f : S -> S) :
  (forall s, R s (f s)) -> Py.keeps R (Py.modify f).
Proof. intros H s. apply H. Qed.

Lemma keeps_bind {A B} (m : Py.M S A) (k : A -> Py.M S B) :
  Py.keeps R m -> (forall a, Py.keeps R (k a)) -> Py.keeps R (Py.bind m k).
Proof.
  intros Hm Hk s. unfold Py.bind. specialize (Hm s).
  destruct (m s) as [[a|e] s1]; cbn [snd] in *.
  - eapply R_trans; [exact Hm|]. apply Hk.
  - exact Hm.
Qed.

Lemma keeps_for_each {A} (l : list A) (body : A -> Py.M S unit) :
  (forall x, Py.keeps R (body x)) -> Py.keeps R (Py.for_each l body).
Proof.
  intros H. induction l as [|x l IH]; cbn [Py.for_each].
  - apply keeps_ret.
  - apply keeps_bind; [apply H|]. intros _. exact IH.
Qed.

End KeepFacts.

Lemma bind_get {S A} (k : S -> Py.M S A) (s : S) :
  Py.bind Py.get k s = k s s.
Proof. reflexivity. Qed.

(** ** Health metrics along a run *)

Lemma py_min_le_l (c x : Q) : Py.min c x <= c.
Proof. destruct (py_min_cases c x) as [[-> H]|[-> H]]; lra. Qed.

Lemma py_min_nonneg (c x : Q) : 0 <= c -> 0 <= x -> 0 <= Py.min c x.
Proof. intros. destruct (py_min_cases c x) as [[-> H1]|[-> H1]]; lra. Qed.

(** Collects the two bounds of every [min(c, x)] of the goal. *)
Ltac min_facts :=
  repeat match goal with
         | |- context [Py.min ?c ?x] =>
             lazymatch goal with
             | _ : Py.min c x <= c |- _ => fail
             | _ => pose proof (py_min_le_l c x);
                    assert (0 <= Py.min c x) by (apply py_min_nonneg; lra)
             end
         end.

Section RunFacts.

Import Healing HealthSpec.

Lemma same_health_refl (s : SelfHealingSystem) : same_health s s.
Proof. split; reflexivity. Qed.

Lemma same_health_trans (a b c : SelfHealingSystem) :
  same_health a b -> same_health b c -> same_health a c.
Proof. intros [H1 H2] [H3 H4]. split; congruence. Qed.

Lemma pointwise_le_refl (hm : HealthMetrics) : pointwise_le hm hm.
Proof. repeat split; apply Qle_refl. Qed.

Lemma pointwise_le_trans (a b c : HealthMetrics) :
  pointwise_le a b -> pointwise_le b c -> pointwise_le a c.
Proof.
  intros (A1 & A2 & A3 & A4 & A5) (B1 & B2 & B3 & B4 & B5).
  repeat split; eapply Qle_trans; eassumption.
Qed.

Lemma grows_refl (s : SelfHealingSystem) : grows s s.
Proof. split; [apply pointwise_le_refl|reflexivity]. Qed.

Lemma grows_trans (a b c : SelfHealingSystem) :
  grows a b -> grows b c -> grows a c.
Proof.
  intros [H1 H2] [H3 H4]. split; [|congruence].
  eapply pointwise_le_trans; eassumption.
Qed.

Lemma on_emotions_keeps {A} (m : Py.M Emotion.EmotionalState A) :
  Py.keeps same_health (on_emotions m).
Proof.
  intros s. unfold on_emotions.
  destruct (m (emotional_state (agent s))). split; reflexivity.
Qed.

(** A strategy made of steps that leave the health state alone, then one
    update of the gauges: the gauges end as they were or updated once. *)
Lemma prefix_then_gain {A}
  (m : Py.M SelfHealingSystem A) (g : HealthMetrics -> HealthMetrics)
  (r : string) (s : SelfHealingSystem) :
  Py.keeps same_health m ->
  let s' := snd ((m ;;; modify_metrics g ;;; Py.ret r) s) in
  error_log s' = error_log s
  /\ (health_metrics s' = health_metrics s
      \/ health_metrics s' = g (health_metrics s)).
Proof.
  intros Hm. unfold Py.bind at 1. specialize (Hm s).
  destruct (m s) as [[a|e] s1]; cbn [snd] in *; destruct Hm as [Hh Hl].
  - cbn. rewrite Hh, Hl. auto.
  - auto.
Qed.

Lemma strategy_effect (f : Strategy) (sev : Q) (s : SelfHealingSystem) :
  0 <= sev ->
  let s' := snd (run_strategy f sev s) in
  error_log s' = error_log s
  /\ pointwise_le (health_metrics s) (health_metrics s')
  /\ gain_at_most 30 (health_metrics s) (health_metrics s').
Proof.
  intros Hsev. destruct f; cbn [run_strategy].
  - destruct s as [a l [m1 m2 m3 m4 m5]].
    unfold _heal_memory_corruption.
    destruct (Py.Qlt_bool 7 sev); py_eval;
      (split; [reflexivity|]); min_facts; repeat split; lra.
  - unfold _heal_emotional_instability. rewrite bind_get. cbv zeta.
    match goal with
    | |- context [Py.bind ?m (fun _ => Py.bind (modify_metrics ?g)
                                            (fun _ => Py.ret ?r))] =>
        assert (Hk : Py.keeps same_health m);
        [|destruct (prefix_then_gain m g r s Hk) as [Hl Hh]]
    end.
    { apply keeps_for_each;
        [exact same_health_refl|exact same_health_trans|].
      intros [emotion dev].
      apply keeps_bind; [exact same_health_trans| |];
        intros; apply on_emotions_keeps. }
    cbv zeta in Hl, Hh.
    split; [exact Hl|].
    destruct s as [a l [m1 m2 m3 m4 m5]].
    destruct Hh as [Hh|Hh]; rewrite Hh; py_eval; min_facts; repeat split; lra.
  - destruct s as [a l [m1 m2 m3 m4 m5]].
    unfold _heal_resource_depletion.
    destruct (Py.Qlt_bool 5 sev); py_eval;
      (split; [reflexivity|]); min_facts; repeat split; lra.
  - destruct s as [a l [m1 m2 m3 m4 m5]].
    unfold _heal_decision_paralysis.
    destruct (Py.Qlt_bool 6 sev); py_eval;
      (split; [reflexivity|]); min_facts; repeat split; lra.
  - destruct s as [a l [m1 m2 m3 m4 m5]].
    unfold _heal_communication_failure. py_eval.
    (split; [reflexivity|]); min_facts; repeat split; lra.
Qed.

Lemma run_strategy_grows (f : Strategy) (sev : Q) :
  0 <= sev -> Py.keeps grows (run_strategy f sev).
Proof.
  intros Hsev s. destruct (strategy_effect f sev s Hsev) as (Hl & Hle & _).
  split; [exact Hle|]. rewrite Hl. reflexivity.
Qed.

Lemma heal_issues_grows (issues : list Issue) (acts : list Action) :
  Forall (fun i => 0 <= i_severity i) issues ->
  Py.keeps grows (heal_issues issues acts).
Proof.
  intros H. revert acts. induction H as [|i issues Hi _ IH]; intros acts;
    cbn [heal_issues].
  - apply keeps_ret. exact grows_refl.
  - destruct (select_strategy (base_error_type (i_type i))) as [[key f]|].
    + apply keeps_bind; [exact grows_trans| |].
      * apply run_strategy_grows. exact Hi.
      * intros r. apply IH.
    + apply IH.
Qed.

Lemma mark_healed_severities (acts : list Action) (log : list ErrorRecord) :
  map e_severity (mark_healed acts log) = map e_severity log.
Proof.
  unfold mark_healed. rewrite map_map. apply map_ext. intros e.
  destruct (negb (e_healed e) && existsb _ acts); reflexivity.
Qed.

Lemma Qsum_nonneg (l : list Q) : Forall (fun q => 0 <= q) l -> 0 <= Py.Qsum l.
Proof.
  unfold Py.Qsum. induction 1 as [|x l Hx _ IH]; cbn [fold_right]; lra.
Qed.

Lemma unhealed_nonneg (k : string) (log : list ErrorRecord) :
  log_nonneg log ->
  Forall (fun q => 0 <= q) (map e_severity (unhealed_of k log)).
Proof.
  unfold log_nonneg, unhealed_of. rewrite !Forall_map, !Forall_forall.
  intros H e He. apply filter_In in He. apply H. tauto.
Qed.

Lemma diagnose_nonneg (self : SelfHealingSystem) :
  log_nonneg (error_log self) ->
  Forall (fun i => 0 <= i_severity i) (diagnose self).
Proof.
  intros Hlog. apply Forall_forall. intros i Hin.
  apply in_diagnose in Hin. destruct Hin as [Hin|Hin].
  - apply in_critical_issues in Hin. destruct Hin as (m & v & _ & Hv & ->).
    cbn [critical_issue i_severity].
    apply Qmult_le_0_compat; [|lra].
    apply Qmult_le_0_compat; [lra|]. apply Qinv_le_0_compat. lra.
  - apply in_recurring_issues in Hin.
    destruct Hin as (k & c & t & Hk & _ & ->).
    cbn [recurring_issue i_severity].
    apply In_get_count in Hk; [|apply NoDup_count_errors].
    pose proof (count_errors_counted (error_log self) k) as Hc.
    unfold counted in Hc. rewrite Hk in Hc. destruct Hc as (_ & Ht & _).
    apply Qmult_le_0_compat.
    + rewrite Ht. apply Qsum_nonneg. apply unhealed_nonneg. exact Hlog.
    + apply Qinv_le_0_compat. unfold Q_of_nat.
      change 0 with (inject_Z 0). rewrite <- Zle_Qle. lia.
Qed.

Lemma heal_grows (self : SelfHealingSystem) :
  log_nonneg (error_log self) -> grows self (snd (heal self)).
Proof.
  intros Hlog. unfold heal. rewrite bind_get.
  pose proof (diagnose_nonneg self Hlog) as Hd.
  destruct (diagnose self) as [|i rest]; [apply grows_refl|].
  revert self Hlog Hd.
  change (forall self0 : SelfHealingSystem,
            log_nonneg (error_log self0) ->
            Forall (fun i0 => 0 <= i_severity i0) (i :: rest) ->
            grows self0
              (snd ((actions <- heal_issues (firstn 3 (i :: rest)) [] ;;
                     Py.modify (fun self1 =>
                       set_error_log (mark_healed actions (error_log self1))
                                     self1) ;;;
                     Py.ret (mkHealReport
                               (match actions with
                                | _ :: _ => "healing_performed"
                                | [] => "no_suitable_healing_strategy"
                                end) actions)) self0))).
  intros self _ Hd. revert self.
  apply keeps_bind; [exact grows_trans| |].
  - apply heal_issues_grows. apply Forall_firstn_keeps. exact Hd.
  - intros actions. apply keeps_bind; [exact grows_trans| |].
    + apply keeps_modify. intros s. split; [apply pointwise_le_refl|].
      cbn. apply mark_healed_severities.
    + intros _. apply keeps_ret. exact grows_refl.
Qed.

Lemma floored_iff (hm : HealthMetrics) :
  floored hm <-> pointwise (fun _ v => 0 <= v) hm hm.
Proof.
  unfold floored, pointwise. destruct hm as [m1 m2 m3 m4 m5]. cbn. split.
  - intros H. repeat (inversion H as [|? ? ? H']; subst; clear H;
                      rename H' into H; split; [assumption|]).
    inversion H; assumption.
  - intros (H1 & H2 & H3 & H4 & H5). repeat constructor; assumption.
Qed.

Lemma floored_grows (hm hm' : HealthMetrics) :
  floored hm -> pointwise_le hm hm' -> floored hm'.
Proof.
  rewrite !floored_iff. intros (A1 & A2 & A3 & A4 & A5) (B1 & B2 & B3 & B4 & B5).
  repeat split;
    [exact (Qle_trans _ _ _ A1 B1) | exact (Qle_trans _ _ _ A2 B2)
    |exact (Qle_trans _ _ _ A3 B3) | exact (Qle_trans _ _ _ A4 B4)
    |exact (Qle_trans _ _ _ A5 B5)].
Qed.

Lemma deque_append_nonneg (log : list ErrorRecord) (e : ErrorRecord) :
  log_nonneg log -> 0 <= e_severity e -> log_nonneg (deque_append log e).
Proof.
  unfold log_nonneg, deque_append. intros Hl He.
  assert (H : Forall (fun q => 0 <= q) (map e_severity (log ++ [e]))).
  { rewrite map_app. apply Forall_app. split; [exact Hl|].
    repeat constructor. exact He. }
  destruct (maxlen <? List.length (log ++ [e]))%nat; [|exact H].
  destruct (log ++ [e])%list as [|x l]; [exact H|].
  inversion H; assumption.
Qed.

Lemma log_error_effect
  (ty : string) (sev : Q) (d : Details) (now : Q) (s : SelfHealingSystem) :
  0 <= sev -> floored (health_metrics s) ->
  let s' := log_error ty sev d now s in
  floored (health_metrics s')
  /\ pointwise_le (health_metrics s') (health_metrics s)
  /\ error_log s' = deque_append (error_log s)
                      (mkErrorRecord ty sev now d false).
Proof.
  intros Hsev Hfl. cbv zeta. rewrite floored_iff in *.
  destruct s as [a l [m1 m2 m3 m4 m5]].
  destruct Hfl as (H1 & H2 & H3 & H4 & H5). cbn in H1, H2, H3, H4, H5.
  unfold log_error. cbv zeta.
  repeat match goal with
         | |- context [if one_of ?x ?l then _ else _] =>
             destruct (one_of x l)
         end;
    cbn [health_metrics error_log set_health_metrics set_error_log
         set_memory_integrity set_emotional_balance set_resource_efficiency
         set_decision_quality set_communication_reliability
         memory_integrity emotional_balance resource_efficiency
         decision_quality communication_reliability];
    unfold pointwise_le, pointwise;
    cbn [memory_integrity emotional_balance resource_efficiency
         decision_quality communication_reliability];
    repeat split;
    first [assumption | apply Qle_refl | apply py_max_0_nonneg
          | apply py_max_0_le; assumption | reflexivity].
Qed.

End RunFacts.

Section InvariantFacts.

Import Healing HealthSpec.

Lemma step_effect (op : Op) (s : SelfHealingSystem) :
  valid_op op ->
  floored (health_metrics s) -> log_nonneg (error_log s) ->
  floored (health_metrics (step op s))
  /\ log_nonneg (error_log (step op s))
  /\ effect op (health_metrics s) (health_metrics (step op s)).
Proof.
  intros Hop Hfl Hlog. destruct op as [ty sev d now|f sev|]; cbn [step effect].
  - cbn in Hop.
    destruct (log_error_effect ty sev d now s Hop Hfl) as (H1 & H2 & H3).
    split; [exact H1|]. split; [|exact H2].
    rewrite H3. apply deque_append_nonneg; [exact Hlog|exact Hop].
  - cbn in Hop. destruct (strategy_effect f sev s Hop) as (Hl & Hle & Hcap).
    split; [exact (floored_grows _ _ Hfl Hle)|].
    split; [rewrite Hl; exact Hlog|]. split; assumption.
  - destruct (heal_grows s Hlog) as [Hle Hsev].
    split; [exact (floored_grows _ _ Hfl Hle)|].
    split; [|exact Hle]. unfold log_nonneg. rewrite Hsev. exact Hlog.
Qed.

Lemma run_invariant (ops : list Op) (s : SelfHealingSystem) :
  Forall valid_op ops ->
  floored (health_metrics s) -> log_nonneg (error_log s) ->
  floored (health_metrics (run ops s)) /\ log_nonneg (error_log (run ops s)).
Proof.
  intros Hops. revert s. unfold run.
  induction Hops as [|op ops Hop _ IH]; intros s Hfl Hlog; cbn [fold_left].
  - split; assumption.
  - destruct (step_effect op s Hop Hfl Hlog) as (H1 & H2 & _).
    apply IH; assumption.
Qed.

End InvariantFacts.

(** ** The phase loop *)

Section PhaseFacts.

Import Warp WarpSpec.

(** While [self.phase] is the integer 1, a pass of the loop neither breaks
    nor changes the phase: every way out of phase 1 reads [.value] of an
    integer. *)
Lemma iteration_stays_initial (env : Tick) (s : WarpSystem) :
  phase s = PInt INITIALIZATION -> stays_initial Break s (iteration env s).
Proof.
  destruct s; cbn [phase is_light_speed]; intros ->.
  unfold iteration. rewrite bind_get.
  match goal with |- context [if ?c then _ else _] => destruct c end.
  { cbn. repeat split. discriminate. }
  match goal with |- context [if ?c then _ else _] => destruct c end.
  { cbn. repeat split. discriminate. }
  unfold transitions. rewrite bind_get.
  cbn [phase phase_eq gated INITIALIZATION Z.eqb Pos.eqb].
  unfold _check_team_efficiency. unfold Py.bind at 1. rewrite bind_get.
  cbn [all_teams].
  destruct (lookup "team1" all_teams0) as [team|].
  2:{ cbn. repeat split. discriminate. }
  destruct (Qle_bool (8 # 10) (efficiency team)).
  - match goal with |- context [if ?c then _ else _] => destruct c end.
    + cbn. repeat split. discriminate.
    + cbn. repeat split. discriminate.
  - cbn. repeat split. discriminate.
Qed.

Lemma process_phase_stays_initial (envs : list Tick) (s : WarpSystem) :
  phase s = PInt INITIALIZATION ->
  stays_initial Halted s (_process_phase envs s).
Proof.
  revert s. induction envs as [|env envs IH]; intros s Hs;
    cbn [_process_phase].
  - repeat split; [discriminate|exact Hs].
  - unfold Py.bind.
    destruct (iteration_stays_initial env s Hs) as (Hb & Hp & Hl).
    destruct (iteration env s) as [[[|]|e] s1]; cbn [fst snd] in *.
    + destruct (IH s1 Hp) as (H1 & H2 & H3).
      repeat split; [exact H1|exact H2|congruence].
    + congruence.
    + repeat split; [discriminate|exact Hp|exact Hl].
Qed.






End PhaseFacts.



(** How a run started by [start_warp_sequence] leaves phase 1 in this code:
    not at all.  [self.phase] is an integer and [_advance_phase] reads
    [self.phase.value]: with team 1 at efficiency 0.9 and resources idle,
    the pass made three seconds after the start raises AttributeError, with
    the phase still 1 and the light-speed flag unset. *)
Lemma advance_from_initialization_raises :
  let out := Warp.start_warp_sequence 0 [Scenario.calm_tick]
               Scenario.efficient_team1 in
  fst out
  = Py.Raise (Py.AttributeError "'int' object has no attribute 'value'")
  /\ Warp.phase (snd out) = Warp.PInt Warp.INITIALIZATION
  /\ Warp.is_light_speed (snd out) = false
  /\ Warp.get_active_teams (snd out)
     = [Warp.mkTeam "Initialization" true (9 # 10)].
Proof.
  cbv zeta.
  assert (Hrun : Warp.start_warp_sequence 0 [Scenario.calm_tick]
                   Scenario.efficient_team1
                 = (Py.Raise (Py.AttributeError
                                "'int' object has no attribute 'value'"),
                    Warp.set_all_teams
                      (Warp.activate "team1" true
                         (Warp.all_teams Scenario.efficient_team1))
                      Scenario.efficient_team1))
    by reflexivity.
  rewrite Hrun. cbn [fst snd].
  split; [reflexivity|]. split; [reflexivity|]. split; reflexivity.
Qed.

(** ** Combining the teams' outputs *)

Section CombineFacts.

Import Np Warp WarpSpec.


Lemma nth_map_seq (f : nat -> Q) (m j : nat) :
  (j < m)%nat -> nth j (map f (seq 0 m)) 0 = f j.
Proof.
  intros H. rewrite (nth_indep _ 0 (f 0%nat)) by (rewrite length_map, length_seq; exact H).
  rewrite map_nth, seq_nth by exact H. reflexivity.
Qed.



End CombineFacts.



(** The window filling up with an array in it: the combination is computed
    and [is_low] then raises TypeError. *)
Lemma process_array_on_full_window :
  WarpSpec.tracker_raises (Np.Array [1; 2]) Scenario.nearly_full_window = true
  /\ fst (Warp.process_with_warp (Np.Array [1; 2]) Scenario.nearly_full_window)
     = Py.Raise Py.TypeError.
Proof. split; vm_compute; reflexivity. Qed.


(** * Further properties of the code *)

(** ** EmotionalState *)

Section EmotionFacts.

Import Emotion.

Lemma clamp_range (x : Q) :
  0 <= Py.max 0 (Py.min 100 x) /\ Py.max 0 (Py.min 100 x) <= 100.
Proof.
  split; [apply py_max_0_nonneg|].
  unfold Py.max. destruct (Py.Qlt_bool 0 (Py.min 100 x)); [|lra].
  apply py_min_le_l.
Qed.

Lemma decay_range (x d : Q) :
  0 <= d -> d <= 1 -> 0 <= x /\ x <= 100 -> 0 <= x * d /\ x * d <= 100.
Proof. intros Hd0 Hd1 [Hx0 Hx1]. split; nra. Qed.

Lemma in_range_iff (j sa f a t d an su st ad so : Q) :
  in_range (mkEmotionalState j sa f a t d an su st ad so)
  <-> (0 <= j /\ j <= 100) /\ (0 <= sa /\ sa <= 100)
      /\ (0 <= f /\ f <= 100) /\ (0 <= a /\ a <= 100)
      /\ (0 <= t /\ t <= 100) /\ (0 <= d /\ d <= 100)
      /\ (0 <= an /\ an <= 100) /\ (0 <= su /\ su <= 100).
Proof.
  unfold in_range. cbn [intensities joy sadness fear anger trust disgust
                        anticipation surprise].
  split.
  - intros H.
    repeat (apply Forall_cons_iff in H; destruct H as [? H]). tauto.
  - intros (H1 & H2 & H3 & H4 & H5 & H6 & H7 & H8).
    repeat constructor; tauto.
Qed.

(** Splits the lookup of [name] into the attribute it names. *)
Ltac by_attribute name :=
  repeat match goal with
         | |- context [name =? ?c] =>
             let E := fresh "E" in
             destruct (name =? c) eqn:E;
             [apply String.eqb_eq in E; subst name|]
         end.

Lemma update_emotion_range_any
  (name : string) (value decay : Q) (s : EmotionalState) :
  0 <= decay -> decay <= 1 -> in_range s ->
  in_range (snd (update_emotion name value decay s)).
Proof.
  intros Hd0 Hd1 Hs. destruct s as [j sa f a t d an su st ad so].
  pose proof Hs as Hs'. apply in_range_iff in Hs'.
  destruct Hs' as (H1 & H2 & H3 & H4 & H5 & H6 & H7 & H8).
  unfold update_emotion. rewrite bind_get. unfold getattr.
  by_attribute name;
    try (py_eval; repeat constructor;
         first [apply clamp_range
               | apply (decay_range _ decay Hd0 Hd1); assumption]).
  destruct (existsb (String.eqb name) other_attrs); exact Hs.
Qed.

Lemma update_emotion_outcome
  (name : string) (value decay : Q) (s : EmotionalState) :
  (exists e, update_emotion name value decay s = (Py.Raise e, s))
  \/ (exists s', update_emotion name value decay s = (Py.Ok tt, s')
                 /\ derived_ok s').
Proof.
  destruct s as [j sa f a t d an su st ad so].
  unfold update_emotion. rewrite bind_get. unfold getattr.
  by_attribute name;
    try (right; eexists; split; [py_eval; reflexivity|reflexivity]).
  destruct (existsb (String.eqb name) other_attrs); left; eexists; reflexivity.
Qed.

Lemma update_emotion_returns
  (name : string) (value decay : Q) (s : EmotionalState) :
  In name emotion_names ->
  exists s', update_emotion name value decay s = (Py.Ok tt, s').
Proof.
  cbn. intros H. destruct s.
  repeat (destruct H as [<-|H]; [eexists; reflexivity|]). destruct H.
Qed.

(** The largest item found by a scan from the left stands after smaller
    ones only. *)
Lemma max_from_first {A} (key : A -> Q) (l pre mid : list A) (best : A) :
  Forall (fun x => key x < key best) pre ->
  Forall (fun x => key x <= key best) mid ->
  exists before after,
    (pre ++ best :: mid ++ l)%list
    = (before ++ Py.max_from key best l :: after)%list
    /\ Forall (fun x => key x < key (Py.max_from key best l)) before
    /\ Forall (fun x => key x <= key (Py.max_from key best l)) after.
Proof.
  revert pre mid best.
  induction l as [|x l IH]; intros pre mid best Hpre Hmid; cbn [Py.max_from].
  - exists pre, mid. rewrite app_nil_r. auto.
  - destruct (Py.Qlt_bool (key best) (key x)) eqn:E.
    + apply Qlt_bool_true in E.
      destruct (IH (pre ++ best :: mid)%list [] x) as (b & a & Heq & Hb & Ha).
      * apply Forall_app. split.
        -- eapply Forall_impl; [|exact Hpre]. cbn. intros y Hy. lra.
        -- constructor; [exact E|].
           eapply Forall_impl; [|exact Hmid]. cbn. intros y Hy. lra.
      * constructor.
      * exists b, a. split; [|auto].
        rewrite <- Heq. cbn [app]. rewrite <- app_assoc. reflexivity.
    + apply Qlt_bool_false in E.
      destruct (IH pre (mid ++ [x])%list best Hpre) as (b & a & Heq & Hb & Ha).
      * apply Forall_app. split; [exact Hmid|]. constructor; [exact E|constructor].
      * exists b, a. split; [|auto].
        rewrite <- Heq. rewrite <- app_assoc. reflexivity.
Qed.

End EmotionFacts.

(** X1. [update_emotion] keeps the eight intensities on the 0-100 scale,
    whatever the name and the amount, when the decay factor lies within
    [0, 1]: the target is clamped and the others shrink towards 0. *)
Theorem update_emotion_keeps_range
  (name : string) (value decay : Q) (s : Emotion.EmotionalState) :
  0 <= decay -> decay <= 1 -> Emotion.in_range s ->
  Emotion.in_range (snd (Emotion.update_emotion name value decay s)).
Proof. intros. apply update_emotion_range_any; assumption. Qed.

Lemma update_emotion_keeps_range_witness :
  0 <= Emotion.default_decay /\ Emotion.default_decay <= 1
  /\ Emotion.in_range Emotion.default
  /\ Emotion.in_range
       (snd (Emotion.update_emotion "anger" 80 Emotion.default_decay
               Emotion.default)).
Proof.
  assert (H0 : 0 <= Emotion.default_decay) by discriminate.
  assert (H1 : Emotion.default_decay <= 1) by discriminate.
  assert (H2 : Emotion.in_range Emotion.default)
    by (repeat constructor; discriminate).
  split; [exact H0|]. split; [exact H1|]. split; [exact H2|].
  exact (update_emotion_keeps_range "anger" 80 Emotion.default_decay
           Emotion.default H0 H1 H2).
Defined.

(** X2. A call of [update_emotion] either raises and leaves the state as it
    was, or returns with the derived metrics recomputed from the
    intensities: stability, adaptability and social_alignment cannot be set
    through it. *)
Theorem update_emotion_raises_or_recomputes
  (name : string) (value decay : Q) (s : Emotion.EmotionalState) :
  let out := Emotion.update_emotion name value decay s in
  (exists e, fst out = Py.Raise e /\ snd out = s)
  \/ (fst out = Py.Ok tt
      /\ Emotion.stability (snd out)
         = (Emotion.joy (snd out) + Emotion.trust (snd out)
            - Emotion.fear (snd out) - Emotion.anger (snd out)) / 2
      /\ Emotion.adaptability (snd out)
         = (Emotion.anticipation (snd out) + Emotion.surprise (snd out)
            - Emotion.sadness (snd out)) / 2
      /\ Emotion.social_alignment (snd out)
         = Emotion.trust (snd out) - Emotion.disgust (snd out)).
Proof.
  cbv zeta.
  destruct (update_emotion_outcome name value decay s)
    as [[e He]|[s' [Hs' Hd]]].
  - left. exists e. rewrite He. auto.
  - right. rewrite Hs'. cbn [fst snd]. split; [reflexivity|].
    unfold Emotion.derived_ok in Hd.
    repeat split; rewrite Hd at 1; reflexivity.
Qed.

(** X3. [get_dominant_emotion] returns an emotion of the largest intensity,
    and of several such the first in the order joy, sadness, fear, anger,
    trust, disgust, anticipation, surprise. *)
Theorem dominant_emotion_is_first_maximum (s : Emotion.EmotionalState) :
  exists before after,
    Emotion.emotions s
    = (before ++ Emotion.get_dominant_emotion s :: after)%list
    /\ Forall (fun x => snd x < snd (Emotion.get_dominant_emotion s)) before
    /\ Forall (fun x => snd x <= snd (Emotion.get_dominant_emotion s)) after.
Proof.
  unfold Emotion.get_dominant_emotion.
  destruct (max_from_first snd (tl (Emotion.emotions s)) [] []
              ("joy", Emotion.joy s)) as (b & a & Heq & Hb & Ha);
    [constructor|constructor|].
  exists b, a. split; [|auto]. rewrite <- Heq. reflexivity.
Qed.

(** ** IncentiveSystem *)

(** Splits a chain of comparisons of [name] with string constants. *)
Ltac by_name name :=
  repeat match goal with
         | |- context [name =? ?c] =>
             let E := fresh "E" in
             destruct (name =? c) eqn:E;
             [apply String.eqb_eq in E; subst name|]
         end.

Section IncentiveFacts.

Import Incentive.

Lemma keeps_scale_refl (st : St) : keeps_scale st st.
Proof. intros H. exact H. Qed.

Lemma keeps_scale_trans (a b c : St) :
  keeps_scale a b -> keeps_scale b c -> keeps_scale a c.
Proof. unfold keeps_scale. auto. Qed.

Lemma on_self_keeps_scale {A} (m : Py.M IncentiveSystem A) :
  Py.keeps keeps_scale (on_self m).
Proof.
  intros [i e]. unfold on_self. destruct (m i). intros H. exact H.
Qed.

Lemma update_keeps_scale (name : string) (value : Q) :
  Py.keeps keeps_scale
    (on_emotions (Emotion.update_emotion name value Emotion.default_decay)).
Proof.
  intros [i e]. unfold on_emotions.
  pose proof (update_emotion_range_any name value Emotion.default_decay e)
    as H.
  destruct (Emotion.update_emotion name value Emotion.default_decay e).
  intros He. cbn [snd] in *. apply H; [discriminate|discriminate|exact He].
Qed.

Ltac keeps_scale_steps :=
  repeat first
    [ apply keeps_bind; [exact keeps_scale_trans| |intros ?]
    | apply on_self_keeps_scale
    | apply update_keeps_scale
    | apply keeps_ret; exact keeps_scale_refl
    | apply keeps_raise; exact keeps_scale_refl ].

Lemma apply_reward_keeps_scale (ty : string) (mag t : Q) :
  Py.keeps keeps_scale (apply_reward ty mag t).
Proof.
  unfold apply_reward.
  apply keeps_bind; [exact keeps_scale_trans|apply on_self_keeps_scale|].
  intros self. destruct (getattr self (ty ++ "_reward")) as [[base|]|];
    [|keeps_scale_steps..].
  by_name ty; keeps_scale_steps.
Qed.

Lemma apply_penalty_keeps_scale (ty : string) (mag t : Q) :
  Py.keeps keeps_scale (apply_penalty ty mag t).
Proof.
  unfold apply_penalty.
  apply keeps_bind; [exact keeps_scale_trans|apply on_self_keeps_scale|].
  intros self. destruct (getattr self (ty ++ "_penalty")) as [[base|]|];
    [|keeps_scale_steps..].
  by_name ty; keeps_scale_steps.
Qed.

Lemma bind_on_self_get {A} (k : IncentiveSystem -> Py.M St A)
      (i : IncentiveSystem) (e : Emotion.EmotionalState) :
  Py.bind (on_self Py.get) k (i, e) = k i (i, e).
Proof. reflexivity. Qed.

Lemma apply_reward_recorded (ty : string) (mag t : Q) (st : St) :
  recorded ty t st (apply_reward ty mag t st).
Proof.
  destruct st as [i e]. unfold apply_reward, recorded.
  rewrite bind_on_self_get.
  destruct (getattr i (ty ++ "_reward")) as [[base|]|];
    [|left; eexists; reflexivity..].
  right. destruct e.
  by_name ty; eexists; eexists; (split; py_eval; reflexivity).
Qed.

Lemma apply_penalty_recorded (ty : string) (mag t : Q) (st : St) :
  recorded ty t st (apply_penalty ty mag t st).
Proof.
  destruct st as [i e]. unfold apply_penalty, recorded.
  rewrite bind_on_self_get.
  destruct (getattr i (ty ++ "_penalty")) as [[base|]|];
    [|left; eexists; reflexivity..].
  right. destruct e.
  by_name ty; eexists; eexists; (split; py_eval; reflexivity).
Qed.

Lemma total_after_append (r : RewardRecord) (i : IncentiveSystem) :
  get_total_reward (append_history r i)
  == get_total_reward i + snd (fst r).
Proof.
  destruct r as [[ty v] t]. unfold get_total_reward.
  cbn [append_history reward_history fst snd].
  rewrite map_app. cbn [map]. apply Qsum_snoc.
Qed.

Lemma adapt_incentives_bounded (trend : Q) (i : IncentiveSystem) :
  scalings_bounded i -> scalings_bounded (adapt_incentives trend i).
Proof.
  unfold scalings_bounded, adapt_incentives. intros (H1 & H2 & H3 & H4).
  destruct (Py.Qlt_bool (2 # 10) trend);
    [|destruct (Py.Qlt_bool trend (- (2 # 10)))];
    cbn [set_scalings reward_scaling penalty_scaling]; [| |tauto];
    unfold Py.max;
    repeat match goal with
           | |- context [if Py.Qlt_bool ?a ?b then _ else _] =>
               let E := fresh "E" in
               destruct (Py.Qlt_bool a b) eqn:E;
               [apply Qlt_bool_true in E|apply Qlt_bool_false in E]
           end;
    min_facts;
    repeat match goal with
           | |- context [Py.min ?c ?x] =>
               destruct (py_min_cases c x) as [[-> ?]|[-> ?]]
           end;
    repeat split; lra.
Qed.

End IncentiveFacts.

(** X4. [apply_reward] on a category whose weight attribute
    [<category>_reward] is a number returns weight * magnitude *
    reward_scaling, having appended exactly the record (category, that
    value, clock reading) to the history, with every weight and scaling
    factor unchanged; on a name with no such attribute it raises ValueError
    and on one that names a method TypeError, in both cases leaving the
    incentive system and the emotional state as they were.  [apply_penalty]
    does the same with [<category>_penalty] and penalty_scaling. *)
Theorem reward_and_penalty_outcome
  (ty : string) (mag t : Q) (st : Incentive.St) :
  let ends (suffix unknown : string) (scaling : Q) out :=
    match Incentive.getattr (fst st) (ty ++ suffix) with
    | Some (Emotion.AFloat base) =>
        exists st',
          out = (Py.Ok (base * mag * scaling), st')
          /\ fst st'
             = Incentive.append_history (ty, base * mag * scaling, t) (fst st)
    | Some Emotion.AOther => out = (Py.Raise Py.TypeError, st)
    | None => out = (Py.Raise (Py.ValueError (unknown ++ ty)), st)
    end in
  ends "_reward" "Unknown reward type: "
       (Incentive.reward_scaling (fst st))
       (Incentive.apply_reward ty mag t st)
  /\ ends "_penalty" "Unknown penalty type: "
          (Incentive.penalty_scaling (fst st))
          (Incentive.apply_penalty ty mag t st).
Proof.
  cbv zeta. destruct st as [i e]. cbn [fst]. split.
  - unfold Incentive.apply_reward. rewrite bind_on_self_get.
    destruct (Incentive.getattr i (ty ++ "_reward")) as [[base|]|];
      [|reflexivity..].
    destruct e.
    by_name ty; eexists; (split; py_eval; reflexivity).
  - unfold Incentive.apply_penalty. rewrite bind_on_self_get.
    destruct (Incentive.getattr i (ty ++ "_penalty")) as [[base|]|];
      [|reflexivity..].
    destruct e.
    by_name ty; eexists; (split; py_eval; reflexivity).
Qed.

(** X5. [get_total_reward] after a reward or a penalty is the total before
    plus the value the call returned; after a call that raised it is the
    total before. *)
Theorem total_reward_accumulates
  (ty : string) (mag t : Q) (st : Incentive.St) :
  let grows out :=
    match out with
    | (Py.Ok v, st') =>
        Incentive.get_total_reward (fst st')
        == Incentive.get_total_reward (fst st) + v
    | (Py.Raise _, st') =>
        Incentive.get_total_reward (fst st')
        == Incentive.get_total_reward (fst st)
    end in
  grows (Incentive.apply_reward ty mag t st)
  /\ grows (Incentive.apply_penalty ty mag t st).
Proof.
  cbv zeta. split.
  - destruct (apply_reward_recorded ty mag t st)
      as [[e ->]|(v & st' & -> & Hst)]; [reflexivity|].
    rewrite Hst. apply total_after_append.
  - destruct (apply_penalty_recorded ty mag t st)
      as [[e ->]|(v & st' & -> & Hst)]; [reflexivity|].
    rewrite Hst. apply total_after_append.
Qed.

(** X6. Whatever the sequence of performance trends, [adapt_incentives]
    keeps both scaling factors within [0.5, 1.5] once they are there. *)
Theorem adapt_incentives_keeps_bounds
  (trends : list Q) (i : Incentive.IncentiveSystem) :
  Incentive.scalings_bounded i ->
  Incentive.scalings_bounded
    (fold_left (fun s trend => Incentive.adapt_incentives trend s) trends i).
Proof.
  revert i. induction trends as [|trend trends IH]; intros i H; cbn [fold_left].
  - exact H.
  - apply IH. apply adapt_incentives_bounded. exact H.
Qed.

Lemma adapt_incentives_keeps_bounds_witness :
  Incentive.scalings_bounded Incentive.default
  /\ Incentive.scalings_bounded
       (fold_left (fun s trend => Incentive.adapt_incentives trend s)
          [1; 1; - (1); 0; 5 # 10] Incentive.default).
Proof.
  assert (H : Incentive.scalings_bounded Incentive.default)
    by (repeat split; discriminate).
  split; [exact H|].
  exact (adapt_incentives_keeps_bounds [1; 1; - (1); 0; 5 # 10]
           Incentive.default H).
Defined.

(** X7. A reward or a penalty, of any category and magnitude, keeps the
    eight emotion intensities within [0, 100]. *)
Theorem reward_and_penalty_keep_scale
  (ty : string) (mag t : Q) (st : Incentive.St) :
  Emotion.in_range (snd st) ->
  Emotion.in_range (snd (snd (Incentive.apply_reward ty mag t st)))
  /\ Emotion.in_range (snd (snd (Incentive.apply_penalty ty mag t st))).
Proof.
  intros H. split.
  - exact (apply_reward_keeps_scale ty mag t st H).
  - exact (apply_penalty_keeps_scale ty mag t st H).
Qed.

Lemma reward_and_penalty_keep_scale_witness :
  Emotion.in_range Emotion.default
  /\ Emotion.in_range
       (snd (snd (Incentive.apply_reward "innovation" 30 0
                    (Incentive.default, Emotion.default))))
  /\ Emotion.in_range
       (snd (snd (Incentive.apply_penalty "innovation" 30 0
                    (Incentive.default, Emotion.default)))).
Proof.
  assert (H : Emotion.in_range Emotion.default)
    by (repeat constructor; discriminate).
  split; [exact H|].
  exact (reward_and_penalty_keep_scale "innovation" 30 0
           (Incentive.default, Emotion.default) H).
Defined.

(** ** heal *)

Section HealOutcome.

Import Healing HealthSpec.

Lemma same_log_refl (s : SelfHealingSystem) : same_log s s.
Proof. reflexivity. Qed.

Lemma same_log_trans (a b c : SelfHealingSystem) :
  same_log a b -> same_log b c -> same_log a c.
Proof. unfold same_log. congruence. Qed.

Lemma same_health_log (s s' : SelfHealingSystem) :
  same_health s s' -> same_log s s'.
Proof. intros [_ H]. exact H. Qed.

Lemma emotions_kept_refl (s : SelfHealingSystem) : emotions_kept s s.
Proof. intros H. exact H. Qed.

Lemma emotions_kept_trans (a b c : SelfHealingSystem) :
  emotions_kept a b -> emotions_kept b c -> emotions_kept a c.
Proof. unfold emotions_kept. auto. Qed.

(** The pairs the emotional strategy walks name emotions. *)
Lemma extreme_emotions_named (es : Emotion.EmotionalState) (med : Q) :
  Forall (fun x => In (fst x) Emotion.emotion_names)
    (firstn 3
       (PySort.sorted_desc snd
          (map (fun '(e, v) => (e, Qabs (v - med)))
             (combine Emotion.emotion_names (Emotion.intensities es))))).
Proof.
  apply Forall_firstn_keeps.
  eapply Permutation_Forall; [apply sorted_desc_perm|].
  apply Forall_forall. intros x Hx. apply in_map_iff in Hx.
  destruct Hx as [[e v] [<- Hin]]. cbn [fst].
  exact (in_combine_l _ _ _ _ Hin).
Qed.

Lemma for_each_returns {S A} (l : list A) (body : A -> Py.M S unit) :
  Forall (fun x => forall s, exists s', body x s = (Py.Ok tt, s')) l ->
  forall s, exists s', Py.for_each l body s = (Py.Ok tt, s').
Proof.
  induction 1 as [|x l Hx _ IH]; intros s; cbn [Py.for_each].
  - eexists. reflexivity.
  - unfold Py.bind. destruct (Hx s) as [s1 ->]. apply IH.
Qed.

Lemma rebalance_returns (emotion : string) (dev : Q) (k : Q -> Q)
      (s : SelfHealingSystem) :
  In emotion Emotion.emotion_names ->
  exists s',
    (current <- on_emotions (e <- Py.get ;; Py.ret (Emotion.get_float e emotion)) ;;
     on_emotions (Emotion.update_emotion emotion (k current)
                    Emotion.default_decay)) s
    = (Py.Ok tt, s').
Proof.
  intros Hin. destruct s as [[es dt er mc] l hm].
  unfold Py.bind at 1. cbn [on_emotions Py.bind Py.get Py.ret agent
                            emotional_state decision_threshold
                            exploration_rate memory_calls set_agent].
  unfold on_emotions.
  cbn [agent emotional_state decision_threshold exploration_rate
       memory_calls set_agent].
  destruct (update_emotion_returns emotion
              (k (Emotion.get_float es emotion)) Emotion.default_decay es Hin)
    as [es' ->].
  eexists. reflexivity.
Qed.

Lemma run_strategy_returns (f : Strategy) (sev : Q) (s : SelfHealingSystem) :
  exists r s', run_strategy f sev s = (Py.Ok r, s').
Proof.
  destruct f; cbn [run_strategy].
  - unfold _heal_memory_corruption.
    destruct (Py.Qlt_bool 7 sev); eexists; eexists; reflexivity.
  - unfold _heal_emotional_instability. rewrite bind_get. cbv zeta.
    unfold Py.bind at 1.
    match goal with
    | |- context [Py.for_each ?l ?body s] =>
        destruct (for_each_returns l body) with (s := s) as [s1 ->]
    end.
    + eapply Forall_impl; [|apply extreme_emotions_named].
      intros [emotion dev] Hin s0. cbn [fst] in Hin.
      exact (rebalance_returns emotion dev _ s0 Hin).
    + eexists. eexists. reflexivity.
  - unfold _heal_resource_depletion.
    destruct (Py.Qlt_bool 5 sev); eexists; eexists; reflexivity.
  - unfold _heal_decision_paralysis.
    destruct (Py.Qlt_bool 6 sev); eexists; eexists; reflexivity.
  - eexists. eexists. reflexivity.
Qed.

Lemma run_strategy_same_log (f : Strategy) (sev : Q) :
  Py.keeps same_log (run_strategy f sev).
Proof.
  intros s. destruct f; cbn [run_strategy].
  - destruct s. unfold _heal_memory_corruption.
    destruct (Py.Qlt_bool 7 sev); reflexivity.
  - unfold _heal_emotional_instability. rewrite bind_get. cbv zeta.
    match goal with
    | |- context [Py.bind ?m (fun _ => Py.bind (modify_metrics ?g)
                                            (fun _ => Py.ret ?r))] =>
        assert (Hk : Py.keeps same_health m);
        [|destruct (prefix_then_gain m g r s Hk) as [Hl _]; exact Hl]
    end.
    apply keeps_for_each; [exact same_health_refl|exact same_health_trans|].
    intros [emotion dev].
    apply keeps_bind; [exact same_health_trans| |];
      intros; apply on_emotions_keeps.
  - destruct s. unfold _heal_resource_depletion.
    destruct (Py.Qlt_bool 5 sev); reflexivity.
  - destruct s. unfold _heal_decision_paralysis.
    destruct (Py.Qlt_bool 6 sev); reflexivity.
  - destruct s. reflexivity.
Qed.

Lemma on_emotions_kept {A} (m : Py.M Emotion.EmotionalState A) :
  (forall e, Emotion.in_range e -> Emotion.in_range (snd (m e))) ->
  Py.keeps emotions_kept (on_emotions m).
Proof.
  intros Hm s H. unfold on_emotions.
  specialize (Hm (emotional_state (agent s)) H).
  destruct (m (emotional_state (agent s))). exact Hm.
Qed.

Lemma modify_metrics_kept (g : HealthMetrics -> HealthMetrics) :
  Py.keeps emotions_kept (modify_metrics g).
Proof. intros s H. exact H. Qed.

Lemma run_strategy_emotions_kept (f : Strategy) (sev : Q) :
  Py.keeps emotions_kept (run_strategy f sev).
Proof.
  destruct f; cbn [run_strategy].
  - intros s H. destruct s as [[es dt er mc] l hm].
    unfold _heal_memory_corruption. destruct (Py.Qlt_bool 7 sev); exact H.
  - unfold _heal_emotional_instability.
    apply keeps_bind; [exact emotions_kept_trans| |].
    { apply keeps_get. exact emotions_kept_refl. }
    intros self. cbv zeta.
    apply keeps_bind; [exact emotions_kept_trans| |].
    + apply keeps_for_each;
        [exact emotions_kept_refl|exact emotions_kept_trans|].
      intros [emotion dev].
      apply keeps_bind; [exact emotions_kept_trans| |].
      * apply on_emotions_kept. intros e He. exact He.
      * intros current. apply on_emotions_kept. intros e He.
        apply update_emotion_range_any; [discriminate|discriminate|exact He].
    + intros _. apply keeps_bind; [exact emotions_kept_trans| |].
      * apply modify_metrics_kept.
      * intros _. apply keeps_ret. exact emotions_kept_refl.
  - intros s H. destruct s as [[es dt er mc] l hm].
    unfold _heal_resource_depletion. destruct (Py.Qlt_bool 5 sev); exact H.
  - intros s H. destruct s as [[es dt er mc] l hm].
    unfold _heal_decision_paralysis. destruct (Py.Qlt_bool 6 sev); exact H.
  - intros s H. destruct s as [[es dt er mc] l hm]. exact H.
Qed.

Lemma heal_issues_outcome
  (issues : list Issue) (acts : list Action) (s : SelfHealingSystem) :
  exists acts' s',
    heal_issues issues acts s = (Py.Ok acts', s')
    /\ same_log s s' /\ emotions_kept s s'
    /\ map taken acts' = (map taken acts ++ flat_map planned issues)%list.
Proof.
  revert acts s. induction issues as [|i issues IH]; intros acts s;
    cbn [heal_issues flat_map].
  - exists acts, s. rewrite app_nil_r.
    split; [reflexivity|]. split; [apply same_log_refl|].
    split; [apply emotions_kept_refl|reflexivity].
  - unfold planned at 1.
    destruct (select_strategy (base_error_type (i_type i))) as [[key f]|].
    + unfold Py.bind.
      pose proof (run_strategy_same_log f (i_severity i) s) as Hlog.
      pose proof (run_strategy_emotions_kept f (i_severity i) s) as Hem.
      destruct (run_strategy_returns f (i_severity i) s) as (r & s1 & Hrun).
      rewrite Hrun in *. cbn [snd] in Hlog, Hem.
      destruct (IH (acts ++ [mkAction (i_type i) key r])%list s1)
        as (acts' & s' & Hh & Hl & He & Hm).
      exists acts', s'. split; [exact Hh|].
      split; [exact (same_log_trans _ _ _ Hlog Hl)|].
      split; [exact (emotions_kept_trans _ _ _ Hem He)|].
      rewrite Hm, map_app, <- app_assoc. reflexivity.
    + apply IH.
Qed.

(** What [heal()] comes to: it returns a report; the log is the old one with
    the healed marks of the actions taken; the actions are those planned for
    the first three issues. *)
Lemma heal_outcome (self : SelfHealingSystem) :
  exists report self',
    heal self = (Py.Ok report, self')
    /\ error_log self' = mark_healed (actions_taken report) (error_log self)
    /\ emotions_kept self self'
    /\ map taken (actions_taken report)
       = flat_map planned (firstn 3 (diagnose self))
    /\ status report
       = match diagnose self, actions_taken report with
         | [], _ => "healthy"
         | _ :: _, [] => "no_suitable_healing_strategy"
         | _ :: _, _ :: _ => "healing_performed"
         end.
Proof.
  unfold heal. rewrite bind_get.
  destruct (diagnose self) as [|i rest].
  - exists (mkHealReport "healthy" []), self.
    cbn [actions_taken status firstn flat_map map].
    rewrite mark_healed_no_action.
    split; [reflexivity|]. split; [reflexivity|].
    split; [apply emotions_kept_refl|]. split; reflexivity.
  - unfold Py.bind at 1.
    destruct (heal_issues_outcome (firstn 3 (i :: rest)) [] self)
      as (acts & s1 & -> & Hl & He & Hm).
    eexists. eexists. split; [reflexivity|].
    cbn [actions_taken status error_log set_error_log].
    rewrite Hl. split; [reflexivity|]. split; [exact He|].
    split; [exact Hm|]. destruct acts; reflexivity.
Qed.


Lemma mark_healed_only_flags (acts : list Action) (log : list ErrorRecord) :
  Forall2 only_flagged log (mark_healed acts log).
Proof.
  unfold mark_healed. induction log as [|e log IH]; cbn [map]; constructor;
    [|exact IH].
  destruct (negb (e_healed e) && existsb _ acts) eqn:E;
    unfold only_flagged; cbn; auto 6.
Qed.

Lemma mark_healed_marks (acts : list Action) (log : list ErrorRecord)
      (a : Action) (e : ErrorRecord) :
  In a acts -> In e (mark_healed acts log) ->
  Py.contains (e_type e) (a_issue a) = true -> e_healed e = true.
Proof.
  intros Ha He Hc. unfold mark_healed in He. apply in_map_iff in He.
  destruct He as [e0 [He0 _]].
  assert (Hty : e_type e = e_type e0).
  { subst e. destruct (negb (e_healed e0) && existsb _ acts); reflexivity. }
  rewrite Hty in Hc.
  assert (Ht : existsb (fun action => Py.contains (e_type e0) (a_issue action))
                       acts = true).
  { apply existsb_exists. exists a. auto. }
  subst e. rewrite Ht.
  destruct (e_healed e0) eqn:Eh; cbn [negb andb]; [exact Eh|reflexivity].
Qed.

Lemma prefix_refl (s : string) : String.prefix s s = true.
Proof.
  induction s as [|c s IH]; cbn; [reflexivity|].
  destruct (ascii_dec c c); [exact IH|congruence].
Qed.

(** A string occurs at the end of any string it is appended to. *)
Lemma contains_suffix (p n : string) : Py.contains n (p ++ n) = true.
Proof.
  induction p as [|c p IH]; cbn [String.append].
  - destruct n; cbn [Py.contains]; rewrite prefix_refl; reflexivity.
  - cbn [Py.contains]. rewrite IH. apply orb_true_r.
Qed.

Lemma log_error_log
  (ty : string) (sev : Q) (d : Details) (now : Q) (s : SelfHealingSystem) :
  error_log (log_error ty sev d now s)
  = deque_append (error_log s) (mkErrorRecord ty sev now d false).
Proof.
  unfold log_error. cbv zeta.
  repeat match goal with
         | |- context [if one_of ?x ?l then _ else _] =>
             destruct (one_of x l)
         end; reflexivity.
Qed.

Lemma deque_append_bounded {A} (l : list A) (x : A) :
  (List.length l <= maxlen)%nat ->
  (List.length (deque_append l x) <= maxlen)%nat.
Proof.
  intros H. unfold deque_append.
  destruct (maxlen <? List.length (l ++ [x]))%nat eqn:E.
  - destruct (l ++ [x])%list eqn:El; cbn [tl List.length]; [lia|].
    assert (Hlen : List.length (l ++ [x]) = S (List.length l))
      by (rewrite length_app; cbn; lia).
    rewrite El in Hlen. cbn [List.length] in Hlen. lia.
  - apply Nat.ltb_ge in E. exact E.
Qed.

Lemma length_mark_healed (acts : list Action) (log : list ErrorRecord) :
  List.length (mark_healed acts log) = List.length log.
Proof. unfold mark_healed. apply length_map. Qed.

Lemma in_critical_issues_item (hm : HealthMetrics) (i : Issue) :
  In i (critical_issues hm)
  -> exists m v, In (m, v) (items hm) /\ v < 50 /\ i = critical_issue m v.
Proof.
  unfold critical_issues. rewrite in_flat_map.
  intros [[m v] [Hin Hi]]. exists m, v.
  destruct (Py.Qlt_bool v 50) eqn:E; [|destruct Hi].
  apply Qlt_bool_true in E. destruct Hi as [<-|[]]. auto.
Qed.

End HealOutcome.

(** ** What each operation makes of the gauges *)

Section ChangeFacts.

Import Healing HealthSpec.

Lemma log_error_change
  (ty : string) (sev : Q) (d : Details) (now : Q) (s : SelfHealingSystem) :
  change (OpLogError ty sev d now) (health_metrics s)
         (health_metrics (log_error ty sev d now s)).
Proof.
  destruct s as [a l [m1 m2 m3 m4 m5]].
  unfold change, addressed, log_error. cbv zeta.
  repeat match goal with
         | |- context [if one_of ?x ?l then _ else _] =>
             destruct (one_of x l)
         end; reflexivity.
Qed.

(** A strategy made of steps that return and leave the health state alone,
    then one update of the gauges: the gauges end updated once. *)
Lemma then_gain {A}
  (m : Py.M SelfHealingSystem A) (g : HealthMetrics -> HealthMetrics)
  (r : string) (s : SelfHealingSystem) :
  Py.keeps same_health m ->
  (exists a s1, m s = (Py.Ok a, s1)) ->
  health_metrics (snd ((m ;;; modify_metrics g ;;; Py.ret r) s))
  = g (health_metrics s).
Proof.
  intros Hm (a & s1 & E). unfold Py.bind at 1. specialize (Hm s).
  rewrite E in *. cbn [snd] in Hm. destruct Hm as [Hh Hl].
  cbn. rewrite Hh. reflexivity.
Qed.

Lemma strategy_change (f : Strategy) (sev : Q) (s : SelfHealingSystem) :
  change (OpStrategy f sev) (health_metrics s)
         (health_metrics (snd (run_strategy f sev s))).
Proof.
  unfold change. destruct f; cbn [run_strategy restored gain gauge set_gauge].
  - destruct s as [a l [m1 m2 m3 m4 m5]].
    unfold _heal_memory_corruption.
    destruct (Py.Qlt_bool 7 sev); reflexivity.
  - unfold _heal_emotional_instability. rewrite bind_get. cbv zeta.
    match goal with
    | |- context [Py.bind ?m (fun _ => Py.bind (modify_metrics ?g)
                                            (fun _ => Py.ret ?r))] =>
        rewrite (then_gain m g r s)
    end.
    + reflexivity.
    + apply keeps_for_each;
        [exact same_health_refl|exact same_health_trans|].
      intros [emotion dev].
      apply keeps_bind; [exact same_health_trans| |];
        intros; apply on_emotions_keeps.
    + match goal with
      | |- context [Py.for_each ?l ?body s] =>
          destruct (for_each_returns l body) with (s := s) as [s1 E]
      end.
      * eapply Forall_impl; [|apply extreme_emotions_named].
        intros [emotion dev] Hin s0. cbn [fst] in Hin.
        exact (rebalance_returns emotion dev _ s0 Hin).
      * exists tt, s1. exact E.
  - destruct s as [a l [m1 m2 m3 m4 m5]].
    unfold _heal_resource_depletion.
    destruct (Py.Qlt_bool 5 sev); reflexivity.
  - destruct s as [a l [m1 m2 m3 m4 m5]].
    unfold _heal_decision_paralysis.
    destruct (Py.Qlt_bool 6 sev); reflexivity.
  - destruct s as [a l [m1 m2 m3 m4 m5]]. reflexivity.
Qed.

Lemma step_change (op : Op) (s : SelfHealingSystem) :
  valid_op op -> log_nonneg (error_log s) ->
  change op (health_metrics s) (health_metrics (step op s)).
Proof.
  intros Hop Hlog. destruct op as [ty sev d now|f sev|]; cbn [step].
  - apply log_error_change.
  - apply strategy_change.
  - cbn [change]. destruct (heal_grows s Hlog) as [Hle _]. exact Hle.
Qed.

End ChangeFacts.

(** C1, as the code has it. Along every sequence of [log_error], strategy
    and [heal()] operations whose severities are not negative, started where
    the five health metrics and the logged severities are not negative, each
    metric stays at least 0, and each operation does this to the metrics.
    [log_error] sets the metric its error type answers to (memory_corruption
    and memory_leak: memory_integrity; emotional_instability and
    emotional_deadlock: emotional_balance; resource_depletion and
    resource_contention: resource_efficiency; decision_paralysis and
    decision_oscillation: decision_quality; communication_failure and
    protocol_violation: communication_reliability) to
    [max(0, metric - severity)] and leaves the four others as they are; for
    any other error type it leaves all five as they are.  A recovery
    strategy adds its gain to the metric it restores and leaves the four
    others as they are; the gain is [min(cap, k * severity)], not negative
    and at most 30: memory [min(30, 3 s)] above severity 7 and
    [min(15, 2 s)] otherwise, emotional [min(25, 2.5 s)], resource
    [min(20, 2 s)] above 5 and [min(10, s)] otherwise, decision
    [min(30, 3 s)] above 6 and [min(15, 1.5 s)] otherwise, communication
    [min(25, 2.5 s)].  [heal()] lowers none.  Nothing clamps a metric at
    100. *)
Theorem health_metrics_floor
  (ops : list Healing.Op) (op : Healing.Op)
  (self : Healing.SelfHealingSystem) :
  Forall HealthSpec.valid_op ops -> HealthSpec.valid_op op ->
  HealthSpec.floored (Healing.health_metrics self) ->
  HealthSpec.log_nonneg (Healing.error_log self) ->
  let s := Healing.run ops self in
  let s' := Healing.step op s in
  HealthSpec.floored (Healing.health_metrics s)
  /\ HealthSpec.floored (Healing.health_metrics s')
  /\ HealthSpec.effect op (Healing.health_metrics s)
                          (Healing.health_metrics s')
  /\ HealthSpec.change op (Healing.health_metrics s)
                          (Healing.health_metrics s').
Proof.
  intros Hops Hop Hfl Hlog s s'.
  destruct (run_invariant ops self Hops Hfl Hlog) as [Hs Hl].
  destruct (step_effect op s Hop Hs Hl) as (H1 & _ & H3).
  split; [exact Hs|]. split; [exact H1|]. split; [exact H3|].
  exact (step_change op s Hop Hl).
Qed.

Lemma health_metrics_floor_witness :
  let ops := Scenario.corruptions_then_heal in
  let op := Healing.OpLogError "memory_leak" 30 [] 5 in
  let self := Healing.init Healing.fresh_agent in
  Forall HealthSpec.valid_op ops
  /\ HealthSpec.valid_op op
  /\ HealthSpec.floored (Healing.health_metrics self)
  /\ HealthSpec.log_nonneg (Healing.error_log self)
  /\ HealthSpec.floored (Healing.health_metrics (Healing.run ops self))
  /\ HealthSpec.floored
       (Healing.health_metrics (Healing.step op (Healing.run ops self)))
  /\ HealthSpec.effect op
       (Healing.health_metrics (Healing.run ops self))
       (Healing.health_metrics (Healing.step op (Healing.run ops self)))
  /\ HealthSpec.change op
       (Healing.health_metrics (Healing.run ops self))
       (Healing.health_metrics (Healing.step op (Healing.run ops self))).
Proof.
  intros ops op self.
  assert (H1 : Forall HealthSpec.valid_op ops)
    by (repeat constructor; discriminate).
  assert (H2 : HealthSpec.valid_op op) by discriminate.
  assert (H3 : HealthSpec.floored (Healing.health_metrics self))
    by (repeat constructor; discriminate).
  assert (H4 : HealthSpec.log_nonneg (Healing.error_log self))
    by constructor.
  split; [exact H1|]. split; [exact H2|].
  split; [exact H3|]. split; [exact H4|].
  exact (health_metrics_floor ops op self H1 H2 H3 H4).
Defined.

(** C1, as stated, fails: three errors of a type that lowers no metric but
    that the memory strategy matches, then [heal()], take memory_integrity
    from 100 to 110. *)
Lemma health_metric_exceeds_100 :
  Forall HealthSpec.valid_op Scenario.unlisted_then_heal
  /\ HealthSpec.in_range
       (Healing.health_metrics (Healing.init Healing.fresh_agent))
  /\ Healing.memory_integrity
       (Healing.health_metrics
          (Healing.run Scenario.unlisted_then_heal
             (Healing.init Healing.fresh_agent))) == 110
  /\ ~ HealthSpec.in_range
         (Healing.health_metrics
            (Healing.run Scenario.unlisted_then_heal
               (Healing.init Healing.fresh_agent))).
Proof.
  split; [repeat constructor; discriminate|].
  split; [repeat constructor; discriminate|].
  split; [reflexivity|].
  intros H. vm_compute in H. apply Forall_inv in H.
  destruct H as [_ H]. apply H. reflexivity.
Qed.

Lemma filter_none {A} (f : A -> bool) (l : list A) :
  (forall x, In x l -> f x = false) -> filter f l = [].
Proof.
  induction l as [|x l IH]; intros H; cbn [filter]; [reflexivity|].
  rewrite (H x (or_introl eq_refl)). apply IH. intros y Hy. apply H.
  right. exact Hy.
Qed.


(** X9. [heal()] keeps every entry of the error log, in order, changing at
    most healed flags from unset to set; afterwards every entry whose type
    occurs in the label of an issue acted on is marked healed. *)
Theorem heal_only_marks_log (self : Healing.SelfHealingSystem) :
  match Healing.heal self with
  | (Py.Ok report, self') =>
      Forall2 HealthSpec.only_flagged
        (Healing.error_log self) (Healing.error_log self')
      /\ forall a e,
           In a (Healing.actions_taken report) ->
           In e (Healing.error_log self') ->
           Py.contains (Healing.e_type e) (Healing.a_issue a) = true ->
           Healing.e_healed e = true
  | (Py.Raise _, _) => False
  end.
Proof.
  destruct (heal_outcome self) as (report & self' & -> & Hl & _).
  rewrite Hl. split.
  - apply mark_healed_only_flags.
  - intros a e Ha He. exact (mark_healed_marks _ _ a e Ha He).
Qed.

(** X10. When [heal()] acts on the recurring issue of an error type, no
    unhealed entry of that type is left in the log: the type is not reported
    as recurring again until it is logged three more times. *)
Theorem heal_clears_recurring (self : Healing.SelfHealingSystem) :
  match Healing.heal self with
  | (Py.Ok report, self') =>
      forall ty,
        In ("recurring_" ++ ty)
           (map Healing.a_issue (Healing.actions_taken report)) ->
        HealthSpec.unhealed_of ty (Healing.error_log self') = []
  | (Py.Raise _, _) => False
  end.
Proof.
  destruct (heal_outcome self) as (report & self' & -> & Hl & _).
  intros ty Hin. apply in_map_iff in Hin. destruct Hin as [a [Ha Hin]].
  unfold HealthSpec.unhealed_of. apply filter_none. intros e He.
  destruct (Healing.e_type e =? ty) eqn:Et; [|apply andb_false_r].
  apply String.eqb_eq in Et. rewrite andb_true_r. apply negb_false_iff.
  rewrite Hl in He. apply (mark_healed_marks _ _ a e Hin He).
  rewrite Ha, Et. apply contains_suffix.
Qed.

(** X11. The error log never holds more than 100 entries: along any
    sequence of [log_error], strategy and [heal()] operations, a log of at
    most 100 entries stays one. *)
Theorem error_log_bounded
  (ops : list Healing.Op) (self : Healing.SelfHealingSystem) :
  (List.length (Healing.error_log self) <= Healing.maxlen)%nat ->
  (List.length (Healing.error_log (Healing.run ops self))
   <= Healing.maxlen)%nat.
Proof.
  revert self. unfold Healing.run.
  induction ops as [|op ops IH]; intros self H; cbn [fold_left]; [exact H|].
  apply IH. destruct op as [ty sev d now|f sev|]; cbn [Healing.step].
  - rewrite log_error_log. apply deque_append_bounded. exact H.
  - rewrite (run_strategy_same_log f sev self). exact H.
  - destruct (heal_outcome self) as (report & self' & -> & Hl & _).
    cbn [snd]. rewrite Hl, length_mark_healed. exact H.
Qed.

Lemma error_log_bounded_witness :
  (List.length (Healing.error_log (Healing.init Healing.fresh_agent))
   <= Healing.maxlen)%nat
  /\ (List.length
        (Healing.error_log
           (Healing.run Scenario.unlisted_then_heal
              (Healing.init Healing.fresh_agent)))
      <= Healing.maxlen)%nat.
Proof.
  assert (H : (List.length
                 (Healing.error_log (Healing.init Healing.fresh_agent))
               <= Healing.maxlen)%nat) by (cbn; lia).
  split; [exact H|].
  exact (error_log_bounded Scenario.unlisted_then_heal
           (Healing.init Healing.fresh_agent) H).
Defined.

(** X12. When every health metric is at least 50 and no error type has
    three unhealed entries, [heal()] returns status "healthy" with no
    action and changes nothing. *)
Theorem heal_when_healthy (self : Healing.SelfHealingSystem) :
  Forall (fun '(_, v) => 50 <= v)
         (Healing.items (Healing.health_metrics self)) ->
  (forall ty,
     (List.length (HealthSpec.unhealed_of ty (Healing.error_log self)) < 3)%nat) ->
  Healing.heal self = (Py.Ok (Healing.mkHealReport "healthy" []), self).
Proof.
  intros Hm Hr.
  assert (Hd : Healing.diagnose self = []).
  { apply sorted_desc_nil. unfold Healing.discovered.
    apply critical_issues_nil in Hm. apply recurring_issues_nil in Hr.
    rewrite Hm, Hr. reflexivity. }
  unfold Healing.heal. rewrite bind_get, Hd. reflexivity.
Qed.

Lemma heal_when_healthy_witness :
  Forall (fun '(_, v) => 50 <= v)
         (Healing.items
            (Healing.health_metrics (Healing.init Healing.fresh_agent)))
  /\ (forall ty,
        (List.length
           (HealthSpec.unhealed_of ty
              (Healing.error_log (Healing.init Healing.fresh_agent))) < 3)%nat)
  /\ Healing.heal (Healing.init Healing.fresh_agent)
     = (Py.Ok (Healing.mkHealReport "healthy" []),
        Healing.init Healing.fresh_agent).
Proof.
  assert (H1 : Forall (fun '(_, v) => 50 <= v)
                 (Healing.items
                    (Healing.health_metrics
                       (Healing.init Healing.fresh_agent))))
    by (repeat constructor; discriminate).
  assert (H2 : forall ty,
             (List.length
                (HealthSpec.unhealed_of ty
                   (Healing.error_log (Healing.init Healing.fresh_agent)))
              < 3)%nat) by (intros ty; cbn; lia).
  split; [exact H1|]. split; [exact H2|].
  exact (heal_when_healthy (Healing.init Healing.fresh_agent) H1 H2).
Defined.

(** X13. While the health metrics are not negative, every critical issue
    [diagnose()] returns has a severity above 0 and at most 10. *)
Theorem critical_severity_scale
  (self : Healing.SelfHealingSystem) (i : Healing.Issue) :
  HealthSpec.floored (Healing.health_metrics self) ->
  In i (Healing.diagnose self) -> HealthSpec.is_critical i = true ->
  0 < Healing.i_severity i /\ Healing.i_severity i <= 10.
Proof.
  intros Hfl Hin Hc. apply in_diagnose in Hin. destruct Hin as [Hin|Hin].
  - apply in_critical_issues_item in Hin.
    destruct Hin as (m & v & Hmv & Hv & ->).
    unfold HealthSpec.floored in Hfl. rewrite Forall_forall in Hfl.
    specialize (Hfl _ Hmv). cbv beta iota in Hfl.
    cbn [Healing.critical_issue Healing.i_severity].
    setoid_replace ((50 - v) / 50 * 10) with ((50 - v) * (1 # 5)) by field.
    split; lra.
  - apply in_recurring_issues in Hin. destruct Hin as (k & c & t & _ & _ & ->).
    rewrite recurring_issue_not_critical in Hc. discriminate.
Qed.

Lemma critical_severity_scale_witness :
  HealthSpec.floored (Healing.health_metrics Scenario.one_leak)
  /\ In (Healing.critical_issue "memory_integrity" 40)
        (Healing.diagnose Scenario.one_leak)
  /\ HealthSpec.is_critical (Healing.critical_issue "memory_integrity" 40)
     = true
  /\ 0 < Healing.i_severity (Healing.critical_issue "memory_integrity" 40)
  /\ Healing.i_severity (Healing.critical_issue "memory_integrity" 40) <= 10.
Proof.
  assert (H1 : HealthSpec.floored (Healing.health_metrics Scenario.one_leak))
    by (repeat constructor; discriminate).
  assert (H2 : In (Healing.critical_issue "memory_integrity" 40)
                  (Healing.diagnose Scenario.one_leak))
    by (left; reflexivity).
  assert (H3 : HealthSpec.is_critical
                 (Healing.critical_issue "memory_integrity" 40) = true)
    by reflexivity.
  split; [exact H1|]. split; [exact H2|]. split; [exact H3|].
  exact (critical_severity_scale Scenario.one_leak _ H1 H2 H3).
Defined.

(** X14. A recovery strategy, and [heal()] as a whole, keep the agent's
    eight emotion intensities within [0, 100], whatever the severities. *)
Theorem healing_keeps_emotions_on_scale
  (self : Healing.SelfHealingSystem) (f : Healing.Strategy) (sev : Q) :
  Emotion.in_range (Healing.emotional_state (Healing.agent self)) ->
  Emotion.in_range
    (Healing.emotional_state
       (Healing.agent (snd (Healing.run_strategy f sev self))))
  /\ Emotion.in_range
       (Healing.emotional_state (Healing.agent (snd (Healing.heal self)))).
Proof.
  intros H. split.
  - exact (run_strategy_emotions_kept f sev self H).
  - destruct (heal_outcome self) as (report & self' & -> & _ & He & _).
    exact (He H).
Qed.

Lemma healing_keeps_emotions_on_scale_witness :
  let self := Healing.init Healing.fresh_agent in
  Emotion.in_range (Healing.emotional_state (Healing.agent self))
  /\ Emotion.in_range
       (Healing.emotional_state
          (Healing.agent
             (snd (Healing.run_strategy Healing.HealEmotionalInstability
                     1000 self))))
  /\ Emotion.in_range
       (Healing.emotional_state (Healing.agent (snd (Healing.heal self)))).
Proof.
  intros self.
  assert (H : Emotion.in_range
                (Healing.emotional_state (Healing.agent self)))
    by (repeat constructor; discriminate).
  split; [exact H|].
  exact (healing_keeps_emotions_on_scale self
           Healing.HealEmotionalInstability 1000 H).
Defined.

(** ** process_with_warp *)

Section FanOutFacts.

Import Np Warp WarpSpec.

Lemma bind_lift_res {A B} (r : Py.res A) (k : A -> Py.M WarpSystem B)
      (s : WarpSystem) :
  Py.bind (lift_res r) k s
  = match r with
    | Py.Ok a => k a s
    | Py.Raise e => (Py.Raise e, s)
    end.
Proof. reflexivity. Qed.

Lemma bind_modify {B} (f : WarpSystem -> WarpSystem)
      (k : unit -> Py.M WarpSystem B) (s : WarpSystem) :
  Py.bind (Py.modify f) k s = k tt (f s).
Proof. reflexivity. Qed.

Lemma if_lift_res {A} (b : bool) (x y : Py.res A) :
  (if b then lift_res x else lift_res y) = lift_res (if b then x else y).
Proof. destruct b; reflexivity. Qed.

Lemma diversity_is_low_state (w : WarpSystem) :
  snd (diversity_is_low w) = w.
Proof.
  unfold diversity_is_low. rewrite bind_get.
  destruct (List.length (task_history w) <? window_size w)%nat;
    [reflexivity|].
  destruct (negb (forallb hashable (task_history w))); reflexivity.
Qed.

Lemma process_with_warp_state (input : Data) (w : WarpSystem) :
  snd (process_with_warp input w) = diversity_update input w.
Proof.
  unfold process_with_warp.
  rewrite bind_get, bind_modify, if_lift_res, bind_lift_res.
  destruct (if is_light_speed w then _ else _) as [r|e]; [|reflexivity].
  unfold Py.bind.
  pose proof (diversity_is_low_state (diversity_update input w)) as Hs.
  destruct (diversity_is_low (diversity_update input w)) as [[b|e] s1];
    cbn [snd] in *; subst s1; reflexivity.
Qed.

Lemma diversity_update_bounded (input : Data) (w : WarpSystem) :
  (List.length (task_history w) <= window_size w)%nat ->
  (List.length (task_history (diversity_update input w)) <= window_size w)%nat.
Proof.
  intros H. destruct w. unfold diversity_update.
  cbn [task_history window_size set_task_history] in *.
  destruct (window_size0 <? List.length (task_history0 ++ [input]))%nat eqn:E.
  - assert (Hlen : List.length (task_history0 ++ [input])
                   = S (List.length task_history0))
      by (rewrite length_app; cbn; lia).
    destruct (task_history0 ++ [input])%list; cbn [tl List.length] in *; lia.
  - apply Nat.ltb_ge in E. exact E.
Qed.

Lemma diversity_update_frame (input : Data) (w : WarpSystem) :
  phase (diversity_update input w) = phase w
  /\ all_teams (diversity_update input w) = all_teams w
  /\ is_light_speed (diversity_update input w) = is_light_speed w
  /\ window_size (diversity_update input w) = window_size w.
Proof. destruct w. repeat split. Qed.






Lemma outputs_are_copies (ts : list Team) (input : Data) :
  map (fun team => process team input) ts = repeat input (List.length ts).
Proof.
  induction ts as [|t ts IH]; cbn [map List.length repeat]; [reflexivity|].
  rewrite IH. reflexivity.
Qed.


End FanOutFacts.

(** X15. [process_with_warp] changes nothing in the warp system but the
    diversity tracker's history, also when it raises: after one call the
    system is the one [TaskDiversityTracker.update] leaves, and after any
    sequence of calls it is the system it was with another history, every
    other field as it was (phase, teams, phase start time, light-speed
    flag, thresholds, complexity score, window size, error rate and the
    rest); the history never outgrows the window. *)
Theorem fan_out_only_records_inputs
  (inputs : list Np.Data) (w : Warp.WarpSystem) :
  (List.length (Warp.task_history w) <= Warp.window_size w)%nat ->
  let w' := WarpSpec.feed inputs w in
  (forall input,
      snd (Warp.process_with_warp input w) = Warp.diversity_update input w)
  /\ w' = Warp.set_task_history (Warp.task_history w') w
  /\ (List.length (Warp.task_history w') <= Warp.window_size w)%nat.
Proof.
  intros H. cbv zeta. split; [intros input; apply process_with_warp_state|].
  unfold WarpSpec.feed. revert w H.
  induction inputs as [|x inputs IH]; intros w H; cbn [fold_left].
  - split; [destruct w; reflexivity|exact H].
  - rewrite process_with_warp_state.
    destruct (diversity_update_frame x w) as (_ & _ & _ & Hw).
    pose proof (diversity_update_bounded x w H) as Hb.
    rewrite <- Hw in Hb. destruct (IH _ Hb) as [IH1 IH2].
    split; [|rewrite <- Hw; exact IH2].
    rewrite IH1 at 1. destruct w; reflexivity.
Qed.

Lemma fan_out_only_records_inputs_witness :
  let inputs := [Np.Scalar 1; Np.Array [1; 2]; Np.Scalar 3] in
  (List.length (Warp.task_history Warp.init) <= Warp.window_size Warp.init)%nat
  /\ (forall input,
        snd (Warp.process_with_warp input Warp.init)
        = Warp.diversity_update input Warp.init)
  /\ WarpSpec.feed inputs Warp.init
     = Warp.set_task_history
         (Warp.task_history (WarpSpec.feed inputs Warp.init)) Warp.init
  /\ (List.length (Warp.task_history (WarpSpec.feed inputs Warp.init))
      <= Warp.window_size Warp.init)%nat.
Proof.
  intros inputs.
  assert (H : (List.length (Warp.task_history Warp.init)
               <= Warp.window_size Warp.init)%nat) by (cbn; lia).
  split; [exact H|].
  exact (fan_out_only_records_inputs inputs Warp.init H).
Defined.



(** X17. With light-speed inactive, [process_with_warp] raises
    ZeroDivisionError when no team is active (as in a system that was never
    started) and ValueError when more than four are: the weight table has
    four slots. *)
Theorem fan_out_team_count_errors (w : Warp.WarpSystem) (input : Np.Data) :
  Warp.is_light_speed w = false ->
  (Warp.get_active_teams w = [] ->
   fst (Warp.process_with_warp input w) = Py.Raise Py.ZeroDivisionError)
  /\ ((4 < List.length (Warp.get_active_teams w))%nat ->
      fst (Warp.process_with_warp input w)
      = Py.Raise (Py.ValueError
                    "Length of weights not compatible with specified axis.")).
Proof.
  intros Hls. unfold Warp.process_with_warp.
  rewrite bind_get, outputs_are_copies, bind_modify, if_lift_res,
    bind_lift_res, Hls.
  split.
  - intros ->. reflexivity.
  - intros Hn. unfold Warp._combine_phase_results, Np.average.
    rewrite repeat_length, length_firstn.
    cbn [Warp.phase_weights List.length].
    destruct (Nat.min (List.length (Warp.get_active_teams w)) 4
              =? List.length (Warp.get_active_teams w))%nat eqn:E;
      [apply Nat.eqb_eq in E; lia|reflexivity].
Qed.

Lemma fan_out_team_count_errors_witness :
  Warp.is_light_speed Warp.init = false
  /\ Warp.get_active_teams Warp.init = []
  /\ fst (Warp.process_with_warp (Np.Scalar 1) Warp.init)
     = Py.Raise Py.ZeroDivisionError.
Proof.
  assert (H : Warp.is_light_speed Warp.init = false) by reflexivity.
  split; [exact H|]. split; [reflexivity|].
  exact (proj1 (fan_out_team_count_errors Warp.init (Np.Scalar 1) H)
               eq_refl).
Defined.

(** ** Phases held as instances *)

Section InstanceFacts.

Import Warp WarpSpec.

Lemma five_teams (teams : list (string * Team)) :
  map fst teams = team_keys ->
  exists t1 t2 t3 t4 t5,
    teams = [("team1", t1); ("team2", t2); ("team3", t3); ("team4", t4);
             ("team5", t5)].
Proof.
  intros Hk.
  destruct teams as [|[k1 t1] [|[k2 t2] [|[k3 t3] [|[k4 t4]
                     [|[k5 t5] [|]]]]]]; try discriminate Hk.
  cbn in Hk. injection Hk as E1 E2 E3 E4 E5. subst.
  exists t1, t2, t3, t4, t5. reflexivity.
Qed.

Lemma advance_on_instance (env : Tick) (w : WarpSystem) (v : Z) :
  phase w = PInstance v -> (1 <= v < 5)%Z ->
  map fst (all_teams w) = team_keys ->
  _advance_phase env w = (Py.Ok tt, advanced env v w).
Proof.
  intros Hp Hv Hk.
  destruct w as [ph teams st ls ct mt cs mc th ws dth er mer sci].
  cbn [phase all_teams] in Hp, Hk. subst ph.
  destruct (five_teams teams Hk) as (t1 & t2 & t3 & t4 & t5 & ->).
  assert (Hc : v = 1%Z \/ v = 2%Z \/ v = 3%Z \/ v = 4%Z) by lia.
  destruct Hc as [-> | [-> | [-> | ->]]]; vm_compute; reflexivity.
Qed.

Lemma advance_at_five (env : Tick) (w : WarpSystem) :
  phase w = PInstance 5 -> _advance_phase env w = (Py.Raise Py.KeyError, w).
Proof.
  intros Hp. unfold _advance_phase. rewrite bind_get, Hp. reflexivity.
Qed.

Lemma revert_on_instance (env : Tick) (w : WarpSystem) (v : Z) :
  phase w = PInstance v -> (1 < v <= 5)%Z ->
  map fst (all_teams w) = team_keys ->
  _revert_phase env w = (Py.Ok tt, reverted env v w).
Proof.
  intros Hp Hv Hk.
  destruct w as [ph teams st ls ct mt cs mc th ws dth er mer sci].
  cbn [phase all_teams] in Hp, Hk. subst ph.
  destruct (five_teams teams Hk) as (t1 & t2 & t3 & t4 & t5 & ->).
  assert (Hc : v = 2%Z \/ v = 3%Z \/ v = 4%Z \/ v = 5%Z) by lia.
  destruct Hc as [-> | [-> | [-> | ->]]]; vm_compute; reflexivity.
Qed.

Lemma revert_at_one (env : Tick) (w : WarpSystem) :
  phase w = PInstance 1 -> _revert_phase env w = (Py.Ok tt, w).
Proof.
  intros Hp. unfold _revert_phase. rewrite bind_get, Hp. reflexivity.
Qed.

Lemma advanced_team (env : Tick) (w : WarpSystem) (v : Z) :
  (1 <= v < 5)%Z -> map fst (all_teams w) = team_keys ->
  map fst (all_teams (advanced env v w)) = team_keys
  /\ active (team_key (v + 1)) (advanced env v w)
  /\ ~ active (team_key (v + 1))
        (reverted env (v + 1) (advanced env v w)).
Proof.
  intros Hv Hk.
  destruct w as [ph teams st ls ct mt cs mc th ws dth er mer sci].
  cbn [all_teams] in Hk.
  destruct (five_teams teams Hk) as (t1 & t2 & t3 & t4 & t5 & ->).
  assert (Hc : v = 1%Z \/ v = 2%Z \/ v = 3%Z \/ v = 4%Z) by lia.
  unfold active.
  destruct Hc as [-> | [-> | [-> | ->]]];
    (split; [reflexivity|split; [reflexivity|vm_compute; discriminate]]).
Qed.

End InstanceFacts.

(** X18. Were [self.phase] a [WarpPhase] instance of value 1 to 5, with the
    five teams in place: [_advance_phase] at value 5 raises KeyError and
    changes nothing; below 5 it moves to the next value, activates that
    phase's team and adds 10 to the complexity score, and a
    [_revert_phase] right after it restores the value and the score and
    deactivates that team; [_revert_phase] at value 1 changes nothing. *)
Theorem advance_and_revert_on_instances
  (env1 env2 : Warp.Tick) (w : Warp.WarpSystem) (v : Z) :
  Warp.phase w = Warp.PInstance v -> (1 <= v <= 5)%Z ->
  map fst (Warp.all_teams w) = WarpSpec.team_keys ->
  (v = 5%Z -> Warp._advance_phase env1 w = (Py.Raise Py.KeyError, w))
  /\ ((v < 5)%Z ->
      exists w1 w2,
        Warp._advance_phase env1 w = (Py.Ok tt, w1)
        /\ Warp.phase w1 = Warp.PInstance (v + 1)
        /\ WarpSpec.active (Warp.team_key (v + 1)) w1
        /\ Warp.complexity_score w1 = (Warp.complexity_score w + 10)%Z
        /\ Warp._revert_phase env2 w1 = (Py.Ok tt, w2)
        /\ Warp.phase w2 = Warp.PInstance v
        /\ ~ WarpSpec.active (Warp.team_key (v + 1)) w2
        /\ Warp.complexity_score w2 = Warp.complexity_score w)
  /\ (v = 1%Z -> Warp._revert_phase env2 w = (Py.Ok tt, w)).
Proof.
  intros Hp Hv Hk. split; [|split].
  - intros ->. apply advance_at_five. exact Hp.
  - intros Hlt.
    assert (Hv' : (1 <= v < 5)%Z) by lia.
    destruct (advanced_team env1 w v Hv' Hk) as (Hk1 & Hact & Hinact).
    exists (WarpSpec.advanced env1 v w),
           (WarpSpec.reverted env2 (v + 1) (WarpSpec.advanced env1 v w)).
    split; [apply advance_on_instance; assumption|].
    split; [destruct w; reflexivity|].
    split; [exact Hact|].
    split; [destruct w; reflexivity|].
    split; [apply revert_on_instance;
            [destruct w; reflexivity|lia|exact Hk1]|].
    split; [destruct w; cbn; f_equal; lia|].
    split; [exact Hinact|].
    destruct w; cbn; lia.
  - intros ->. apply revert_at_one. exact Hp.
Qed.

Lemma advance_and_revert_on_instances_witness :
  Warp.phase Scenario.instance_phase2 = Warp.PInstance 2
  /\ (1 <= 2 <= 5)%Z
  /\ map fst (Warp.all_teams Scenario.instance_phase2) = WarpSpec.team_keys
  /\ exists w1 w2,
       Warp._advance_phase Scenario.calm_tick Scenario.instance_phase2
       = (Py.Ok tt, w1)
       /\ Warp.phase w1 = Warp.PInstance (2 + 1)
       /\ WarpSpec.active (Warp.team_key (2 + 1)) w1
       /\ Warp.complexity_score w1
          = (Warp.complexity_score Scenario.instance_phase2 + 10)%Z
       /\ Warp._revert_phase Scenario.calm_tick w1 = (Py.Ok tt, w2)
       /\ Warp.phase w2 = Warp.PInstance 2
       /\ ~ WarpSpec.active (Warp.team_key (2 + 1)) w2
       /\ Warp.complexity_score w2
          = Warp.complexity_score Scenario.instance_phase2.
Proof.
  assert (H1 : Warp.phase Scenario.instance_phase2 = Warp.PInstance 2)
    by reflexivity.
  assert (H2 : (1 <= 2 <= 5)%Z) by lia.
  assert (H3 : map fst (Warp.all_teams Scenario.instance_phase2)
               = WarpSpec.team_keys) by reflexivity.
  assert (H4 : (2 < 5)%Z) by lia.
  split; [exact H1|]. split; [exact H2|]. split; [exact H3|].
  exact (proj1 (proj2 (advance_and_revert_on_instances
                         Scenario.calm_tick Scenario.calm_tick
                         Scenario.instance_phase2 2 H1 H2 H3)) H4).
Defined.

(** ** QuantumMemoryBank *)

Section MemoryFacts.

Import Memory.

Lemma length_set_at {A} (n : nat) (v : A) (l : list A) :
  List.length (set_at n v l) = List.length l.
Proof.
  revert n. induction l as [|x l IH]; intros [|n]; cbn; try reflexivity.
  rewrite IH. reflexivity.
Qed.

Lemma nth_set_at_same {A} (n : nat) (v d : A) (l : list A) :
  (n < List.length l)%nat -> nth n (set_at n v l) d = v.
Proof.
  revert n. induction l as [|x l IH]; intros [|n] H; cbn in *;
    try lia; try reflexivity.
  apply IH. lia.
Qed.

Lemma nth_set_at_other {A} (n m : nat) (v d : A) (l : list A) :
  n <> m -> nth m (set_at n v l) d = nth m l d.
Proof.
  revert n m. induction l as [|x l IH]; intros [|n] [|m] H; cbn;
    try reflexivity; try congruence.
  apply IH. congruence.
Qed.

Lemma in_bounds_true (index : Z) (b : QuantumMemoryBank) :
  in_bounds index b = true <-> (0 <= index < Z.of_nat (size b))%Z.
Proof.
  unfold in_bounds. rewrite andb_true_iff, Z.leb_le, Z.ltb_lt. tauto.
Qed.

Lemma in_bounds_false (index : Z) (b : QuantumMemoryBank) :
  in_bounds index b = false
  <-> (index < 0 \/ Z.of_nat (size b) <= index)%Z.
Proof.
  unfold in_bounds. rewrite andb_false_iff, Z.leb_gt, Z.ltb_ge. tauto.
Qed.

(** The three ways [max(0, min(1, x))] goes. *)
Lemma clamp01_cases (x : Q) :
  (x <= 0 /\ Py.max 0 (Py.min 1 x) = 0)
  \/ (0 < x /\ x < 1 /\ Py.max 0 (Py.min 1 x) = x)
  \/ (1 <= x /\ Py.max 0 (Py.min 1 x) = 1).
Proof.
  unfold Py.min. destruct (Py.Qlt_bool x 1) eqn:E1; unfold Py.max.
  - apply Qlt_bool_true in E1. destruct (Py.Qlt_bool 0 x) eqn:E2.
    + apply Qlt_bool_true in E2. right. left. auto.
    + apply Qlt_bool_false in E2. left. auto.
  - apply Qlt_bool_false in E1. right. right. split; [exact E1|reflexivity].
Qed.

Lemma clamp01_range (x : Q) :
  0 <= Py.max 0 (Py.min 1 x) /\ Py.max 0 (Py.min 1 x) <= 1.
Proof.
  destruct (clamp01_cases x) as [[H ->]|[(H & H' & ->)|[H ->]]]; lra.
Qed.

Lemma percent_saturates (value noise : Q) :
  (100 <= value -> 0 <= noise ->
   Py.max 0 (Py.min 1 (Py.max 0 (Py.min 1 (value / 100)) + noise)) * 100
   == 100)
  /\ (value <= 0 -> noise <= 0 ->
      Py.max 0 (Py.min 1 (Py.max 0 (Py.min 1 (value / 100)) + noise)) * 100
      == 0).
Proof.
  assert (Hv : value == value / 100 * 100) by field.
  set (x := value / 100) in *.
  split; intros H0 H1;
    destruct (clamp01_cases x) as [[H ->]|[(H & H' & ->)|[H ->]]];
    match goal with
    | |- Py.max 0 (Py.min 1 ?y) * 100 == _ =>
        destruct (clamp01_cases y) as [[G ->]|[(G & G' & ->)|[G ->]]]
    end; lra.
Qed.

Lemma percent_range (x : Q) :
  0 <= Py.max 0 (Py.min 1 x) * 100
  /\ Py.max 0 (Py.min 1 x) * 100 <= 100.
Proof.
  destruct (clamp01_cases x) as [[H ->]|[(H & H' & ->)|[H ->]]]; lra.
Qed.

Lemma store_effect (index : Z) (value now : Q) (b : QuantumMemoryBank) :
  in_bounds index b = true ->
  fst (store index value now b) = Py.Ok tt
  /\ size (snd (store index value now b)) = size b
  /\ memory_values (snd (store index value now b))
     = set_at (Z.to_nat index) (Py.max 0 (Py.min 1 (value / 100)))
              (memory_values b)
  /\ access_history (snd (store index value now b))
     = Healing.deque_append (access_history b) (AStore, index, now).
Proof.
  intros H. unfold store. rewrite bind_get, H. destruct b. repeat split.
Qed.

Lemma retrieve_effect (index : Z) (now noise : Q) (b : QuantumMemoryBank) :
  in_bounds index b = true ->
  fst (retrieve index now noise b)
  = Py.Ok (Py.max 0 (Py.min 1 (nth (Z.to_nat index) (memory_values b) 0
                               + noise)) * 100)
  /\ size (snd (retrieve index now noise b)) = size b
  /\ memory_values (snd (retrieve index now noise b)) = memory_values b
  /\ access_history (snd (retrieve index now noise b))
     = Healing.deque_append (access_history b) (ARetrieve, index, now).
Proof.
  intros H. unfold retrieve. rewrite bind_get, H. destruct b. repeat split.
Qed.

Lemma entangle_effect (index1 index2 : Z) (strength : Q)
      (b : QuantumMemoryBank) :
  in_bounds index1 b = true -> in_bounds index2 b = true ->
  let i1 := Z.to_nat index1 in
  let i2 := Z.to_nat index2 in
  let mv := memory_values b in
  let avg := (nth i1 mv 0 + nth i2 mv 0) / 2 in
  let mv1 := set_at i1 ((1 - strength) * nth i1 mv 0 + strength * avg) mv in
  fst (entangle_memories index1 index2 strength b) = Py.Ok tt
  /\ size (snd (entangle_memories index1 index2 strength b)) = size b
  /\ memory_values (snd (entangle_memories index1 index2 strength b))
     = set_at i2 ((1 - strength) * nth i2 mv1 0 + strength * avg) mv1
  /\ access_history (snd (entangle_memories index1 index2 strength b))
     = access_history b.
Proof.
  intros H1 H2. unfold entangle_memories. rewrite bind_get, H1, H2.
  destruct b. repeat split.
Qed.

Lemma entangle_map_effect (index1 index2 : Z) (strength : Q)
      (b : QuantumMemoryBank) :
  in_bounds index1 b = true -> in_bounds index2 b = true ->
  entanglement_map (snd (entangle_memories index1 index2 strength b))
  = set_cell (Z.to_nat index2) (Z.to_nat index1) strength
      (set_cell (Z.to_nat index1) (Z.to_nat index2) strength
         (entanglement_map b)).
Proof.
  intros H1 H2. unfold entangle_memories. rewrite bind_get, H1, H2.
  destruct b. reflexivity.
Qed.

Lemma set_at_beyond {A} (n : nat) (v : A) (l : list A) :
  (List.length l <= n)%nat -> set_at n v l = l.
Proof.
  revert n. induction l as [|x l IH]; intros [|n] H; cbn in *;
    try reflexivity; try lia.
  rewrite IH by lia. reflexivity.
Qed.

Lemma cell_set_cell_same (i j : nat) (v : Q) (m : list (list Q)) :
  (i < List.length m)%nat -> (j < List.length (nth i m []))%nat ->
  cell i j (set_cell i j v m) = v.
Proof.
  intros Hi Hj. unfold cell, set_cell.
  rewrite nth_set_at_same by exact Hi. apply nth_set_at_same. exact Hj.
Qed.

Lemma cell_set_cell_other (i j r c : nat) (v : Q) (m : list (list Q)) :
  (r, c) <> (i, j) -> cell r c (set_cell i j v m) = cell r c m.
Proof.
  intros Hne. unfold cell, set_cell.
  destruct (Nat.eq_dec r i) as [->|Hr].
  - destruct (Nat.lt_ge_cases i (List.length m)) as [Hi|Hi].
    + rewrite nth_set_at_same by exact Hi.
      apply nth_set_at_other. congruence.
    + rewrite set_at_beyond by exact Hi. reflexivity.
  - rewrite nth_set_at_other by congruence. reflexivity.
Qed.

Lemma set_cell_dims (i j n : nat) (v : Q) (m : list (list Q)) :
  List.length m = n -> Forall (fun row => List.length row = n) m ->
  List.length (set_cell i j v m) = n
  /\ Forall (fun row => List.length row = n) (set_cell i j v m).
Proof.
  intros Hl Hr. unfold set_cell. split; [rewrite length_set_at; exact Hl|].
  assert (Hrow : List.length (set_at j v (nth i m []))
                 = List.length (nth i m []))
    by apply length_set_at.
  destruct (Nat.lt_ge_cases i (List.length m)) as [Hi|Hi].
  - assert (Hn : List.length (nth i m []) = n).
    { rewrite Forall_forall in Hr. apply Hr. apply nth_In. exact Hi. }
    rewrite Hn in Hrow.
    remember (set_at j v (nth i m [])) as row eqn:E. clear E Hn Hl Hi.
    revert i. induction Hr as [|x l Hx Hr IH]; intros [|i]; cbn [set_at];
      constructor; auto.
  - rewrite set_at_beyond by exact Hi. exact Hr.
Qed.

Lemma failed_call_state (index : Z) (b : QuantumMemoryBank) :
  in_bounds index b = false ->
  forall value now noise other strength,
    store index value now b = (Py.Raise (out_of_range index b), b)
    /\ retrieve index now noise b = (Py.Raise (out_of_range index b), b)
    /\ entangle_memories index other strength b
       = (Py.Raise (Py.ValueError "Memory indices out of range"), b)
    /\ entangle_memories other index strength b
       = (Py.Raise (Py.ValueError "Memory indices out of range"), b).
Proof.
  intros H value now noise other strength.
  unfold store, retrieve, entangle_memories. rewrite !bind_get, H.
  rewrite andb_false_r. repeat split.
Qed.

Lemma count_accesses_ok (history : list (Access * Z * Q)) (counts : list nat) :
  Forall (fun '(_, index, _) =>
            (0 <= index < Z.of_nat (List.length counts))%Z) history ->
  exists counts',
    count_accesses history counts = Py.Ok counts'
    /\ List.length counts' = List.length counts
    /\ forall i, nth i counts' 0%nat
                 = (nth i counts 0 + accesses_of i history)%nat.
Proof.
  revert counts. induction history as [|[[a index] t] rest IH];
    intros counts H; cbn [count_accesses].
  - exists counts. repeat split. intros i. cbn. lia.
  - apply Forall_cons_iff in H. destruct H as [Hi Hrest].
    unfold bump_count.
    replace ((0 <=? index)%Z && (index <? Z.of_nat (List.length counts))%Z)
      with true
      by (symmetry; apply andb_true_iff; rewrite Z.leb_le, Z.ltb_lt; lia).
    destruct (IH (set_at (Z.to_nat index)
                         (S (nth (Z.to_nat index) counts 0%nat)) counts))
      as (counts' & Hc & Hlen & Hnth).
    { rewrite length_set_at. exact Hrest. }
    exists counts'. split; [exact Hc|]. rewrite length_set_at in Hlen.
    split; [exact Hlen|]. intros i. rewrite Hnth.
    unfold accesses_of. cbn [filter].
    destruct (index =? Z.of_nat i)%Z eqn:E.
    + apply Z.eqb_eq in E. subst index. rewrite Nat2Z.id.
      rewrite nth_set_at_same by lia. cbn [List.length]. lia.
    + apply Z.eqb_neq in E. rewrite nth_set_at_other by lia. lia.
Qed.

Lemma map_nth_seq_self (l : list Q) :
  map (fun i => nth i l 0) (seq 0 (List.length l)) = l.
Proof.
  apply (nth_ext _ _ 0 0).
  - rewrite length_map, length_seq. reflexivity.
  - intros n Hn. rewrite length_map, length_seq in Hn.
    apply (nth_map_seq (fun i => nth i l 0)). exact Hn.
Qed.

(** What [optimize_layout] does to a well-formed bank. *)
Lemma optimize_effect (b : QuantumMemoryBank) :
  well_formed b ->
  exists counts,
    get_access_patterns b = Py.Ok counts
    /\ List.length counts = size b
    /\ (forall i, nth i counts 0%nat = accesses_of i (access_history b))
    /\ fst (optimize_layout b) = Py.Ok tt
    /\ size (snd (optimize_layout b)) = size b
    /\ access_history (snd (optimize_layout b)) = access_history b
    /\ memory_values (snd (optimize_layout b))
       = map (fun i => nth i (memory_values b) 0)
             (PySort.sorted_desc (frequency counts) (seq 0 (size b))).
Proof.
  intros [Hlen Hhist]. unfold get_access_patterns.
  destruct (count_accesses_ok (access_history b) (repeat 0%nat (size b)))
    as (counts & Hc & Hl & Hnth).
  { rewrite repeat_length. exact Hhist. }
  exists counts. split; [exact Hc|]. rewrite repeat_length in Hl.
  split; [exact Hl|]. split.
  { intros i. rewrite Hnth, nth_repeat. reflexivity. }
  unfold optimize_layout. rewrite bind_get. unfold get_access_patterns.
  rewrite Hc. destruct b. repeat split.
Qed.

Lemma deque_append_forall {A} (P : A -> Prop) (l : list A) (x : A) :
  Forall P l -> P x -> Forall P (Healing.deque_append l x).
Proof.
  intros Hl Hx. unfold Healing.deque_append.
  assert (H : Forall P (l ++ [x])).
  { apply Forall_app. split; [exact Hl|]. constructor; [exact Hx|constructor]. }
  destruct (Healing.maxlen <? List.length (l ++ [x]))%nat; [|exact H].
  destruct (l ++ [x])%list; [exact H|]. inversion H; assumption.
Qed.

Lemma in_bounds_cases (index : Z) (b : QuantumMemoryBank) :
  in_bounds index b = true \/ in_bounds index b = false.
Proof. destruct (in_bounds index b); auto. Qed.

Lemma step_well_formed (op : Op) (b : QuantumMemoryBank) :
  well_formed b ->
  (List.length (access_history b) <= Healing.maxlen)%nat ->
  well_formed (step op b)
  /\ (List.length (access_history (step op b)) <= Healing.maxlen)%nat.
Proof.
  intros Hwf Hmax. pose proof Hwf as [Hlen Hhist].
  destruct op as [i v t|i t n|i j s|]; cbn [step].
  - destruct (in_bounds_cases i b) as [H|H].
    + destruct (store_effect i v t b H) as (_ & Hs & Hm & Hh).
      unfold well_formed. rewrite Hs, Hm, Hh, length_set_at.
      split; [split; [exact Hlen|]|].
      * apply deque_append_forall; [exact Hhist|].
        apply in_bounds_true. exact H.
      * apply deque_append_bounded. exact Hmax.
    + destruct (failed_call_state i b H v t 0 0%Z 0) as (-> & _). auto.
  - destruct (in_bounds_cases i b) as [H|H].
    + destruct (retrieve_effect i t n b H) as (_ & Hs & Hm & Hh).
      unfold well_formed. rewrite Hs, Hm, Hh.
      split; [split; [exact Hlen|]|].
      * apply deque_append_forall; [exact Hhist|].
        apply in_bounds_true. exact H.
      * apply deque_append_bounded. exact Hmax.
    + destruct (failed_call_state i b H 0 t n 0%Z 0) as (_ & -> & _). auto.
  - destruct (in_bounds_cases i b) as [Hi|Hi];
      [destruct (in_bounds_cases j b) as [Hj|Hj]|].
    + destruct (entangle_effect i j s b Hi Hj) as (_ & Hs & Hm & Hh).
      cbv zeta in Hm. unfold well_formed.
      rewrite Hs, Hm, Hh, !length_set_at. auto.
    + destruct (failed_call_state j b Hj 0 0 0 i s) as (_ & _ & _ & ->). auto.
    + destruct (failed_call_state i b Hi 0 0 0 j s) as (_ & _ & -> & _). auto.
  - destruct (optimize_effect b Hwf) as (counts & _ & _ & _ & _ & Hs & Hh & Hm).
    unfold well_formed. rewrite Hs, Hh, Hm, length_map.
    split; [split; [|exact Hhist]|exact Hmax].
    rewrite <- (Permutation_length (sorted_desc_perm _ _)), length_seq.
    reflexivity.
Qed.

End MemoryFacts.

(** X19. [store], [retrieve] and [entangle_memories] called with an index
    below 0 or not below the size raise ValueError and leave the bank as it
    was: the check comes before any write or record of the access. *)
Theorem memory_rejects_bad_index
  (b : Memory.QuantumMemoryBank) (index other : Z)
  (value now noise strength : Q) :
  (index < 0 \/ Z.of_nat (Memory.size b) <= index)%Z ->
  Memory.store index value now b
  = (Py.Raise (Memory.out_of_range index b), b)
  /\ Memory.retrieve index now noise b
     = (Py.Raise (Memory.out_of_range index b), b)
  /\ Memory.entangle_memories index other strength b
     = (Py.Raise (Py.ValueError "Memory indices out of range"), b)
  /\ Memory.entangle_memories other index strength b
     = (Py.Raise (Py.ValueError "Memory indices out of range"), b).
Proof.
  intros H. apply in_bounds_false in H.
  exact (failed_call_state index b H value now noise other strength).
Qed.

Lemma memory_rejects_bad_index_witness :
  (10 < 0 \/ Z.of_nat (Memory.size (Memory.init 10)) <= 10)%Z
  /\ Memory.store 10 50 0 (Memory.init 10)
     = (Py.Raise (Py.ValueError "Index 10 out of range [0, 9]"),
        Memory.init 10).
Proof.
  assert (H : (10 < 0 \/ Z.of_nat (Memory.size (Memory.init 10)) <= 10)%Z)
    by (right; cbn; lia).
  split; [exact H|].
  exact (proj1 (memory_rejects_bad_index (Memory.init 10) 10 0 50 0 0 0 H)).
Defined.

(** X20. In the classical simulation, [store] at an index of the bank
    returns normally, puts [max(0, min(1, value / 100))] there, a number
    within [0, 1] whatever the value, and touches no other cell.
    [retrieve] of that index then returns a number within [0, 100] whatever
    the noise: exactly 100 for a stored value of at least 100 when the
    noise is not negative, exactly 0 for one of at most 0 when the noise is
    not positive. *)
Theorem store_then_retrieve
  (b : Memory.QuantumMemoryBank) (index : Z) (value t1 t2 : Q) :
  List.length (Memory.memory_values b) = Memory.size b ->
  (0 <= index < Z.of_nat (Memory.size b))%Z ->
  let i := Z.to_nat index in
  let b1 := snd (Memory.store index value t1 b) in
  let stored := nth i (Memory.memory_values b1) 0 in
  fst (Memory.store index value t1 b) = Py.Ok tt
  /\ stored = Py.max 0 (Py.min 1 (value / 100))
  /\ 0 <= stored <= 1
  /\ (forall j, j <> i ->
        nth j (Memory.memory_values b1) 0 = nth j (Memory.memory_values b) 0)
  /\ (forall noise, exists r,
        fst (Memory.retrieve index t2 noise b1) = Py.Ok r
        /\ 0 <= r <= 100
        /\ (100 <= value -> 0 <= noise -> r == 100)
        /\ (value <= 0 -> noise <= 0 -> r == 0)).
Proof.
  intros Hlen Hi i b1 stored.
  assert (Hb : Memory.in_bounds index b = true)
    by (apply in_bounds_true; exact Hi).
  destruct (store_effect index value t1 b Hb) as (Hok & Hs & Hm & _).
  fold b1 in Hs, Hm. fold i in Hm.
  assert (Hb1 : Memory.in_bounds index b1 = true)
    by (apply in_bounds_true; rewrite Hs; exact Hi).
  assert (Hnth : stored = Py.max 0 (Py.min 1 (value / 100))).
  { subst stored. rewrite Hm. apply nth_set_at_same. subst i. lia. }
  split; [exact Hok|]. split; [exact Hnth|].
  split; [rewrite Hnth; apply clamp01_range|].
  split.
  - intros j Hj. rewrite Hm. apply nth_set_at_other. congruence.
  - intros noise.
    destruct (retrieve_effect index t2 noise b1 Hb1) as (Hr & _).
    eexists. split; [exact Hr|]. fold i. fold stored.
    split; [apply percent_range|]. rewrite Hnth.
    apply percent_saturates.
Qed.

Lemma store_then_retrieve_witness :
  List.length (Memory.memory_values (Memory.init 10))
  = Memory.size (Memory.init 10)
  /\ (0 <= 3 < Z.of_nat (Memory.size (Memory.init 10)))%Z
  /\ nth 3 (Memory.memory_values (snd (Memory.store 3 250 1 (Memory.init 10))))
         0
     = Py.max 0 (Py.min 1 (250 / 100))
  /\ exists r,
       fst (Memory.retrieve 3 2 (1 # 20)
              (snd (Memory.store 3 250 1 (Memory.init 10)))) = Py.Ok r
       /\ 0 <= r <= 100
       /\ (100 <= 250 -> 0 <= 1 # 20 -> r == 100)
       /\ (250 <= 0 -> 1 # 20 <= 0 -> r == 0).
Proof.
  assert (H1 : List.length (Memory.memory_values (Memory.init 10))
               = Memory.size (Memory.init 10)) by reflexivity.
  assert (H2 : (0 <= 3 < Z.of_nat (Memory.size (Memory.init 10)))%Z)
    by (cbn; lia).
  split; [exact H1|]. split; [exact H2|].
  destruct (store_then_retrieve (Memory.init 10) 3 250 1 2 H1 H2)
    as (_ & Hst & _ & _ & Hr).
  split; [exact Hst|exact (Hr (1 # 20))].
Defined.

(** X21. On a well-formed bank [optimize_layout] returns normally and
    rearranges the stored values without losing or inventing any: the new
    values are the old ones in the order of the indices sorted by access
    count, most accessed first, ties in index order.  The access history is
    left as it was. *)
Theorem optimize_layout_permutes (b : Memory.QuantumMemoryBank) :
  Memory.well_formed b ->
  exists counts order,
    Memory.get_access_patterns b = Py.Ok counts
    /\ fst (Memory.optimize_layout b) = Py.Ok tt
    /\ Permutation (seq 0 (Memory.size b)) order
    /\ StronglySorted (PySort.ge (Memory.frequency counts)) order
    /\ (forall q,
          filter (PySort.with_key (Memory.frequency counts) q) order
          = filter (PySort.with_key (Memory.frequency counts) q)
                   (seq 0 (Memory.size b)))
    /\ Memory.memory_values (snd (Memory.optimize_layout b))
       = map (fun i => nth i (Memory.memory_values b) 0) order
    /\ Permutation (Memory.memory_values b)
                   (Memory.memory_values (snd (Memory.optimize_layout b)))
    /\ Memory.access_history (snd (Memory.optimize_layout b))
       = Memory.access_history b.
Proof.
  intros Hwf.
  destruct (optimize_effect b Hwf)
    as (counts & Hc & _ & _ & Hok & _ & Hh & Hm).
  exists counts,
    (PySort.sorted_desc (Memory.frequency counts) (seq 0 (Memory.size b))).
  split; [exact Hc|]. split; [exact Hok|].
  split; [apply sorted_desc_perm|].
  split; [apply sorted_desc_sorted|].
  split; [intros q; apply sorted_desc_stable|].
  split; [exact Hm|]. split; [|exact Hh].
  rewrite Hm. destruct Hwf as [Hlen _].
  rewrite <- (map_nth_seq_self (Memory.memory_values b)) at 1.
  rewrite Hlen. apply Permutation_map. apply sorted_desc_perm.
Qed.

Lemma optimize_layout_permutes_witness :
  let b := Memory.run [Memory.OpStore 2 30 0; Memory.OpStore 5 80 1;
                       Memory.OpRetrieve 5 2 0] (Memory.init 10) in
  Memory.well_formed b
  /\ Permutation (Memory.memory_values b)
                 (Memory.memory_values (snd (Memory.optimize_layout b))).
Proof.
  intros b.
  assert (H : Memory.well_formed b).
  { split; [reflexivity|]. subst b. cbn. repeat constructor; lia. }
  split; [exact H|].
  destruct (optimize_layout_permutes b H)
    as (counts & order & _ & _ & _ & _ & _ & _ & Hp & _).
  exact Hp.
Defined.

(** X22. [entangle_memories] on two indices of the bank returns normally
    and records the strength in the entanglement map at both [index1,
    index2] and [index2, index1], leaving every other cell of the map as it
    was; in the classical simulation no stored value other than the two
    named is touched, and the size and the access history are as they
    were. *)
Theorem entangle_records_strength
  (b : Memory.QuantumMemoryBank) (index1 index2 : Z) (strength : Q) :
  List.length (Memory.entanglement_map b) = Memory.size b ->
  Forall (fun row => List.length row = Memory.size b)
         (Memory.entanglement_map b) ->
  (0 <= index1 < Z.of_nat (Memory.size b))%Z ->
  (0 <= index2 < Z.of_nat (Memory.size b))%Z ->
  let i1 := Z.to_nat index1 in
  let i2 := Z.to_nat index2 in
  let b' := snd (Memory.entangle_memories index1 index2 strength b) in
  fst (Memory.entangle_memories index1 index2 strength b) = Py.Ok tt
  /\ Memory.cell i1 i2 (Memory.entanglement_map b') = strength
  /\ Memory.cell i2 i1 (Memory.entanglement_map b') = strength
  /\ (forall r c, (r, c) <> (i1, i2) -> (r, c) <> (i2, i1) ->
        Memory.cell r c (Memory.entanglement_map b')
        = Memory.cell r c (Memory.entanglement_map b))
  /\ (forall j, j <> i1 -> j <> i2 ->
        nth j (Memory.memory_values b') 0 = nth j (Memory.memory_values b) 0)
  /\ Memory.size b' = Memory.size b
  /\ Memory.access_history b' = Memory.access_history b.
Proof.
  intros Hl Hr H1 H2 i1 i2 b'.
  assert (Hb1 : Memory.in_bounds index1 b = true)
    by (apply in_bounds_true; exact H1).
  assert (Hb2 : Memory.in_bounds index2 b = true)
    by (apply in_bounds_true; exact H2).
  destruct (entangle_effect index1 index2 strength b Hb1 Hb2)
    as (Hok & Hs & Hm & Hh).
  pose proof (entangle_map_effect index1 index2 strength b Hb1 Hb2) as He.
  cbv zeta in Hm. fold b' in Hs, Hm, Hh, He. fold i1 i2 in Hm, He.
  assert (Hd : forall i j,
             List.length
               (Memory.set_cell i j strength (Memory.entanglement_map b))
             = Memory.size b
             /\ Forall (fun row => List.length row = Memory.size b)
                  (Memory.set_cell i j strength (Memory.entanglement_map b)))
    by (intros i j; apply set_cell_dims; assumption).
  assert (Hrow : forall (m : list (list Q)) i,
                   List.length m = Memory.size b ->
                   Forall (fun row => List.length row = Memory.size b) m ->
                   (i < Memory.size b)%nat ->
                   List.length (nth i m []) = Memory.size b).
  { intros m i Hm1 Hm2 Hi. rewrite Forall_forall in Hm2. apply Hm2.
    apply nth_In. lia. }
  assert (Hi1 : (i1 < Memory.size b)%nat) by (subst i1; lia).
  assert (Hi2 : (i2 < Memory.size b)%nat) by (subst i2; lia).
  clearbody i1 i2 b'.
  split; [exact Hok|]. rewrite He.
  split; [|split; [|split; [|split; [|split]]]].
  - destruct (Nat.eq_dec i1 i2) as [E|E].
    + subst i2. destruct (Hd i1 i1) as [Hl1 Hr1].
      apply cell_set_cell_same;
        [rewrite Hl1; exact Hi1|rewrite (Hrow _ _ Hl1 Hr1 Hi1); exact Hi1].
    + rewrite cell_set_cell_other by congruence.
      apply cell_set_cell_same;
        [rewrite Hl; exact Hi1|rewrite (Hrow _ _ Hl Hr Hi1); exact Hi2].
  - destruct (Hd i1 i2) as [Hl1 Hr1].
    apply cell_set_cell_same;
      [rewrite Hl1; exact Hi2|rewrite (Hrow _ _ Hl1 Hr1 Hi2); exact Hi1].
  - intros r c Hn1 Hn2. rewrite !cell_set_cell_other by assumption.
    reflexivity.
  - intros j Hj1 Hj2. rewrite Hm. rewrite !nth_set_at_other by congruence.
    reflexivity.
  - exact Hs.
  - exact Hh.
Qed.

Lemma entangle_records_strength_witness :
  let b := Memory.run [Memory.OpStore 2 30 0; Memory.OpStore 5 80 1]
             (Memory.init 10) in
  let b' := snd (Memory.entangle_memories 2 5 (1 # 2) b) in
  List.length (Memory.entanglement_map b) = Memory.size b
  /\ Forall (fun row => List.length row = Memory.size b)
            (Memory.entanglement_map b)
  /\ (0 <= 2 < Z.of_nat (Memory.size b))%Z
  /\ (0 <= 5 < Z.of_nat (Memory.size b))%Z
  /\ Memory.cell (Z.to_nat 2) (Z.to_nat 5) (Memory.entanglement_map b')
     = 1 # 2
  /\ Memory.cell (Z.to_nat 5) (Z.to_nat 2) (Memory.entanglement_map b')
     = 1 # 2.
Proof.
  intros b b'.
  assert (H1 : List.length (Memory.entanglement_map b) = Memory.size b)
    by reflexivity.
  assert (H2 : Forall (fun row => List.length row = Memory.size b)
                      (Memory.entanglement_map b))
    by (repeat constructor).
  assert (H3 : (0 <= 2 < Z.of_nat (Memory.size b))%Z) by (cbn; lia).
  assert (H4 : (0 <= 5 < Z.of_nat (Memory.size b))%Z) by (cbn; lia).
  split; [exact H1|]. split; [exact H2|].
  split; [exact H3|]. split; [exact H4|].
  destruct (entangle_records_strength b 2 5 (1 # 2) H1 H2 H3 H4)
    as (_ & Ha & Hb & _).
  split; [exact Ha|exact Hb].
Defined.

(** X23. Along any sequence of [store], [retrieve], [entangle_memories]
    and [optimize_layout] calls, with any arguments, a well-formed bank
    stays well formed (its values have the bank's size and every recorded
    access is of an index of the bank), its access history never holds
    more than 100 entries, and [optimize_layout] returns normally on it. *)
Theorem memory_stays_well_formed
  (ops : list Memory.Op) (b : Memory.QuantumMemoryBank) :
  Memory.well_formed b ->
  (List.length (Memory.access_history b) <= Healing.maxlen)%nat ->
  Memory.well_formed (Memory.run ops b)
  /\ (List.length (Memory.access_history (Memory.run ops b))
      <= Healing.maxlen)%nat
  /\ fst (Memory.optimize_layout (Memory.run ops b)) = Py.Ok tt.
Proof.
  revert b. unfold Memory.run.
  induction ops as [|op ops IH]; intros b Hwf Hmax; cbn [fold_left].
  - split; [exact Hwf|]. split; [exact Hmax|].
    destruct (optimize_effect b Hwf) as (counts & _ & _ & _ & Hok & _).
    exact Hok.
  - destruct (step_well_formed op b Hwf Hmax) as [Hwf' Hmax'].
    apply IH; assumption.
Qed.

Lemma memory_stays_well_formed_witness :
  let ops := [Memory.OpStore 2 30 0; Memory.OpRetrieve 12 1 0;
              Memory.OpEntangle 2 3 (1 # 2); Memory.OpOptimize] in
  Memory.well_formed (Memory.init 10)
  /\ (List.length (Memory.access_history (Memory.init 10))
      <= Healing.maxlen)%nat
  /\ Memory.well_formed (Memory.run ops (Memory.init 10))
  /\ (List.length (Memory.access_history (Memory.run ops (Memory.init 10)))
      <= Healing.maxlen)%nat
  /\ fst (Memory.optimize_layout (Memory.run ops (Memory.init 10)))
     = Py.Ok tt.
Proof.
  intros ops.
  assert (H1 : Memory.well_formed (Memory.init 10))
    by (split; [reflexivity|constructor]).
  assert (H2 : (List.length (Memory.access_history (Memory.init 10))
                <= Healing.maxlen)%nat) by (cbn; lia).
  split; [exact H1|]. split; [exact H2|].
  exact (memory_stays_well_formed ops (Memory.init 10) H1 H2).
Defined.

(** X24. On a well-formed bank [get_access_patterns] returns, for every
    index of the bank, the number of accesses of that index in the access
    history. *)
Theorem access_patterns_count_history (b : Memory.QuantumMemoryBank) :
  Memory.well_formed b ->
  exists counts,
    Memory.get_access_patterns b = Py.Ok counts
    /\ List.length counts = Memory.size b
    /\ forall i, nth i counts 0%nat
                 = Memory.accesses_of i (Memory.access_history b).
Proof.
  intros Hwf.
  destruct (optimize_effect b Hwf) as (counts & Hc & Hl & Hn & _).
  exists counts. auto.
Qed.

Lemma access_patterns_count_history_witness :
  let b := Memory.run [Memory.OpStore 2 30 0; Memory.OpStore 5 80 1;
                       Memory.OpRetrieve 5 2 0] (Memory.init 10) in
  Memory.well_formed b
  /\ exists counts,
       Memory.get_access_patterns b = Py.Ok counts
       /\ List.length counts = Memory.size b
       /\ forall i, nth i counts 0%nat
                    = Memory.accesses_of i (Memory.access_history b).
Proof.
  intros b.
  assert (H : Memory.well_formed b).
  { split; [reflexivity|]. subst b. cbn. repeat constructor; lia. }
  split; [exact H|].
  exact (access_patterns_count_history b H).
Defined.

(** ** quantum_relu *)

Lemma relu_cases (x alpha : Q) :
  (0 < x /\ Quantum.quantum_relu x alpha == x)
  \/ (x <= 0 /\ Quantum.quantum_relu x alpha == alpha * x).
Proof.
  unfold Quantum.quantum_relu, Py.max, Py.min.
  destruct (Py.Qlt_bool 0 x) eqn:E1; destruct (Py.Qlt_bool x 0) eqn:E2;
    try apply Qlt_bool_true in E1; try apply Qlt_bool_false in E1;
    try apply Qlt_bool_true in E2; try apply Qlt_bool_false in E2.
  - lra.
  - left. split; [exact E1|ring].
  - right. split; [exact E1|ring].
  - right. split; [exact E1|]. assert (x == 0) by lra. nra.
Qed.

(** X25. [quantum_relu] is the identity on positive inputs and the slope
    [alpha] elsewhere, whatever the slope; with a slope that is not negative
    it never decreases as its input grows. *)
Theorem quantum_relu_monotone (x y alpha : Q) :
  (0 < x -> Quantum.quantum_relu x alpha == x)
  /\ (x <= 0 -> Quantum.quantum_relu x alpha == alpha * x)
  /\ (0 <= alpha -> x <= y ->
      Quantum.quantum_relu x alpha <= Quantum.quantum_relu y alpha).
Proof.
  destruct (relu_cases x alpha) as [[Hx Ex]|[Hx Ex]].
  - split; [intros _; exact Ex|]. split; [intros H; lra|].
    intros Ha Hxy.
    destruct (relu_cases y alpha) as [[Hy Ey]|[Hy Ey]]; rewrite Ex, Ey; nra.
  - split; [intros H; lra|]. split; [intros _; exact Ex|].
    intros Ha Hxy.
    destruct (relu_cases y alpha) as [[Hy Ey]|[Hy Ey]]; rewrite Ex, Ey; nra.
Qed.

Lemma quantum_relu_monotone_witness :
  - (3) <= 0 /\ 0 <= Quantum.default_alpha /\ - (3) <= 2
  /\ Quantum.quantum_relu (- (3)) (- (2)) == - (2) * - (3)
  /\ Quantum.quantum_relu (- (3)) Quantum.default_alpha
     <= Quantum.quantum_relu 2 Quantum.default_alpha.
Proof.
  assert (H0 : - (3) <= 0) by discriminate.
  assert (H1 : 0 <= Quantum.default_alpha) by discriminate.
  assert (H2 : - (3) <= 2) by discriminate.
  split; [exact H0|]. split; [exact H1|]. split; [exact H2|]. split.
  - exact (proj1 (proj2 (quantum_relu_monotone (- (3)) 2 (- (2)))) H0).
  - exact (proj2 (proj2 (quantum_relu_monotone
                           (- (3)) 2 Quantum.default_alpha)) H1 H2).
Defined.

(** ** The loop at rest *)

Section IdleFacts.

Import Warp WarpSpec.

Lemma lookup_activate (key : string) (b : bool) (ts : list (string * Team))
      (t : Team) :
  lookup key ts = Some t ->
  lookup key (activate key b ts) = Some (mkTeam (name t) b (efficiency t)).
Proof.
  induction ts as [|[k t0] ts IH]; cbn [lookup activate]; [discriminate|].
  destruct (k =? key) eqn:E; cbn [lookup]; rewrite E.
  - intros [= ->]. reflexivity.
  - exact IH.
Qed.

Lemma iteration_idle (env : Tick) (s : WarpSystem) :
  idle s -> exists s', iteration env s = (Py.Ok Next, s') /\ idle s'.
Proof.
  intros (Hp & (t & Ht & He) & Hr).
  destruct s as [ph teams st ls ct mt cs mc th ws dth er mer sci].
  cbn [phase all_teams error_rate max_error_rate] in Hp, Ht, Hr. subst ph.
  unfold iteration. rewrite bind_get.
  match goal with |- context [if ?c then _ else _] => destruct c end.
  { eexists. split; [reflexivity|]. repeat split; eauto. }
  assert (Hs : _check_stability
                 (mkWarpSystem (PInt INITIALIZATION) teams st ls ct mt cs mc
                               th ws dth er mer sci) = true).
  { unfold _check_stability. cbn [error_rate max_error_rate].
    apply Qlt_bool_false in Hr. rewrite Hr. reflexivity. }
  rewrite Hs. cbn [negb]. rewrite andb_false_r.
  unfold transitions. rewrite bind_get.
  cbn [phase phase_eq gated INITIALIZATION Z.eqb Pos.eqb].
  unfold _check_team_efficiency. unfold Py.bind at 1. rewrite bind_get.
  cbn [all_teams]. rewrite Ht.
  assert (Hq : Qle_bool (8 # 10) (efficiency t) = false).
  { destruct (Qle_bool (8 # 10) (efficiency t)) eqn:E; [|reflexivity].
    apply Qle_bool_iff in E. lra. }
  rewrite Hq. eexists. split; [reflexivity|].
  repeat split; eauto.
Qed.

Lemma process_phase_idle (envs : list Tick) (s : WarpSystem) :
  idle s -> exists s', _process_phase envs s = (Py.Ok Running, s') /\ idle s'.
Proof.
  revert s. induction envs as [|env envs IH]; intros s Hs;
    cbn [_process_phase].
  - exists s. split; [reflexivity|exact Hs].
  - unfold Py.bind. destruct (iteration_idle env s Hs) as (s1 & -> & Hs1).
    apply IH. exact Hs1.
Qed.

End IdleFacts.

(** X26. A run started by [start_warp_sequence] never leaves phase 1: for
    every sequence of resource and clock readings, and whatever the teams'
    efficiencies and the error rate, the loop is not left by [break], the
    phase is still the integer 1 and the light-speed flag is as it was. *)
Theorem start_never_leaves_initialization
  (now : Q) (envs : list Warp.Tick) (w : Warp.WarpSystem) :
  let out := Warp.start_warp_sequence now envs w in
  fst out <> Py.Ok Warp.Halted
  /\ Warp.phase (snd out) = Warp.PInt Warp.INITIALIZATION
  /\ Warp.is_light_speed (snd out) = Warp.is_light_speed w.
Proof.
  cbv zeta.
  destruct w as [ph teams st ls ct mt cs mc th ws dth er mer sci].
  unfold Warp.start_warp_sequence, Warp.set_team_active, Py.bind, Py.modify,
    Py.get.
  cbn [Warp.set_phase Warp.all_teams].
  destruct (Warp.lookup "team1" teams) as [team|].
  - cbn [Py.raise Warp.set_all_teams Warp.set_start_time Warp.all_teams
         Warp.phase Warp.current_phase_start_time Warp.is_light_speed
         Warp.cpu_threshold Warp.memory_threshold Warp.complexity_score
         Warp.max_complexity Warp.task_history Warp.window_size
         Warp.diversity_threshold Warp.error_rate Warp.max_error_rate
         Warp.stability_check_interval].
    match goal with
    | |- context [Warp._process_phase envs ?s] =>
        exact (process_phase_stays_initial envs s eq_refl)
    end.
  - repeat split. discriminate.
Qed.

(** X27. With team 1 below the efficiency threshold of 0.8 and the error
    rate within its bound, as in a new warp system, the loop started by
    [start_warp_sequence] goes on for as many passes as it is given: it
    neither breaks nor raises. *)
Theorem start_runs_on_while_idle
  (now : Q) (envs : list Warp.Tick) (w : Warp.WarpSystem) (t : Warp.Team) :
  Warp.lookup "team1" (Warp.all_teams w) = Some t ->
  Warp.efficiency t < 8 # 10 ->
  Warp.error_rate w <= Warp.max_error_rate w ->
  fst (Warp.start_warp_sequence now envs w) = Py.Ok Warp.Running.
Proof.
  intros Ht He Hr.
  destruct w as [ph teams st ls ct mt cs mc th ws dth er mer sci].
  cbn [Warp.all_teams Warp.error_rate Warp.max_error_rate] in Ht, Hr.
  unfold Warp.start_warp_sequence, Warp.set_team_active, Py.bind, Py.modify,
    Py.get.
  cbn [Warp.set_phase Warp.all_teams]. rewrite Ht.
  cbn [Warp.set_all_teams Warp.set_start_time Warp.all_teams
       Warp.phase Warp.current_phase_start_time Warp.is_light_speed
       Warp.cpu_threshold Warp.memory_threshold Warp.complexity_score
       Warp.max_complexity Warp.task_history Warp.window_size
       Warp.diversity_threshold Warp.error_rate Warp.max_error_rate
       Warp.stability_check_interval].
  match goal with
  | |- context [Warp._process_phase envs ?s] =>
      destruct (process_phase_idle envs s) as (s' & -> & _)
  end; [|reflexivity].
  split; [reflexivity|]. split; [|exact Hr].
  eexists. split; [apply lookup_activate; exact Ht|exact He].
Qed.

Lemma start_runs_on_while_idle_witness :
  Warp.lookup "team1" (Warp.all_teams Warp.init)
  = Some (Warp.new_team "Initialization")
  /\ Warp.efficiency (Warp.new_team "Initialization") < 8 # 10
  /\ Warp.error_rate Warp.init <= Warp.max_error_rate Warp.init
  /\ fst (Warp.start_warp_sequence 0
            [Scenario.calm_tick; Scenario.calm_tick] Warp.init)
     = Py.Ok Warp.Running.
Proof.
  assert (H1 : Warp.lookup "team1" (Warp.all_teams Warp.init)
               = Some (Warp.new_team "Initialization")) by reflexivity.
  assert (H2 : Warp.efficiency (Warp.new_team "Initialization") < 8 # 10)
    by reflexivity.
  assert (H3 : Warp.error_rate Warp.init <= Warp.max_error_rate Warp.init)
    by discriminate.
  split; [exact H1|]. split; [exact H2|]. split; [exact H3|].
  exact (start_runs_on_while_idle 0 [Scenario.calm_tick; Scenario.calm_tick]
           Warp.init (Warp.new_team "Initialization") H1 H2 H3).
Defined.
